(** * Ouroboros medium / light node: aggregation and liveness coordination

    A shallow embedding of [ouro_py/ouro_medium/main.py] (class [MediumNode])
    and of [ouro_py/ouro_light/main.py] (method [LightNode.discover_aggregator]).

    Conventions of the embedding:
    - a Python [str] is the list of its Unicode code points ([pystr]);
      [bytes] is a list of byte values; both over [N];
    - a JSON value as returned by [json.loads] is the inductive [json];
      a Python [dict] is an association list kept in insertion order;
    - every [await] is a scheduling point: a handler or a loop body is cut
      into the atomic pieces between its awaits, and what the awaited call
      returns (an HTTP status, a transport error, the clock, a fresh UUID)
      is an explicit argument;
    - [log.info] / [log.warning] calls are returned as a list of structured
      log records;
    - an exception that escapes is a value of [result]. *)

From Stdlib Require Import String Ascii DecimalString.
From Stdlib Require Import List NArith ZArith QArith Bool Lia Permutation.
Import ListNotations.
Close Scope Q_scope.

Set Implicit Arguments.
Set Warnings "-register-all".

(* ================================================================== *)
(** ** Python values: strings, bytes, exceptions *)

Module Py.

Local Open Scope N_scope.

(** A Python [str]: a sequence of code points. *)
Definition pystr := list N.

(** A Python [bytes] object: a sequence of values below 256. *)
Definition pybytes := list N.

(** A source literal (ASCII only in the two files embedded here). *)
Definition lit (s : string) : pystr :=
  map N_of_ascii (list_ascii_of_string s).

Definition pystr_eqb (a b : pystr) : bool :=
  if list_eq_dec N.eq_dec a b then true else false.

(** The exceptions the embedded code can meet. *)
Inductive pyexc :=
| TypeError
| KeyError
| AttributeError
| UnicodeEncodeError.

(** Result of a computation that may raise. *)
Inductive result (A : Type) :=
| Ok (a : A)
| Raise (e : pyexc).
Arguments Ok {A} a.
Arguments Raise {A} e.

Definition bind {A B} (m : result A) (k : A -> result B) : result B :=
  match m with
  | Ok a => k a
  | Raise e => Raise e
  end.

(** [l[:n]] and [l[n:]] for a non-negative [n]. *)
Definition slice_to {A} (n : nat) (l : list A) : list A := firstn n l.
Definition slice_from {A} (n : nat) (l : list A) : list A := skipn n l.

(** [l[-n:]] for a positive [n]: the last [n] items, or all of them. *)
Definition slice_last {A} (n : nat) (l : list A) : list A :=
  skipn (length l - n) l.

(** [str(i)] for an [int]. *)
Definition str_of_Z (z : Z) : pystr := lit (NilZero.string_of_int (Z.to_int z)).
Definition str_of_nat (n : nat) : pystr := str_of_Z (Z.of_nat n).

(** [str.isspace] on one code point (the Unicode White_Space set together
    with the four information separators, as CPython has it). *)
Definition isspace (c : N) : bool :=
  ((9 <=? c) && (c <=? 13)) || ((28 <=? c) && (c <=? 32))
  || (c =? 133) || (c =? 160) || (c =? 5760)
  || ((8192 <=? c) && (c <=? 8202))
  || (c =? 8232) || (c =? 8233) || (c =? 8239) || (c =? 8287)
  || (c =? 12288).

Fixpoint lstrip (s : pystr) : pystr :=
  match s with
  | c :: r => if isspace c then lstrip r else s
  | [] => []
  end.

(** [s.strip()] *)
Definition strip (s : pystr) : pystr := rev (lstrip (rev (lstrip s))).

(** UTF-8 encoding of one code point; surrogates and values that are not
    code points are refused, as [str.encode] does. *)
Definition utf8_char (c : N) : result pybytes :=
  if c <? 128 then Ok [c]
  else if c <? 2048 then
    Ok [192 + c / 64; 128 + c mod 64]
  else if c <? 65536 then
    if (55296 <=? c) && (c <=? 57343) then Raise UnicodeEncodeError
    else Ok [224 + c / 4096; 128 + (c / 64) mod 64; 128 + c mod 64]
  else if c <? 1114112 then
    Ok [240 + c / 262144; 128 + (c / 4096) mod 64;
        128 + (c / 64) mod 64; 128 + c mod 64]
  else Raise UnicodeEncodeError.

(** [s.encode()] (UTF-8 is the default encoding). *)
Fixpoint encode (s : pystr) : result pybytes :=
  match s with
  | [] => Ok []
  | c :: r =>
      bind (utf8_char c) (fun bs =>
      bind (encode r) (fun rest => Ok (bs ++ rest)))
  end.

Definition hexdigit (d : N) : N :=
  if d <? 10 then 48 + d else 87 + d.

(** [b.hex()] *)
Definition hex (b : pybytes) : pystr :=
  flat_map (fun x => [hexdigit (x / 16); hexdigit (x mod 16)]) b.

(** [t in s] for two strings: [t] occurs in [s] as a substring. *)
Fixpoint starts_with (t s : pystr) : bool :=
  match t, s with
  | [], _ => true
  | _ :: _, [] => false
  | a :: t', b :: s' => (a =? b) && starts_with t' s'
  end.

Fixpoint substring_of (t s : pystr) : bool :=
  starts_with t s ||
  match s with
  | [] => false
  | _ :: s' => substring_of t s'
  end.

End Py.

(* ================================================================== *)
(** ** [hashlib.sha256]: FIPS 180-4 SHA-256 over byte lists *)

Module Sha256.

Import Py.
Local Open Scope N_scope.

Definition mask32 : N := 4294967295.

Definition add32 (a b : N) : N := N.land (a + b) mask32.

Definition rotr (n x : N) : N :=
  N.lor (N.shiftr x n) (N.land (N.shiftl x (32 - n)) mask32).

Definition not32 (x : N) : N := N.lxor x mask32.

Definition choose (x y z : N) : N :=
  N.lxor (N.land x y) (N.land (not32 x) z).

Definition majority (x y z : N) : N :=
  N.lxor (N.lxor (N.land x y) (N.land x z)) (N.land y z).

Definition big_sigma0 (x : N) : N :=
  N.lxor (N.lxor (rotr 2 x) (rotr 13 x)) (rotr 22 x).
Definition big_sigma1 (x : N) : N :=
  N.lxor (N.lxor (rotr 6 x) (rotr 11 x)) (rotr 25 x).
Definition small_sigma0 (x : N) : N :=
  N.lxor (N.lxor (rotr 7 x) (rotr 18 x)) (N.shiftr x 3).
Definition small_sigma1 (x : N) : N :=
  N.lxor (N.lxor (rotr 17 x) (rotr 19 x)) (N.shiftr x 10).

Definition round_constants : list N :=
  [
    1116352408; 1899447441; 3049323471; 3921009573; 961987163; 1508970993;
    2453635748; 2870763221; 3624381080; 310598401; 607225278; 1426881987;
    1925078388; 2162078206; 2614888103; 3248222580; 3835390401; 4022224774;
    264347078; 604807628; 770255983; 1249150122; 1555081692; 1996064986;
    2554220882; 2821834349; 2952996808; 3210313671; 3336571891; 3584528711;
    113926993; 338241895; 666307205; 773529912; 1294757372; 1396182291;
    1695183700; 1986661051; 2177026350; 2456956037; 2730485921; 2820302411;
    3259730800; 3345764771; 3516065817; 3600352804; 4094571909; 275423344;
    430227734; 506948616; 659060556; 883997877; 958139571; 1322822218;
    1537002063; 1747873779; 1955562222; 2024104815; 2227730452; 2361852424;
    2428436474; 2756734187; 3204031479; 3329325298
  ].

(** The eight chaining words. *)
Record chain := Chain {
  ha : N; hb : N; hc : N; hd : N; he : N; hf : N; hg : N; hh : N
}.

Definition initial_chain : chain :=
  Chain 1779033703 3144134277 1013904242 2773480762
        1359893119 2600822924 528734635 1541459225.

(** Big-endian serialisation of a 32-bit and of a 64-bit quantity. *)
Definition be32 (w : N) : pybytes :=
  [ (w / 16777216) mod 256; (w / 65536) mod 256; (w / 256) mod 256; w mod 256 ].

Definition be64 (w : N) : pybytes :=
  be32 ((w / 4294967296) mod 4294967296) ++ be32 (w mod 4294967296).

(** Message padding: a 1 bit, zeros, and the bit length on 64 bits. *)
Definition zero_fill (len : nat) : nat :=
  ((64 - (len + 9) mod 64) mod 64)%nat.

Definition pad (msg : pybytes) : pybytes :=
  msg ++ [128] ++ repeat 0 (zero_fill (length msg))
      ++ be64 (8 * N.of_nat (length msg)).

Fixpoint blocks (fuel : nat) (l : pybytes) : list pybytes :=
  match fuel with
  | O => []
  | S k =>
      match l with
      | [] => []
      | _ => firstn 64 l :: blocks k (skipn 64 l)
      end
  end.

Fixpoint words (bs : pybytes) : list N :=
  match bs with
  | b0 :: b1 :: b2 :: b3 :: r =>
      (b0 * 16777216 + b1 * 65536 + b2 * 256 + b3) :: words r
  | _ => []
  end.

(** Message schedule: sixteen block words extended to sixty-four. *)
Fixpoint extend (n : nat) (w : list N) : list N :=
  match n with
  | O => w
  | S k =>
      let t := length w in
      let x := add32 (add32 (small_sigma1 (nth (t - 2) w 0)) (nth (t - 7) w 0))
                     (add32 (small_sigma0 (nth (t - 15) w 0)) (nth (t - 16) w 0)) in
      extend k (w ++ [x])
  end.

Definition schedule (block : pybytes) : list N := extend 48 (words block).

Definition round (v : chain) (kw : N * N) : chain :=
  let (k, w) := kw in
  let t1 := add32 (add32 (add32 (hh v) (big_sigma1 (he v)))
                         (add32 (choose (he v) (hf v) (hg v)) k)) w in
  let t2 := add32 (big_sigma0 (ha v)) (majority (ha v) (hb v) (hc v)) in
  Chain (add32 t1 t2) (ha v) (hb v) (hc v) (add32 (hd v) t1) (he v) (hf v) (hg v).

Definition compress (h : chain) (block : pybytes) : chain :=
  let v := fold_left round (combine round_constants (schedule block)) h in
  Chain (add32 (ha h) (ha v)) (add32 (hb h) (hb v))
        (add32 (hc h) (hc v)) (add32 (hd h) (hd v))
        (add32 (he h) (he v)) (add32 (hf h) (hf v))
        (add32 (hg h) (hg v)) (add32 (hh h) (hh v)).

Definition serialize (h : chain) : pybytes :=
  be32 (ha h) ++ be32 (hb h) ++ be32 (hc h) ++ be32 (hd h) ++
  be32 (he h) ++ be32 (hf h) ++ be32 (hg h) ++ be32 (hh h).

(** [hashlib.sha256(msg).digest()] *)
Definition sha256 (msg : pybytes) : pybytes :=
  let p := pad msg in
  serialize (fold_left compress (blocks (length p) p) initial_chain).

End Sha256.

(* ================================================================== *)
(** ** JSON values and the Python operations applied to them *)

Module Json.

Import Py.

(** What [json.loads] returns.  A [float] is carried as the rational it
    denotes; no code embedded here computes with one. *)
Inductive json :=
| JNull
| JBool (b : bool)
| JInt (z : Z)
| JFloat (q : Q)
| JStr (s : pystr)
| JArr (l : list json)
| JObj (d : list (pystr * json)).

(** A Python [dict] with [str] keys, in insertion order. *)
Definition dict := list (pystr * json).

(** [d.get(k)] *)
Fixpoint dict_get (k : pystr) (d : dict) : option json :=
  match d with
  | [] => None
  | (k', v) :: r => if pystr_eqb k k' then Some v else dict_get k r
  end.

(** [d.get(k, default)] *)
Definition dict_get_default (k : pystr) (default : json) (d : dict) : json :=
  match dict_get k d with
  | Some v => v
  | None => default
  end.

(** [d[k] = v]: an existing key keeps its place, a new one goes last. *)
Fixpoint dict_set (k : pystr) (v : json) (d : dict) : dict :=
  match d with
  | [] => [(k, v)]
  | (k', v') :: r =>
      if pystr_eqb k k' then (k', v) :: r else (k', v') :: dict_set k v r
  end.

Definition is_str (t : pystr) (j : json) : bool :=
  match j with
  | JStr s => pystr_eqb t s
  | _ => false
  end.

(** [field in tx] for a [str] field and whatever [tx] was parsed to:
    key membership in a dict, item membership in a list, substring test
    on a string, [TypeError] on anything else. *)
Definition py_contains (field : pystr) (tx : json) : result bool :=
  match tx with
  | JObj d => Ok (match dict_get field d with Some _ => true | None => false end)
  | JArr l => Ok (existsb (is_str field) l)
  | JStr s => Ok (substring_of field s)
  | _ => Raise TypeError
  end.

(** [tx[k] = v] *)
Definition py_setitem (k : pystr) (v : json) (tx : json) : result dict :=
  match tx with
  | JObj d => Ok (dict_set k v d)
  | _ => Raise TypeError
  end.

(** [d[k]] *)
Definition py_getitem (k : pystr) (d : dict) : result json :=
  match dict_get k d with
  | Some v => Ok v
  | None => Raise KeyError
  end.

(** [v[:8]]: defined on strings and lists; numbers, booleans and [None]
    are not subscriptable, and a dict refuses a slice as a key. *)
Definition py_slice8 (v : json) : result json :=
  match v with
  | JStr s => Ok (JStr (slice_to 8 s))
  | JArr l => Ok (JArr (slice_to 8 l))
  | _ => Raise TypeError
  end.

(** [enumerate(l)] *)
Fixpoint enumerate_from {A} (i : nat) (l : list A) : list (nat * A) :=
  match l with
  | [] => []
  | x :: r => (i, x) :: enumerate_from (S i) r
  end.
Definition enumerate {A} (l : list A) : list (nat * A) := enumerate_from 0 l.

(** [sep.join(items)] for the empty separator: every item must be a [str]. *)
Fixpoint join (items : list json) : result pystr :=
  match items with
  | [] => Ok []
  | JStr s :: r => bind (join r) (fun t => Ok (s ++ t))
  | _ :: _ => Raise TypeError
  end.

End Json.

(* ================================================================== *)
(** ** The medium node ([ouro_medium/main.py]) *)

Module Medium.

Import Py Json.
Local Open Scope Z_scope.

(** The attributes [MediumNode.__init__] sets. *)
Record MediumNode := mkMediumNode {
  node_id : pystr;
  api_port : Z;
  role : pystr;
  start_time : Q;
  heavy_online : bool;
  shadow_mode : bool;
  heavy_addr : pystr;
  tx_count : Z;
  batches_submitted : Z;
  last_heavy_heartbeat : Q;
  mempool : list dict
}.

(** [MediumNode(node_id, api_port)], with the clock and [HEAVY_ADDR] read
    at construction. *)
Definition init (node_id0 : pystr) (api_port0 : Z) (now : Q)
           (env_HEAVY_ADDR : option pystr) : MediumNode :=
  {| node_id := node_id0;
     api_port := api_port0;
     role := lit "medium";
     start_time := now;
     heavy_online := false;
     shadow_mode := false;
     heavy_addr := match env_HEAVY_ADDR with
                   | Some a => a
                   | None => lit "http://localhost:8000"
                   end;
     tx_count := 0;
     batches_submitted := 0;
     last_heavy_heartbeat := 0%Q;
     mempool := [] |}.

(** Attribute assignments. *)
Definition set_heavy_online (b : bool) (self : MediumNode) : MediumNode :=
  mkMediumNode (node_id self) (api_port self) (role self) (start_time self)
    b (shadow_mode self) (heavy_addr self) (tx_count self)
    (batches_submitted self) (last_heavy_heartbeat self) (mempool self).

Definition set_shadow_mode (b : bool) (self : MediumNode) : MediumNode :=
  mkMediumNode (node_id self) (api_port self) (role self) (start_time self)
    (heavy_online self) b (heavy_addr self) (tx_count self)
    (batches_submitted self) (last_heavy_heartbeat self) (mempool self).

Definition set_tx_count (n : Z) (self : MediumNode) : MediumNode :=
  mkMediumNode (node_id self) (api_port self) (role self) (start_time self)
    (heavy_online self) (shadow_mode self) (heavy_addr self) n
    (batches_submitted self) (last_heavy_heartbeat self) (mempool self).

Definition set_batches_submitted (n : Z) (self : MediumNode) : MediumNode :=
  mkMediumNode (node_id self) (api_port self) (role self) (start_time self)
    (heavy_online self) (shadow_mode self) (heavy_addr self) (tx_count self)
    n (last_heavy_heartbeat self) (mempool self).

Definition set_last_heavy_heartbeat (t : Q) (self : MediumNode) : MediumNode :=
  mkMediumNode (node_id self) (api_port self) (role self) (start_time self)
    (heavy_online self) (shadow_mode self) (heavy_addr self) (tx_count self)
    (batches_submitted self) t (mempool self).

Definition set_mempool (m : list dict) (self : MediumNode) : MediumNode :=
  mkMediumNode (node_id self) (api_port self) (role self) (start_time self)
    (heavy_online self) (shadow_mode self) (heavy_addr self) (tx_count self)
    (batches_submitted self) (last_heavy_heartbeat self) m.

(** What an awaited HTTP call comes back with: a response with its status,
    or an exception raised inside the [try] (timeout, refused connection,
    DNS failure). *)
Inductive http_outcome :=
| Responded (status : Z)
| Failed.

(** The records handed to [log.info] and [log.warning]. *)
Inductive log_record :=
| LogTxReceived (sender8 recipient8 amount : json)
| LogHeavyBackOnline
| LogEnteringShadow
| LogDetectedPublicIp (ip : pystr)
| LogAdvertisingWith (public_ip : pystr) (port : Z)
| LogAdvertised
| LogAdvertiseHttp (status : Z)
| LogAdvertiseError
| LogAnchored (leaves : nat) (root_preview : pystr)
| LogAnchorHttpRequeue (status : Z) (leaves : nat)
| LogAnchorErrorRequeue (leaves : nat).

(** What a request handler hands back to aiohttp: a JSON response, or an
    exception, which aiohttp turns into a 500. *)
Inductive handler_result :=
| JsonResponse (status : Z) (body : dict)
| Unhandled (e : pyexc).

(** *** [submit_tx] *)

Definition required : list pystr :=
  [lit "sender"; lit "recipient"; lit "amount"].

(** The loop over [required]: the first field not in [tx], if any. *)
Fixpoint first_missing (fields : list pystr) (tx : json) : result (option pystr) :=
  match fields with
  | [] => Ok None
  | field :: rest =>
      bind (py_contains field tx) (fun present =>
      if negb present then Ok (Some field) else first_missing rest tx)
  end.

(** [be_bytes k n]: the [k] low bytes of [n], most significant first. *)
Fixpoint be_bytes (k : nat) (n : N) : pybytes :=
  match k with
  | O => []
  | S k' => be_bytes k' (n / 256)%N ++ [(n mod 256)%N]
  end.

(** [str(u)] for a [uuid.UUID] whose 128-bit integer is [u]. *)
Definition uuid_str (u : N) : pystr :=
  let h := hex (be_bytes 16 u) in
  slice_to 8 h ++ lit "-" ++ slice_to 4 (slice_from 8 h) ++ lit "-"
  ++ slice_to 4 (slice_from 12 h) ++ lit "-"
  ++ slice_to 4 (slice_from 16 h) ++ lit "-" ++ slice_from 20 h.

(** The handler.  [body] is what [await request.json()] gave ([None] when
    it raised), [uuid4] the integer of the UUID drawn by [uuid.uuid4()],
    [now] the reading of [time.time()]. *)
Definition submit_tx (self : MediumNode) (body : option json)
           (uuid4 : N) (now : Q)
  : MediumNode * handler_result * list log_record :=
  match body with
  | None => (self, JsonResponse 400 [(lit "error", JStr (lit "Invalid JSON"))], [])
  | Some tx =>
      match first_missing required tx with
      | Raise e => (self, Unhandled e, [])
      | Ok (Some field) =>
          (self,
           JsonResponse 400
             [(lit "error", JStr (lit "Missing required field: " ++ field))],
           [])
      | Ok None =>
          match py_setitem (lit "id") (JStr (uuid_str uuid4)) tx with
          | Raise e => (self, Unhandled e, [])
          | Ok tx1 =>
              let tx2 := dict_set (lit "received_at") (JFloat now) tx1 in
              let self1 := set_mempool (mempool self ++ [tx2]) self in
              let self2 := set_tx_count (tx_count self1 + 1) self1 in
              match
                bind (py_getitem (lit "sender") tx2) (fun s =>
                bind (py_slice8 s) (fun s8 =>
                bind (py_getitem (lit "recipient") tx2) (fun r =>
                bind (py_slice8 r) (fun r8 =>
                bind (py_getitem (lit "amount") tx2) (fun a =>
                Ok (LogTxReceived s8 r8 a))))))
              with
              | Raise e => (self2, Unhandled e, [])
              | Ok entry =>
                  match py_getitem (lit "id") tx2 with
                  | Raise e => (self2, Unhandled e, [entry])
                  | Ok id =>
                      (self2,
                       JsonResponse 200
                         [(lit "status", JStr (lit "accepted"));
                          (lit "tx_id", id)],
                       [entry])
                  end
              end
          end
      end
  end.

(** *** [get_mempool] *)
Definition get_mempool (self : MediumNode) : Z * list dict :=
  (Z.of_nat (length (mempool self)), slice_last 50 (mempool self)).

(** *** [monitor_heavy_nodes] *)

Definition _handle_heavy_offline (self : MediumNode)
  : MediumNode * list log_record :=
  let logs := if heavy_online self then [LogEnteringShadow] else [] in
  (set_shadow_mode true (set_heavy_online false self), logs).

(** One turn of the loop, from the answer to the health probe on. *)
Definition monitor_heavy_nodes (self : MediumNode) (probe : http_outcome)
           (now : Q) : MediumNode * list log_record :=
  match probe with
  | Responded status =>
      if status =? 200 then
        let self1 := set_heavy_online true self in
        let self2 := set_last_heavy_heartbeat now self1 in
        if shadow_mode self2
        then (set_shadow_mode false self2, [LogHeavyBackOnline])
        else (self2, [])
      else _handle_heavy_offline self
  | Failed => _handle_heavy_offline self
  end.

(** *** [_detect_public_addr] *)

(** What one external what-is-my-IP service does: the request raises, or
    a response comes back with a status and a body. *)
Inductive service_outcome :=
| ServiceRaised
| ServiceReplied (status : Z) (text : pystr).

(** The surroundings the resolver consults, each at most once. *)
Record AddrEnv := {
  env_PUBLIC_ADDR : option pystr;          (* os.getenv("PUBLIC_ADDR") *)
  ip_service : pystr -> service_outcome;   (* GET url, 4 s timeout *)
  outbound_socket : option pystr;          (* local end of a UDP socket
                                              connected to 8.8.8.8:80;
                                              [None] when that raises *)
  gethostbyname : option pystr             (* [None] when that raises *)
}.

Definition ip_service_urls : list pystr :=
  [lit "https://api.ipify.org"; lit "https://api4.my-ip.io/ip"].

Definition nonempty {A} (l : list A) : bool :=
  match l with
  | [] => false
  | _ :: _ => true
  end.

(** The [for url in ...] loop: the address returned from inside it, if
    any, and the records logged. *)
Fixpoint external_ip (env : AddrEnv) (urls : list pystr)
  : option pystr * list log_record :=
  match urls with
  | [] => (None, [])
  | url :: rest =>
      match ip_service env url with
      | ServiceRaised => external_ip env rest
      | ServiceReplied status text =>
          if status =? 200 then
            let ip := strip text in
            if nonempty ip && (Nat.ltb (length ip) 40)
            then (Some ip, [LogDetectedPublicIp ip])
            else external_ip env rest
          else external_ip env rest
      end
  end.

Definition _detect_public_addr (env : AddrEnv) : pystr * list log_record :=
  match env_PUBLIC_ADDR env with
  | Some (c :: a) => (c :: a, [])
  | _ =>
      match external_ip env ip_service_urls with
      | (Some ip, logs) => (ip, logs)
      | (None, logs) =>
          match outbound_socket env with
          | Some a => (a, logs)
          | None =>
              match gethostbyname env with
              | Some a => (a, logs)
              | None => (lit "127.0.0.1", logs)
              end
          end
      end
  end.

(** *** [advertise_to_heavy] *)

Record Advertisement := {
  subchain_id : pystr;
  aggregator_node_id : pystr;
  aggregator_addr : pystr;
  app_type : pystr;
  capacity_percent : Z;
  last_seen : pystr;
  reputation_score : Q
}.

(** An outgoing POST: where it goes, the one header that depends on the
    surroundings, and the JSON payload. *)
Record post (P : Type) := {
  url : pystr;
  authorization : option pystr;
  payload : P
}.

(** [headers["Authorization"]], from [list(load_api_keys())]. *)
Definition bearer (api_keys : list pystr) : option pystr :=
  match api_keys with
  | [] => None
  | k :: _ => Some (lit "Bearer " ++ k)
  end.

(** What a turn of the advertising loop reads from its surroundings. *)
Record AdvertiseEnv := {
  adv_api_keys : list pystr;           (* list(load_api_keys()) *)
  env_APP_TYPE : option pystr;         (* os.getenv("APP_TYPE") *)
  gmtime_iso : pystr                   (* time.strftime(..., time.gmtime()) *)
}.

Definition advertisement (self : MediumNode) (public_ip : pystr)
           (env : AdvertiseEnv) : Advertisement :=
  {| subchain_id := lit "subchain-" ++ slice_to 8 (node_id self);
     aggregator_node_id := node_id self;
     aggregator_addr := public_ip ++ lit ":" ++ str_of_Z (api_port self);
     app_type := match env_APP_TYPE env with
                 | Some t => t
                 | None => lit "general"
                 end;
     capacity_percent := Z.max 0 (100 - Z.of_nat (length (mempool self)));
     last_seen := gmtime_iso env;
     reputation_score := 1%Q |}.

(** One turn of the loop after the sleep: the request sent, if any. *)
Definition advertise_request (self : MediumNode) (public_ip : pystr)
           (env : AdvertiseEnv) : option (post Advertisement) :=
  if negb (heavy_online self) then None
  else Some {| url := heavy_addr self ++ lit "/subchain/advertise";
               authorization := bearer (adv_api_keys env);
               payload := advertisement self public_ip env |}.

(** ... and what is logged once the request has been answered. *)
Definition advertise_logged (outcome : http_outcome) : list log_record :=
  match outcome with
  | Responded status =>
      if status =? 200 then [LogAdvertised] else [LogAdvertiseHttp status]
  | Failed => [LogAdvertiseError]
  end.

(** The whole task over a finite number of turns: the address is resolved
    before the loop; turn [i] sees the node as the other tasks left it
    ([fst]) and its own surroundings ([snd]). *)
Definition advertise_to_heavy (addr_env : AddrEnv) (self0 : MediumNode)
           (turns : list (MediumNode * AdvertiseEnv))
  : list log_record * list (option (post Advertisement)) :=
  let (public_ip, logs) := _detect_public_addr addr_env in
  (logs ++ [LogAdvertisingWith public_ip (api_port self0)],
   map (fun t => advertise_request (fst t) public_ip (snd t)) turns).

(** *** [batch_flush] *)

Record AnchorPayload := {
  batch_root : list Z;
  aggregator : pystr;
  leaf_count : Z;
  serialized_leaves_ref : option json
}.

(** [combined]: the ids joined, the position standing in for a missing id. *)
Definition combined_ids (batch : list dict) : result pystr :=
  join (map (fun it => dict_get_default (lit "id") (JStr (str_of_nat (fst it))) (snd it))
            (enumerate batch)).

(** [batch_hash = hashlib.sha256(combined.encode()).digest()] *)
Definition batch_hash_of (batch : list dict) : result pybytes :=
  bind (combined_ids batch) (fun combined =>
  bind (encode combined) (fun data =>
  Ok (Sha256.sha256 data))).

(** [list(batch_hash)] *)
Definition list_of_bytes (b : pybytes) : list Z := map Z.of_N b.

(** How far a turn of the loop gets before it awaits the POST. *)
Inductive flush_start :=
| Skipped
| Crashed (self' : MediumNode) (e : pyexc)
| Submitting (self' : MediumNode) (batch : list dict) (batch_hash : pybytes)
             (request : post AnchorPayload).

Definition batch_flush_start (self : MediumNode) (api_keys : list pystr)
  : flush_start :=
  if negb (nonempty (mempool self)) || negb (heavy_online self) then Skipped
  else
    let batch := slice_to 100 (mempool self) in
    let self1 := set_mempool (slice_from 100 (mempool self)) self in
    match batch_hash_of batch with
    | Raise e => Crashed self1 e
    | Ok batch_hash =>
        Submitting self1 batch batch_hash
          {| url := heavy_addr self1 ++ lit "/subchain/batch_anchor";
             authorization := bearer api_keys;
             payload := {| batch_root := list_of_bytes batch_hash;
                           aggregator := node_id self1;
                           leaf_count := Z.of_nat (length batch);
                           serialized_leaves_ref := None |} |}
    end.

(** The rest of the turn, once the POST has been answered; [self] is the
    node as it is then. *)
Definition batch_flush_finish (self : MediumNode) (batch : list dict)
           (batch_hash : pybytes) (outcome : http_outcome)
  : MediumNode * list log_record :=
  match outcome with
  | Responded status =>
      if status =? 200 then
        (set_batches_submitted (batches_submitted self + 1) self,
         [LogAnchored (length batch) (slice_to 12 (hex batch_hash))])
      else
        (set_mempool (batch ++ mempool self) self,
         [LogAnchorHttpRequeue status (length batch)])
  | Failed =>
      (set_mempool (batch ++ mempool self) self,
       [LogAnchorErrorRequeue (length batch)])
  end.

(** A whole turn. *)
Inductive flush_turn :=
| TurnSkipped
| TurnCrashed (self' : MediumNode) (e : pyexc)
| TurnDone (self' : MediumNode) (request : post AnchorPayload)
           (logs : list log_record).

(** A turn during whose POST no other task touches the node. *)
Definition batch_flush (self : MediumNode) (api_keys : list pystr)
           (outcome : http_outcome) : flush_turn :=
  match batch_flush_start self api_keys with
  | Skipped => TurnSkipped
  | Crashed self1 e => TurnCrashed self1 e
  | Submitting self1 batch batch_hash request =>
      let (self2, logs) := batch_flush_finish self1 batch batch_hash outcome in
      TurnDone self2 request logs
  end.

(** The node as a turn leaves it, and the request it sent, if any. *)
Definition node_after (self : MediumNode) (turn : flush_turn) : MediumNode :=
  match turn with
  | TurnSkipped => self
  | TurnCrashed self' _ => self'
  | TurnDone self' _ _ => self'
  end.

Definition request_of (turn : flush_turn) : option (post AnchorPayload) :=
  match turn with
  | TurnDone _ request _ => Some request
  | _ => None
  end.

End Medium.

(* ================================================================== *)
(** ** The light node ([ouro_light/main.py]): aggregator discovery *)

Module Light.

Import Py Json.
Local Open Scope Z_scope.

(** The attributes [LightNode.__init__] sets. *)
Record LightNode := mkLightNode {
  node_id : pystr;
  api_port : Z;
  role : pystr;
  start_time : Q;
  microchain_id : pystr;
  heavy_addr : pystr;
  aggregator_addr : pystr;
  synced_block_height : Z;
  synced_root_hash : pystr;
  anchors_verified : Z;
  fraud_reports : Z;
  tx_submitted : Z;
  last_sync_time : Q
}.

Definition set_aggregator_addr (a : pystr) (self : LightNode) : LightNode :=
  mkLightNode (node_id self) (api_port self) (role self) (start_time self)
    (microchain_id self) (heavy_addr self) a (synced_block_height self)
    (synced_root_hash self) (anchors_verified self) (fraud_reports self)
    (tx_submitted self) (last_sync_time self).

(** An advertisement as the registry hands it out: the three keys the
    selector reads, each possibly missing.  A score is the number its JSON
    value was parsed to (a finite one: the registry cannot serialise a
    NaN). *)
Record Candidate := {
  cand_reputation_score : option Q;
  cand_aggregator_addr : option pystr;
  cand_aggregator_node_id : option pystr
}.

(** The body of a 200 answer as [resp.json()] parses it. *)
Inductive ads_body :=
| AdsNull
| AdsList (ads : list Candidate).

(** What the awaited GET comes back with.  [DiscoverRaised] stands for any
    exception raised inside the [try] before a candidate is chosen: a
    transport error, a body that is not JSON, a body that is not a list of
    objects with numeric scores. *)
Inductive discover_outcome :=
| DiscoverRaised
| DiscoverReplied (status : Z) (body : ads_body).

Inductive log_record :=
| LogDiscovered (node8 : pystr) (addr : pystr)
| LogNoAggregators (app_type : pystr)
| LogDiscoveryHttp (status : Z)
| LogDiscoveryError.

(** [lambda a: a.get("reputation_score", 0)] *)
Definition score (a : Candidate) : Q :=
  match cand_reputation_score a with
  | Some q => q
  | None => 0%Q
  end.

(** [x > y] on numbers *)
Definition py_gt (x y : Q) : bool := negb (Qle_bool x y).

(** The loop of the builtin [max(iterable, key=...)]: the running maximum is
    replaced only by an item whose key is strictly greater. *)
Fixpoint max_from {A} (key : A -> Q) (best : A) (rest : list A) : A :=
  match rest with
  | [] => best
  | x :: r => if py_gt (key x) (key best) then max_from key x r
              else max_from key best r
  end.

(** [if ads:] *)
Definition truthy (body : ads_body) : option (Candidate * list Candidate) :=
  match body with
  | AdsNull => None
  | AdsList [] => None
  | AdsList (a :: r) => Some (a, r)
  end.

(** [discover_aggregator], from the answer to the GET on; [env_APP_TYPE] is
    [os.getenv("APP_TYPE")]. *)
Definition discover_aggregator (self : LightNode) (env_APP_TYPE : option pystr)
           (outcome : discover_outcome) : LightNode * list log_record :=
  let app_type := match env_APP_TYPE with
                  | Some t => t
                  | None => lit "general"
                  end in
  match outcome with
  | DiscoverRaised => (self, [LogDiscoveryError])
  | DiscoverReplied status body =>
      if status =? 200 then
        match truthy body with
        | Some (a, r) =>
            let best := max_from score a r in
            match cand_aggregator_addr best with
            | None => (self, [LogDiscoveryError])
            | Some addr =>
                let self1 := set_aggregator_addr addr self in
                match cand_aggregator_node_id best with
                | None => (self1, [LogDiscoveryError])
                | Some id => (self1, [LogDiscovered (slice_to 8 id) addr])
                end
            end
        | None => (self, [LogNoAggregators app_type])
        end
      else (self, [LogDiscoveryHttp status])
  end.

End Light.

(* ================================================================== *)
(** ** API keys and the authentication middleware (both nodes) *)

Module Auth.

Import Py Json.
Local Open Scope Z_scope.

(** [s.split(",")] *)
Fixpoint split_comma (s : pystr) : list pystr :=
  match s with
  | [] => [[]]
  | c :: r =>
      if (c =? 44)%N then [] :: split_comma r
      else match split_comma r with
           | piece :: rest => (c :: piece) :: rest
           | [] => [[c]]
           end
  end.

Definition pystr_dec : forall a b : pystr, {a = b} + {a <> b} :=
  list_eq_dec N.eq_dec.

(** [if k:] for a string *)
Definition truthy (k : pystr) : bool :=
  match k with
  | [] => false
  | _ :: _ => true
  end.

(** [load_api_keys()], given [os.getenv("API_KEYS")].  The set is kept as a
    list without repetition; the order of that list stands for nothing. *)
Definition load_api_keys (env_API_KEYS : option pystr) : list pystr :=
  let keys_str := match env_API_KEYS with
                  | Some s => s
                  | None => []
                  end in
  if negb (truthy keys_str) then []
  else nodup pystr_dec
         (map strip (filter (fun k => truthy (strip k)) (split_comma keys_str))).

Definition PUBLIC_ROUTES : list pystr := [lit "/health"; lit "/identity"].

(** [x in s] for a set of strings *)
Definition member (x : pystr) (s : list pystr) : bool :=
  existsb (pystr_eqb x) s.

(** What the middleware does with a request: pass it to the handler, or
    answer itself with an error. *)
Inductive verdict :=
| CallHandler
| Deny (status : Z) (error : pystr).

(** [auth_middleware]: [api_keys] is [request.app["api_keys"]], [path] is
    [request.path], [authorization] the [Authorization] header if there is
    one. *)
Definition auth_middleware (api_keys : list pystr) (path : pystr)
           (authorization : option pystr) : verdict :=
  if member path PUBLIC_ROUTES then CallHandler
  else
    match api_keys with
    | [] => CallHandler
    | _ :: _ =>
        let auth_header := match authorization with
                           | Some h => h
                           | None => []
                           end in
        if negb (starts_with (lit "Bearer ") auth_header) then
          Deny 401 (lit "Missing or invalid Authorization header. Use: Bearer <api_key>")
        else
          let token := strip (slice_from 7 auth_header) in
          if negb (member token api_keys) then Deny 403 (lit "Invalid API key")
          else CallHandler
    end.

(** [POST /tx/submit] on the medium node as [run] sets it up: the
    middleware, then [submit_tx]. *)
Definition serve_submit_tx (api_keys : list pystr) (self : Medium.MediumNode)
           (authorization : option pystr) (body : option json)
           (uuid4 : N) (now : Q)
  : Medium.MediumNode * Medium.handler_result * list Medium.log_record :=
  match auth_middleware api_keys (lit "/tx/submit") authorization with
  | CallHandler => Medium.submit_tx self body uuid4 now
  | Deny status error =>
      (self, Medium.JsonResponse status [(lit "error", JStr error)], [])
  end.

End Auth.

(* ================================================================== *)
(** ** The light node: forwarding, state sync, the anchor watch *)

Module LightTasks.

Import Py Json Light.
Local Open Scope Z_scope.

(** [LightNode(node_id, api_port)], with the clock and the environment read
    at construction. *)
Definition init (node_id0 : pystr) (api_port0 : Z) (now : Q)
           (env_HEAVY_ADDR env_AGGREGATOR_ADDR : option pystr) : LightNode :=
  {| node_id := node_id0;
     api_port := api_port0;
     role := lit "light";
     start_time := now;
     microchain_id := lit "micro-" ++ slice_to 8 node_id0;
     heavy_addr := match env_HEAVY_ADDR with
                   | Some a => a
                   | None => lit "http://localhost:8000"
                   end;
     aggregator_addr := match env_AGGREGATOR_ADDR with
                        | Some a => a
                        | None => []
                        end;
     synced_block_height := 0;
     synced_root_hash := [];
     anchors_verified := 0;
     fraud_reports := 0;
     tx_submitted := 0;
     last_sync_time := 0%Q |}.

Definition set_tx_submitted (n : Z) (self : LightNode) : LightNode :=
  mkLightNode (node_id self) (api_port self) (role self) (start_time self)
    (microchain_id self) (heavy_addr self) (aggregator_addr self)
    (synced_block_height self) (synced_root_hash self) (anchors_verified self)
    (fraud_reports self) n (last_sync_time self).

Definition set_anchors_verified (n : Z) (self : LightNode) : LightNode :=
  mkLightNode (node_id self) (api_port self) (role self) (start_time self)
    (microchain_id self) (heavy_addr self) (aggregator_addr self)
    (synced_block_height self) (synced_root_hash self) n
    (fraud_reports self) (tx_submitted self) (last_sync_time self).

(** The three assignments at the end of a successful sync. *)
Definition set_synced (height : Z) (root : pystr) (t : Q) (self : LightNode)
  : LightNode :=
  mkLightNode (node_id self) (api_port self) (role self) (start_time self)
    (microchain_id self) (heavy_addr self) (aggregator_addr self)
    height root (anchors_verified self)
    (fraud_reports self) (tx_submitted self) t.

(** *** [submit_tx] *)

(** [web.json_response(body, status=status)] *)
Inductive response :=
| Respond (status : Z) (body : json).

(** What the awaited POST to the aggregator comes back with: an exception
    ([text] is what [str(e)] gives; an answer whose body is not JSON raises
    too), or a status and the parsed body. *)
Inductive forward_outcome :=
| ForwardRaised (text : pystr)
| ForwardReplied (status : Z) (result : json).

(** What [session.post(..., json=tx)] sends as its body: the serialised
    value, and no body at all when [tx] is [None] (the body was the JSON
    [null]). *)
Definition json_argument (tx : json) : option json :=
  match tx with
  | JNull => None
  | _ => Some tx
  end.

(** The handler up to its POST. *)
Inductive submit_start :=
| Answered (r : response)
| Forwarding (request : Medium.post (option json)).

Definition submit_tx_start (self : LightNode) (body : option json)
           (api_keys : list pystr) : submit_start :=
  match aggregator_addr self with
  | [] =>
      Answered (Respond 503
        (JObj [(lit "error",
                JStr (lit "No aggregator discovered yet. Try again shortly."))]))
  | _ :: _ =>
      match body with
      | None =>
          Answered (Respond 400 (JObj [(lit "error", JStr (lit "Invalid JSON"))]))
      | Some tx =>
          Forwarding
            {| Medium.url := lit "http://" ++ aggregator_addr self ++ lit "/tx/submit";
               Medium.authorization := Medium.bearer api_keys;
               Medium.payload := json_argument tx |}
      end
  end.

(** The handler from the answer to its POST on. *)
Definition submit_tx_finish (self : LightNode) (outcome : forward_outcome)
  : LightNode * response :=
  match outcome with
  | ForwardReplied status result =>
      (set_tx_submitted (tx_submitted self + 1) self, Respond status result)
  | ForwardRaised text =>
      (self,
       Respond 502
         (JObj [(lit "error", JStr (lit "Failed to reach aggregator: " ++ text))]))
  end.

(** The handler as a whole: the node after, the answer, the request sent. *)
Definition submit_tx (self : LightNode) (body : option json)
           (api_keys : list pystr) (outcome : forward_outcome)
  : LightNode * response * option (Medium.post (option json)) :=
  match submit_tx_start self body api_keys with
  | Answered r => (self, r, None)
  | Forwarding request =>
      let (self', r) := submit_tx_finish self outcome in
      (self', r, Some request)
  end.

(** *** [sync_state_via_zk] *)

(** The state proof as the heavy node serialises it; each key may be
    missing. *)
Record StateProof := {
  block_height : option Z;
  root_hash : option pystr;
  proof_data : option (list Z)
}.

(** What the awaited GET comes back with; [SyncRaised] stands for any
    exception raised inside the [try] before the proof is read. *)
Inductive sync_outcome :=
| SyncRaised
| SyncReplied (status : Z) (proof : StateProof).

Inductive sync_log :=
| LogEmptyProof
| LogSyncOk (height : Z) (root16 : pystr) (proof_hash16 : pystr)
| LogSyncHttp (status : Z)
| LogSyncError.

(** [bytes(l)] for a list of integers: [None] when it raises [ValueError]
    (an item outside [range(256)]). *)
Fixpoint bytes_of (l : list Z) : option pybytes :=
  match l with
  | [] => Some []
  | z :: r =>
      if (0 <=? z) && (z <? 256) then
        match bytes_of r with
        | Some bs => Some (Z.to_N z :: bs)
        | None => None
        end
      else None
  end.

(** [sync_state_via_zk], from the answer to the GET on; [now] is the reading
    of [time.time()]. *)
Definition sync_state_via_zk (self : LightNode) (outcome : sync_outcome)
           (now : Q) : LightNode * list sync_log :=
  match outcome with
  | SyncRaised => (self, [LogSyncError])
  | SyncReplied status proof =>
      if status =? 200 then
        let height := match block_height proof with
                      | Some h => h
                      | None => 0
                      end in
        let root := match root_hash proof with
                    | Some r => r
                    | None => []
                    end in
        let data := match proof_data proof with
                    | Some d => d
                    | None => []
                    end in
        match data with
        | [] => (self, [LogEmptyProof])
        | _ :: _ =>
            match bytes_of data with
            | None => (self, [LogSyncError])
            | Some proof_bytes =>
                let computed_hash :=
                  slice_to 16 (hex (Sha256.sha256 proof_bytes)) in
                let self1 := set_synced height (slice_to 16 root) now self in
                (self1, [LogSyncOk height (synced_root_hash self1) computed_hash])
            end
        end
      else (self, [LogSyncHttp status])
  end.

(** *** [watch_anchors] *)

Inductive watch_log :=
| SyncLog (entry : sync_log)
| DiscoverLog (entry : Light.log_record)
| LogAnchorWatch (verified : Z) (height : Z).

(** What one round of the watch meets: the answer to its sync, the clock,
    and the answer its discovery gets if it makes one. *)
Record round_env := {
  sync_reply : sync_outcome;
  sync_time : Q;
  env_APP_TYPE : option pystr;
  discover_reply : discover_outcome
}.

(** The two calls before the loop. *)
Definition watch_start (self : LightNode) (env : round_env)
  : LightNode * list watch_log :=
  let (self1, logs1) := sync_state_via_zk self (sync_reply env) (sync_time env) in
  let (self2, logs2) :=
    discover_aggregator self1 (env_APP_TYPE env) (discover_reply env) in
  (self2, map SyncLog logs1 ++ map DiscoverLog logs2).

(** One turn of the loop, after the sleep. *)
Definition watch_turn (self : LightNode) (env : round_env)
  : LightNode * list watch_log :=
  let (self1, logs1) := sync_state_via_zk self (sync_reply env) (sync_time env) in
  let (self2, logs2) :=
    match aggregator_addr self1 with
    | [] => discover_aggregator self1 (env_APP_TYPE env) (discover_reply env)
    | _ :: _ => (self1, [])
    end in
  let self3 := set_anchors_verified (anchors_verified self2 + 1) self2 in
  (self3,
   map SyncLog logs1 ++ map DiscoverLog logs2 ++
   if anchors_verified self3 mod 10 =? 0
   then [LogAnchorWatch (anchors_verified self3) (synced_block_height self3)]
   else []).

Fixpoint watch_loop (self : LightNode) (envs : list round_env)
  : LightNode * list watch_log :=
  match envs with
  | [] => (self, [])
  | env :: rest =>
      let (self1, logs1) := watch_turn self env in
      let (self2, logs2) := watch_loop self1 rest in
      (self2, logs1 ++ logs2)
  end.

(** [watch_anchors] over its first turns. *)
Definition watch_anchors (self : LightNode) (env0 : round_env)
           (envs : list round_env) : LightNode * list watch_log :=
  let (self1, logs1) := watch_start self env0 in
  let (self2, logs2) := watch_loop self1 envs in
  (self2, logs1 ++ logs2).

End LightTasks.

(* ================================================================== *)
(** ** Notions used to state the properties *)

Module Props.

Import Py Json Medium.

(** A string of ASCII characters only. *)
Definition ascii_only (s : pystr) : bool := forallb (fun c => N.ltb c 128) s.

(** A buffered record whose [id] is an ASCII string, as [submit_tx] leaves it. *)
Definition id_ok (tx : dict) : bool :=
  match dict_get (lit "id") tx with
  | Some (JStr s) => ascii_only s
  | _ => false
  end.

Definition mempool_ok (m : list dict) : bool := forallb id_ok m.

(** The record [submit_tx] stores for the body [d]. *)
Definition stored (d : dict) (uuid4 : N) (now : Q) : dict :=
  dict_set (lit "received_at") (JFloat now)
           (dict_set (lit "id") (JStr (uuid_str uuid4)) d).

(** [k in d] *)
Definition has_key (k : pystr) (d : dict) : bool :=
  match dict_get k d with
  | Some _ => true
  | None => false
  end.

(** The three required keys are all there. *)
Definition has_required (d : dict) : bool :=
  forallb (fun k => has_key k d) required.

(** The node after [submit_tx] has stored the body [d]. *)
Definition accepting (self : MediumNode) (d : dict) (uuid4 : N) (now : Q)
  : MediumNode :=
  set_tx_count (tx_count self + 1)
               (set_mempool (mempool self ++ [stored d uuid4 now]) self).

(** The answer that carries the assigned id. *)
Definition accepted_answer (uuid4 : N) : handler_result :=
  JsonResponse 200 [(lit "status", JStr (lit "accepted"));
                    (lit "tx_id", JStr (uuid_str uuid4))].

(** The anchor endpoint answered 200. *)
Definition anchored (outcome : http_outcome) : bool :=
  match outcome with
  | Responded status => Z.eqb status 200
  | Failed => false
  end.

(** The text a record contributes to the batch digest, in the spec's words:
    its [id], or its position in the chunk as a string when it has none.
    [None] when the id is there and is not a string. *)
Definition spec_id_text (i : nat) (tx : dict) : option pystr :=
  match dict_get (lit "id") tx with
  | None => Some (str_of_nat i)
  | Some (JStr s) => Some s
  | Some _ => None
  end.

Fixpoint spec_id_texts (i : nat) (batch : list dict) : option (list pystr) :=
  match batch with
  | [] => Some []
  | tx :: r =>
      match spec_id_text i tx, spec_id_texts (S i) r with
      | Some t, Some ts => Some (t :: ts)
      | _, _ => None
      end
  end.

(** The UTF-8 bytes of each text, one after the other. *)
Fixpoint encode_each (texts : list pystr) : result pybytes :=
  match texts with
  | [] => Ok []
  | t :: r =>
      bind (encode t) (fun b => bind (encode_each r) (fun bs => Ok (b ++ bs)))
  end.

(** The digest as the spec words it: SHA-256 of the concatenated UTF-8
    bytes of the texts. *)
Definition spec_batch_digest (texts : list pystr) : result pybytes :=
  bind (encode_each texts) (fun data => Ok (Sha256.sha256 data)).

(** FIPS 180-4 derives the SHA-256 constants from the first primes:
    [frac] is the first 32 bits of the fractional part of the [degree]-th
    root of [p]. *)
Definition first_primes : list N :=
  [2; 3; 5; 7; 11; 13; 17; 19; 23; 29; 31; 37; 41; 43; 47; 53; 59; 61; 67;
   71; 73; 79; 83; 89; 97; 101; 103; 107; 109; 113; 127; 131; 137; 139; 149;
   151; 157; 163; 167; 173; 179; 181; 191; 193; 197; 199; 211; 223; 227;
   229; 233; 239; 241; 251; 257; 263; 269; 271; 277; 281; 283; 293; 307;
   311]%N.

Definition root_fraction (degree : N) (p frac : N) : bool :=
  (frac <? 2 ^ 32)%N &&
  existsb (fun whole =>
             let c := (whole * 2 ^ 32 + frac)%N in
             (c ^ degree <=? p * 2 ^ (32 * degree))%N
             && (p * 2 ^ (32 * degree) <? (c + 1) ^ degree)%N)
          [1; 2; 3; 4; 5; 6]%N.

Definition chain_words (h : Sha256.chain) : list N :=
  [Sha256.ha h; Sha256.hb h; Sha256.hc h; Sha256.hd h;
   Sha256.he h; Sha256.hf h; Sha256.hg h; Sha256.hh h].

(** The node and the batch the flushing task holds while its POST is in
    flight: the state the other tasks interleave with. *)
Record system := {
  node : MediumNode;
  in_flight : option (list dict * pybytes)
}.

(** One atomic piece of one task. *)
Inductive step : system -> system -> Prop :=
| step_submit_tx self fl body uuid4 now :
    step {| node := self; in_flight := fl |}
         {| node := fst (fst (submit_tx self body uuid4 now)); in_flight := fl |}
| step_monitor self fl probe now :
    step {| node := self; in_flight := fl |}
         {| node := fst (monitor_heavy_nodes self probe now); in_flight := fl |}
| step_flush_start self keys self1 batch h request :
    batch_flush_start self keys = Submitting self1 batch h request ->
    step {| node := self; in_flight := None |}
         {| node := self1; in_flight := Some (batch, h) |}
| step_flush_finish self batch h outcome :
    step {| node := self; in_flight := Some (batch, h) |}
         {| node := fst (batch_flush_finish self batch h outcome);
            in_flight := None |}.

Inductive reachable (s0 : system) : system -> Prop :=
| reach_start : reachable s0 s0
| reach_step s s' : reachable s0 s -> step s s' -> reachable s0 s'.

(** The system just after [MediumNode(...)]. *)
Definition boot (node_id0 : pystr) (api_port0 : Z) (now : Q)
           (env_HEAVY_ADDR : option pystr) : system :=
  {| node := init node_id0 api_port0 now env_HEAVY_ADDR; in_flight := None |}.

(** Every buffered or in-flight record of the system. *)
Definition all_records (s : system) : list dict :=
  match in_flight s with
  | Some (batch, _) => batch ++ mempool (node s)
  | None => mempool (node s)
  end.

(** The health probe was answered 200. *)
Definition probe_ok (probe : http_outcome) : bool :=
  match probe with
  | Responded status => Z.eqb status 200
  | Failed => false
  end.

(** The two liveness states, read off the node's flags. *)
Definition is_online (self : MediumNode) : bool :=
  heavy_online self && negb (shadow_mode self).
Definition is_shadow (self : MediumNode) : bool :=
  negb (heavy_online self) && shadow_mode self.

(** The probes of a run of the monitor, one after the other. *)
Fixpoint monitor_run (self : MediumNode) (probes : list (http_outcome * Q))
  : MediumNode * list log_record :=
  match probes with
  | [] => (self, [])
  | (probe, now) :: rest =>
      let (self1, logs1) := monitor_heavy_nodes self probe now in
      let (self2, logs2) := monitor_run self1 rest in
      (self2, logs1 ++ logs2)
  end.

(** The address resolver in the spec's words: the first tier that yields an
    address, in priority order, the loopback address when none does. *)
Definition configured (env : AddrEnv) : option pystr :=
  match env_PUBLIC_ADDR env with
  | Some [] => None
  | other => other
  end.

Definition plausible (o : service_outcome) : option pystr :=
  match o with
  | ServiceReplied status text =>
      if Z.eqb status 200 && nonempty (strip text)
         && Nat.ltb (length (strip text)) 40
      then Some (strip text) else None
  | ServiceRaised => None
  end.

Fixpoint first_success (tiers : list (option pystr)) : option pystr :=
  match tiers with
  | [] => None
  | Some a :: _ => Some a
  | None :: rest => first_success rest
  end.

Definition spec_resolve (env : AddrEnv) : pystr :=
  match first_success
          ([configured env]
           ++ map (fun url => plausible (ip_service env url)) ip_service_urls
           ++ [outbound_socket env; gethostbyname env])
  with
  | Some a => a
  | None => lit "127.0.0.1"
  end.

End Props.

(* ================================================================== *)
(** ** Sample nodes and requests *)

Module Sample.

Import Py Json Medium Props.

Definition transfer (sender recipient : string) (amount : json) : dict :=
  [(lit "sender", JStr (lit sender)); (lit "recipient", JStr (lit recipient));
   (lit "amount", amount)].

(** A node that has seen a successful probe. *)
Definition online_node : MediumNode :=
  set_heavy_online true (init (lit "0f3a9c1e-node") 8001 0%Q None).

(** [n] accepted transfers, with the identifiers 0, 1, ... *)
Definition accepted (n : nat) : list dict :=
  map (fun i => stored (transfer "alice" "bob" (JInt (Z.of_nat i))) (N.of_nat i) 0%Q)
      (seq 0 n).

(** A body whose [sender] is the JSON number 5. *)
Definition numeric_sender : dict :=
  [(lit "sender", JInt 5); (lit "recipient", JStr (lit "bob"));
   (lit "amount", JInt 1)].

(** Surroundings in which every tier of the address resolver fails. *)
Definition isolated : AddrEnv :=
  {| env_PUBLIC_ADDR := None;
     ip_service := fun _ => ServiceRaised;
     outbound_socket := None;
     gethostbyname := None |}.

(** No configured address, the first service down, the second answering. *)
Definition behind_nat : AddrEnv :=
  {| env_PUBLIC_ADDR := None;
     ip_service := fun url =>
       if pystr_eqb url (lit "https://api.ipify.org")
       then ServiceReplied 503 (lit "unavailable")
       else ServiceReplied 200 (lit "198.51.100.7
");
     outbound_socket := Some (lit "192.168.1.20");
     gethostbyname := Some (lit "127.0.1.1") |}.

Definition node_with (n : nat) : MediumNode :=
  set_mempool (accepted n) online_node.

End Sample.

Module LightSample.

Import Py Light.

(** A light node that has no aggregator yet. *)
Definition fresh : LightNode :=
  mkLightNode (lit "71c0ffee-light") 8002 (lit "light") 0%Q
    (lit "micro-71c0ffee") (lit "http://localhost:8000") [] 0 [] 0 0 0 0%Q.

Definition candidate (name : string) (score : Q) : Candidate :=
  {| cand_reputation_score := Some score;
     cand_aggregator_addr := Some (lit name);
     cand_aggregator_node_id := Some (lit name) |}.

End LightSample.

(* ================================================================== *)
(** ** Notions and samples for the rest of the two nodes *)

Module MoreProps.

Import Py Json.

(** [",".join(pieces)] *)
Fixpoint join_comma (pieces : list pystr) : pystr :=
  match pieces with
  | [] => []
  | [piece] => piece
  | piece :: rest => piece ++ 44%N :: join_comma rest
  end.

(** A string that does not start with white space. *)
Definition clean_start (s : pystr) : bool :=
  match s with
  | [] => true
  | c :: _ => negb (isspace c)
  end.

(** A light node's request relayed to a medium node that guards its routes
    with [medium_keys]: the light handler up to its POST, the medium
    application on the request sent (a request without a body is one
    whose [request.json()] raises), the light handler on the answer.  What
    the POST meets when the medium handler raised is decided by aiohttp, not
    by the two files: it is the argument [after_crash]. *)
Definition relay (light : Light.LightNode) (light_keys : list pystr)
           (medium : Medium.MediumNode) (medium_keys : list pystr)
           (body : option json) (uuid4 : N) (now : Q)
           (after_crash : LightTasks.forward_outcome)
  : Light.LightNode * Medium.MediumNode * LightTasks.response :=
  match LightTasks.submit_tx_start light body light_keys with
  | LightTasks.Answered r => (light, medium, r)
  | LightTasks.Forwarding request =>
      let '(medium', answer, _) :=
        Auth.serve_submit_tx medium_keys medium (Medium.authorization request)
                             (Medium.payload request) uuid4 now in
      let (light', r) :=
        LightTasks.submit_tx_finish light
          (match answer with
           | Medium.JsonResponse status d => LightTasks.ForwardReplied status (JObj d)
           | Medium.Unhandled _ => after_crash
           end) in
      (light', medium', r)
  end.

(** A proof payload [sync_state_via_zk] goes on with: a non-empty list of
    byte values. *)
Definition usable_proof (data : option (list Z)) : bool :=
  match data with
  | Some (z :: r) =>
      match LightTasks.bytes_of (z :: r) with
      | Some _ => true
      | None => false
      end
  | _ => false
  end.

End MoreProps.

Module MoreSample.

Import Py Json.

(** [API_KEYS] with blanks, an empty piece and a repetition. *)
Definition env_keys : option pystr := Some (lit " alpha , beta,, alpha").

(** A light node that has selected the aggregator at 203.0.113.9:8001. *)
Definition attached : Light.LightNode :=
  Light.set_aggregator_addr (lit "203.0.113.9:8001") LightSample.fresh.

Definition good_proof : LightTasks.StateProof :=
  {| LightTasks.block_height := Some 42%Z;
     LightTasks.root_hash := Some (lit "00112233445566778899aabbccddeeff");
     LightTasks.proof_data := Some [1; 2; 255]%Z |}.

(** A medium node just booted, and the system after it has accepted one
    transfer. *)
Definition booted : Props.system := Props.boot (lit "0f3a9c1e-node") 8001 0%Q None.

Definition after_one_submit : Props.system :=
  {| Props.node :=
       fst (fst (Medium.submit_tx (Props.node booted)
                   (Some (JObj (Sample.transfer "alice" "bob" (JInt 3)))) 11 1%Q));
     Props.in_flight := None |}.

(** A run of the medium node: the first probe answered 200, two transfers
    accepted, a turn of the anchoring loop started, its POST answered 200,
    then a probe that times out. *)
Definition probed : Props.system :=
  {| Props.node :=
       fst (Medium.monitor_heavy_nodes (Props.node booted)
              (Medium.Responded 200) 30%Q);
     Props.in_flight := None |}.

Definition one_accepted : Props.system :=
  {| Props.node :=
       fst (fst (Medium.submit_tx (Props.node probed)
                   (Some (JObj (Sample.transfer "alice" "bob" (JInt 3)))) 11 31%Q));
     Props.in_flight := None |}.

Definition two_accepted : Props.system :=
  {| Props.node :=
       fst (fst (Medium.submit_tx (Props.node one_accepted)
                   (Some (JObj (Sample.transfer "carol" "dave" (JInt 4)))) 12 32%Q));
     Props.in_flight := None |}.

Definition flush_started : Medium.flush_start :=
  Medium.batch_flush_start (Props.node two_accepted) [].

Definition anchoring : Props.system :=
  match flush_started with
  | Medium.Submitting self1 batch h _ =>
      {| Props.node := self1; Props.in_flight := Some (batch, h) |}
  | _ => two_accepted
  end.

Definition anchored_once : Props.system :=
  match Props.in_flight anchoring with
  | Some (batch, h) =>
      {| Props.node :=
           fst (Medium.batch_flush_finish (Props.node anchoring) batch h
                  (Medium.Responded 200));
         Props.in_flight := None |}
  | None => anchoring
  end.

Definition lost_contact : Props.system :=
  {| Props.node :=
       fst (Medium.monitor_heavy_nodes (Props.node anchored_once)
              Medium.Failed 60%Q);
     Props.in_flight := Props.in_flight anchored_once |}.

Definition round (sync : LightTasks.sync_outcome)
           (found : Light.discover_outcome) : LightTasks.round_env :=
  {| LightTasks.sync_reply := sync;
     LightTasks.sync_time := 5%Q;
     LightTasks.env_APP_TYPE := None;
     LightTasks.discover_reply := found |}.

End MoreSample.

(* ================================================================== *)
(** ** General facts about the Python layer *)

Import Py Json.

Unset Implicit Arguments.

Arguments lit s : simpl never.
Arguments str_of_Z z : simpl never.
Arguments str_of_nat n : simpl never.
Arguments Sha256.sha256 msg : simpl never.
Arguments slice_to {A} n l : simpl never.
Arguments slice_from {A} n l : simpl never.

Lemma pystr_eqb_eq (a b : pystr) : pystr_eqb a b = true <-> a = b.
Proof.
  unfold pystr_eqb. destruct (list_eq_dec N.eq_dec a b); split; congruence.
Qed.

Lemma pystr_eqb_refl (a : pystr) : pystr_eqb a a = true.
Proof. now apply pystr_eqb_eq. Qed.

Lemma pystr_eqb_neq (a b : pystr) : a <> b -> pystr_eqb a b = false.
Proof.
  intros H. destruct (pystr_eqb a b) eqn:E; [|reflexivity].
  apply pystr_eqb_eq in E. contradiction.
Qed.

Lemma dict_get_set_same (k : pystr) (v : json) (d : dict) :
  dict_get k (dict_set k v d) = Some v.
Proof.
  induction d as [|[k' v'] r IH]; simpl.
  - now rewrite pystr_eqb_refl.
  - destruct (pystr_eqb k k') eqn:E; simpl; rewrite E; auto.
Qed.

Lemma dict_get_set_other (k k' : pystr) (v : json) (d : dict) :
  k <> k' -> dict_get k (dict_set k' v d) = dict_get k d.
Proof.
  intros Hne. induction d as [|[k2 v2] r IH]; simpl.
  - rewrite pystr_eqb_neq by assumption. reflexivity.
  - destruct (pystr_eqb k' k2) eqn:E; simpl.
    + apply pystr_eqb_eq in E. subst k2.
      rewrite pystr_eqb_neq by assumption. reflexivity.
    + destruct (pystr_eqb k k2); auto.
Qed.

Lemma slice_to_from {A} (n : nat) (l : list A) :
  slice_to n l ++ slice_from n l = l.
Proof. apply firstn_skipn. Qed.

Lemma length_slice_to {A} (n : nat) (l : list A) :
  length (slice_to n l) = Nat.min n (length l).
Proof. apply length_firstn. Qed.

Lemma length_slice_from {A} (n : nat) (l : list A) :
  length (slice_from n l) = (length l - n)%nat.
Proof. apply length_skipn. Qed.

Lemma forallb_slices {A} (f : A -> bool) (n : nat) (l : list A) :
  forallb f l = true ->
  forallb f (slice_to n l) = true /\ forallb f (slice_from n l) = true.
Proof.
  intros H. rewrite <- (slice_to_from n l), forallb_app in H.
  now apply andb_true_iff in H.
Qed.

Lemma nonempty_length {A} (l : list A) :
  Medium.nonempty l = true <-> (0 < length l)%nat.
Proof. destruct l; simpl; split; intros; try lia; congruence. Qed.

(** *** UTF-8 *)

Lemma encode_app (a b : pystr) :
  encode (a ++ b) =
  bind (encode a) (fun x => bind (encode b) (fun y => Ok (x ++ y))).
Proof.
  induction a as [|c a IH]; simpl.
  - destruct (encode b); reflexivity.
  - rewrite IH. destruct (utf8_char c); simpl; [|reflexivity].
    destruct (encode a); simpl; [|reflexivity].
    destruct (encode b); simpl; [|reflexivity].
    now rewrite app_assoc.
Qed.

Lemma encode_concat (texts : list pystr) :
  encode (concat texts) = Props.encode_each texts.
Proof.
  induction texts as [|t r IH]; simpl; [reflexivity|].
  rewrite encode_app, IH. reflexivity.
Qed.

Lemma ascii_only_app (a b : pystr) :
  Props.ascii_only (a ++ b) = Props.ascii_only a && Props.ascii_only b.
Proof. apply forallb_app. Qed.

Lemma encode_ascii (s : pystr) : Props.ascii_only s = true -> encode s = Ok s.
Proof.
  induction s as [|c s IH]; simpl; [reflexivity|].
  intros H. apply andb_true_iff in H. destruct H as [Hc Hs].
  unfold utf8_char. rewrite Hc. simpl. now rewrite IH.
Qed.

(** *** SHA-256 *)

Lemma serialize_length (h : Sha256.chain) : length (Sha256.serialize h) = 32%nat.
Proof. reflexivity. Qed.

Lemma sha256_length (msg : pybytes) : length (Sha256.sha256 msg) = 32%nat.
Proof. unfold Sha256.sha256. apply serialize_length. Qed.

Lemma be32_bytes (w : N) : Forall (fun b => (b < 256)%N) (Sha256.be32 w).
Proof.
  unfold Sha256.be32. repeat constructor; apply N.mod_lt; discriminate.
Qed.

Lemma sha256_bytes (msg : pybytes) :
  Forall (fun b => (b < 256)%N) (Sha256.sha256 msg).
Proof.
  unfold Sha256.sha256, Sha256.serialize.
  repeat (apply Forall_app; split); apply be32_bytes.
Qed.

(** *** Identifiers drawn by [submit_tx] are ASCII *)

Import Medium Props.

Lemma be_bytes_lt (k : nat) (n : N) : Forall (fun b => (b < 256)%N) (be_bytes k n).
Proof.
  revert n. induction k as [|k IH]; intros n; simpl; [constructor|].
  apply Forall_app. split; [apply IH|].
  repeat constructor. apply N.mod_lt. discriminate.
Qed.

Lemma hexdigit_ascii (d : N) : (d < 16)%N -> (hexdigit d < 128)%N.
Proof. intros H. unfold hexdigit. destruct (d <? 10)%N; lia. Qed.

Lemma hex_ascii (b : pybytes) :
  Forall (fun x => (x < 256)%N) b -> ascii_only (hex b) = true.
Proof.
  induction 1 as [|x r Hx _ IH]; [reflexivity|].
  unfold hex in *. simpl. rewrite IH.
  assert (H1 : (x / 16 < 16)%N) by (apply N.Div0.div_lt_upper_bound; lia).
  assert (H2 : (x mod 16 < 16)%N) by (apply N.mod_lt; discriminate).
  apply hexdigit_ascii in H1. apply hexdigit_ascii in H2.
  apply N.ltb_lt in H1. apply N.ltb_lt in H2. now rewrite H1, H2.
Qed.

Lemma ascii_only_slice_to (n : nat) (s : pystr) :
  ascii_only s = true -> ascii_only (slice_to n s) = true.
Proof.
  intros H. apply (forallb_slices _ n s H).
Qed.

Lemma ascii_only_slice_from (n : nat) (s : pystr) :
  ascii_only s = true -> ascii_only (slice_from n s) = true.
Proof.
  intros H. apply (forallb_slices _ n s H).
Qed.

Lemma uuid_str_ascii (u : N) : ascii_only (uuid_str u) = true.
Proof.
  unfold uuid_str.
  generalize (hex_ascii _ (be_bytes_lt 16 u)).
  generalize (hex (be_bytes 16 u)). intros h H.
  rewrite !ascii_only_app.
  rewrite !ascii_only_slice_to by (try apply ascii_only_slice_from; exact H).
  rewrite (ascii_only_slice_from 20 _ H). reflexivity.
Qed.

(** *** The digest computation on well-formed records *)

Lemma combined_ids_from_ok (i : nat) (batch : list dict) :
  mempool_ok batch = true ->
  exists s,
    join (map (fun it => dict_get_default (lit "id") (JStr (str_of_nat (fst it))) (snd it))
              (enumerate_from i batch)) = Ok s
    /\ ascii_only s = true.
Proof.
  revert i. induction batch as [|tx r IH]; intros i H; simpl in *.
  - exists []. split; reflexivity.
  - apply andb_true_iff in H. destruct H as [Htx Hr].
    destruct (IH (S i) Hr) as [s [Hs Ha]].
    unfold id_ok in Htx. unfold dict_get_default at 1.
    cbn [fst snd].
    destruct (dict_get (lit "id") tx) as [[| | | |t| |]|]; try discriminate.
    cbn [join]. rewrite Hs. simpl. exists (t ++ s). split; [reflexivity|].
    rewrite ascii_only_app, Htx, Ha. reflexivity.
Qed.

Lemma batch_hash_of_total (batch : list dict) :
  mempool_ok batch = true -> exists h, batch_hash_of batch = Ok h.
Proof.
  intros H. destruct (combined_ids_from_ok 0 batch H) as [s [Hs Ha]].
  unfold batch_hash_of, combined_ids, enumerate. rewrite Hs. simpl.
  rewrite (encode_ascii _ Ha). simpl. eauto.
Qed.

Lemma mempool_ok_slice_to (n : nat) (m : list dict) :
  mempool_ok m = true -> mempool_ok (slice_to n m) = true.
Proof.
  intros H. apply (forallb_slices _ n m H).
Qed.

Lemma mempool_ok_slice_from (n : nat) (m : list dict) :
  mempool_ok m = true -> mempool_ok (slice_from n m) = true.
Proof.
  intros H. apply (forallb_slices _ n m H).
Qed.

(** A turn that is not skipped reaches its POST when the buffered records
    are well formed. *)
Lemma batch_flush_start_submits (self : MediumNode) (keys : list pystr) :
  heavy_online self = true ->
  nonempty (mempool self) = true ->
  mempool_ok (mempool self) = true ->
  exists h request,
    batch_flush_start self keys =
    Submitting (set_mempool (slice_from 100 (mempool self)) self)
               (slice_to 100 (mempool self)) h request
    /\ batch_hash_of (slice_to 100 (mempool self)) = Ok h
    /\ Medium.batch_root (payload request) = list_of_bytes h
    /\ leaf_count (payload request) = Z.of_nat (length (slice_to 100 (mempool self))).
Proof.
  intros Hon Hne Hok. unfold batch_flush_start. rewrite Hon, Hne.
  cbn [negb orb].
  destruct (batch_hash_of_total _ (mempool_ok_slice_to 100 _ Hok)) as [h Hh].
  rewrite Hh. eexists. eexists. repeat split; assumption.
Qed.

(** *** What [submit_tx] does to the node *)

Lemma lit_id_neq_received_at : lit "id" <> lit "received_at".
Proof. discriminate. Qed.

Lemma stored_id (d : dict) (uuid4 : N) (now : Q) :
  dict_get (lit "id") (stored d uuid4 now) = Some (JStr (uuid_str uuid4)).
Proof.
  unfold stored.
  rewrite dict_get_set_other by apply lit_id_neq_received_at.
  apply dict_get_set_same.
Qed.

Lemma stored_id_ok (d : dict) (uuid4 : N) (now : Q) :
  id_ok (stored d uuid4 now) = true.
Proof. unfold id_ok. rewrite stored_id. apply uuid_str_ascii. Qed.

(** Either the node is untouched, or the body was an object and exactly
    the stored record went to the tail and the counter went up by one. *)
Lemma submit_tx_node (self : MediumNode) (body : option json) (uuid4 : N) (now : Q) :
  let self' := fst (fst (submit_tx self body uuid4 now)) in
  self' = self
  \/ exists d, body = Some (JObj d)
               /\ self' = set_tx_count (tx_count self + 1)
                            (set_mempool (mempool self ++ [stored d uuid4 now]) self).
Proof.
  unfold submit_tx. destruct body as [tx|]; [|now left].
  destruct (first_missing required tx) as [[field|]|e]; try now left.
  destruct tx as [| | | | | |d]; try now left.
  cbn [py_setitem]. right. exists d. split; [reflexivity|].
  fold (stored d uuid4 now).
  destruct (bind (py_getitem (lit "sender") (stored d uuid4 now)) _);
    [destruct (py_getitem (lit "id") (stored d uuid4 now))|]; reflexivity.
Qed.

Lemma submit_tx_mempool_ok (self : MediumNode) (body : option json) (uuid4 : N) (now : Q) :
  mempool_ok (mempool self) = true ->
  mempool_ok (mempool (fst (fst (submit_tx self body uuid4 now)))) = true.
Proof.
  intros H. destruct (submit_tx_node self body uuid4 now) as [E|[d [_ E]]];
    rewrite E; [assumption|].
  cbn [mempool set_tx_count set_mempool]. unfold mempool_ok.
  rewrite forallb_app. fold (mempool_ok (mempool self)). rewrite H.
  cbn [forallb andb]. now rewrite stored_id_ok.
Qed.

Lemma monitor_heavy_nodes_mempool (self : MediumNode) (probe : http_outcome) (now : Q) :
  mempool (fst (monitor_heavy_nodes self probe now)) = mempool self.
Proof.
  unfold monitor_heavy_nodes, _handle_heavy_offline.
  destruct probe as [status|]; [destruct (Z.eqb status 200)|];
    [destruct (shadow_mode _)| |]; reflexivity.
Qed.

(** The invariant of the running system: every record, buffered or in
    flight, carries an ASCII string id. *)
Lemma step_records_ok (s s' : system) :
  step s s' -> mempool_ok (all_records s) = true -> mempool_ok (all_records s') = true.
Proof.
  intros Hstep. destruct Hstep as
    [self fl body uuid4 now | self fl probe now
    | self keys self1 batch h request Hstart | self batch h outcome];
    unfold all_records; cbn [in_flight node].
  - destruct fl as [[batch h]|].
    + unfold mempool_ok. rewrite !forallb_app. intros H.
      apply andb_true_iff in H. destruct H as [Hb Hm].
      rewrite Hb. apply (submit_tx_mempool_ok self body uuid4 now Hm).
    + apply submit_tx_mempool_ok.
  - rewrite monitor_heavy_nodes_mempool. auto.
  - unfold batch_flush_start in Hstart.
    destruct (negb (nonempty (mempool self)) || negb (heavy_online self));
      [discriminate|].
    destruct (batch_hash_of (slice_to 100 (mempool self))); [|discriminate].
    injection Hstart as <- <- _ _. cbn [mempool set_mempool].
    now rewrite slice_to_from.
  - unfold batch_flush_finish. intros H.
    destruct outcome as [status|]; [destruct (Z.eqb status 200)| ];
      cbn [fst mempool set_mempool set_batches_submitted]; try assumption.
    unfold mempool_ok in *. rewrite forallb_app in H.
    now apply andb_true_iff in H.
Qed.

Lemma reachable_records_ok (node_id0 : pystr) (api_port0 : Z) (t0 : Q)
      (env_HEAVY_ADDR : option pystr) (s : system) :
  reachable (boot node_id0 api_port0 t0 env_HEAVY_ADDR) s ->
  mempool_ok (all_records s) = true.
Proof.
  induction 1 as [|s s' _ IH Hstep]; [reflexivity|].
  exact (step_records_ok s s' Hstep IH).
Qed.

(* ================================================================== *)
(** ** The anchoring loop: drain, digest, requeue *)

Lemma batch_flush_finish_failed (self : MediumNode) (batch : list dict)
      (h : pybytes) (outcome : http_outcome) :
  anchored outcome = false ->
  let self' := fst (batch_flush_finish self batch h outcome) in
  mempool self' = batch ++ mempool self
  /\ batches_submitted self' = batches_submitted self
  /\ tx_count self' = tx_count self.
Proof.
  intros H. unfold batch_flush_finish.
  destruct outcome as [status|]; cbn [anchored] in H; [rewrite H|];
    repeat split.
Qed.

Lemma batch_flush_finish_anchored (self : MediumNode) (batch : list dict)
      (h : pybytes) (outcome : http_outcome) :
  anchored outcome = true ->
  let self' := fst (batch_flush_finish self batch h outcome) in
  mempool self' = mempool self
  /\ batches_submitted self' = (batches_submitted self + 1)%Z
  /\ tx_count self' = tx_count self.
Proof.
  intros H. unfold batch_flush_finish.
  destruct outcome as [status|]; cbn [anchored] in H; [rewrite H|discriminate];
    repeat split.
Qed.

(** The same with arrivals: whatever [submit_tx] appended while the POST
    was in flight stays behind the requeued chunk. *)
Lemma failed_anchor_keeps_arrivals (self self1 self2 : MediumNode)
      (keys : list pystr) (batch arrivals : list dict) (h : pybytes)
      (request : post AnchorPayload) (outcome : http_outcome) :
  batch_flush_start self keys = Submitting self1 batch h request ->
  mempool self2 = mempool self1 ++ arrivals ->
  anchored outcome = false ->
  mempool (fst (batch_flush_finish self2 batch h outcome))
  = mempool self ++ arrivals.
Proof.
  intros Hstart Harr Hfail.
  destruct (batch_flush_finish_failed self2 batch h outcome Hfail) as [E _].
  rewrite E, Harr. unfold batch_flush_start in Hstart.
  destruct (negb (nonempty (mempool self)) || negb (heavy_online self));
    [discriminate|].
  destruct (batch_hash_of (slice_to 100 (mempool self))); [|discriminate].
  injection Hstart as <- <- _ _. cbn [mempool set_mempool].
  now rewrite app_assoc, slice_to_from.
Qed.

(** C1 : a turn of the anchoring loop whose submission fails (any status
    other than 200, or a transport error) puts the whole drained chunk back
    at the front of the buffer in its original order: the buffer after the
    turn is the buffer before it, as a sequence and so as a multiset, and
    [batches_submitted] is unchanged. *)
Theorem failed_anchor_requeues_chunk (self : MediumNode) (keys : list pystr)
        (outcome : http_outcome) :
  heavy_online self = true ->
  nonempty (mempool self) = true ->
  mempool_ok (mempool self) = true ->
  anchored outcome = false ->
  exists self' request logs,
    batch_flush self keys outcome = TurnDone self' request logs
    /\ mempool self' = slice_to 100 (mempool self) ++ slice_from 100 (mempool self)
    /\ mempool self' = mempool self
    /\ Permutation (mempool self') (mempool self)
    /\ batches_submitted self' = batches_submitted self.
Proof.
  intros Hon Hne Hok Hfail.
  destruct (batch_flush_start_submits self keys Hon Hne Hok)
    as [h [request [Hstart _]]].
  unfold batch_flush. rewrite Hstart.
  pose proof (batch_flush_finish_failed
                (set_mempool (slice_from 100 (mempool self)) self)
                (slice_to 100 (mempool self)) h outcome Hfail) as Hfin.
  destruct (batch_flush_finish _ _ h outcome) as [self2 logs].
  cbn [fst mempool set_mempool batches_submitted] in Hfin.
  destruct Hfin as [Hm [Hb _]].
  exists self2, request, logs. rewrite Hm, slice_to_from.
  repeat split; auto.
Qed.

Lemma failed_anchor_requeues_chunk_witness :
  exists self' request logs,
    batch_flush (Sample.node_with 3) [] (Responded 500)
    = TurnDone self' request logs
    /\ mempool self' = slice_to 100 (Sample.accepted 3) ++ slice_from 100 (Sample.accepted 3)
    /\ mempool self' = Sample.accepted 3
    /\ Permutation (mempool self') (Sample.accepted 3)
    /\ batches_submitted self' = 0%Z.
Proof.
  apply (failed_anchor_requeues_chunk (Sample.node_with 3) [] (Responded 500));
    reflexivity.
Defined.

(** C2 : draining a chunk of up to [n] records removes the [min n length]
    oldest ones and leaves [max 0 (length - n)]; putting the chunk back in
    front restores the buffer, order included.  In the loop ([n = 100]): a
    turn that is not skipped drains the 100 oldest records (all of them when
    there are fewer), a failed submission restores the buffer, a successful
    one leaves the remainder and adds exactly 1 to [batches_submitted]; with
    150 records buffered the chunk has 100 and 50 stay. *)
Theorem drain_then_requeue (self : MediumNode) (keys : list pystr) :
  heavy_online self = true ->
  nonempty (mempool self) = true ->
  mempool_ok (mempool self) = true ->
  (forall (n : nat) (buffer : list dict),
      length (slice_to n buffer) = Nat.min n (length buffer)
      /\ Z.of_nat (length (slice_from n buffer))
         = Z.max 0 (Z.of_nat (length buffer) - Z.of_nat n)
      /\ slice_to n buffer ++ slice_from n buffer = buffer)
  /\ exists self1 batch h request,
      batch_flush_start self keys = Submitting self1 batch h request
      /\ mempool self = batch ++ mempool self1
      /\ length batch = Nat.min 100 (length (mempool self))
      /\ Z.of_nat (length (mempool self1))
         = Z.max 0 (Z.of_nat (length (mempool self)) - 100)
      /\ (forall outcome, anchored outcome = false ->
            mempool (fst (batch_flush_finish self1 batch h outcome)) = mempool self)
      /\ (forall outcome, anchored outcome = true ->
            mempool (fst (batch_flush_finish self1 batch h outcome)) = mempool self1
            /\ batches_submitted (fst (batch_flush_finish self1 batch h outcome))
               = (batches_submitted self + 1)%Z)
      /\ (length (mempool self) = 150%nat ->
            length batch = 100%nat /\ length (mempool self1) = 50%nat).
Proof.
  intros Hon Hne Hok. split.
  - intros n buffer. rewrite length_slice_to, length_slice_from, slice_to_from.
    repeat split. lia.
  - destruct (batch_flush_start_submits self keys Hon Hne Hok)
      as [h [request [Hstart _]]].
    exists (set_mempool (slice_from 100 (mempool self)) self),
           (slice_to 100 (mempool self)), h, request.
    cbn [mempool set_mempool].
    rewrite length_slice_to, length_slice_from, slice_to_from.
    repeat split; try assumption; try lia.
    + intros outcome Hfail.
      destruct (batch_flush_finish_failed
                  (set_mempool (slice_from 100 (mempool self)) self)
                  (slice_to 100 (mempool self)) h outcome Hfail) as [E _].
      rewrite E. cbn [mempool set_mempool]. apply slice_to_from.
    + destruct (batch_flush_finish_anchored
                  (set_mempool (slice_from 100 (mempool self)) self)
                  (slice_to 100 (mempool self)) h outcome H) as [E _].
      exact E.
    + destruct (batch_flush_finish_anchored
                  (set_mempool (slice_from 100 (mempool self)) self)
                  (slice_to 100 (mempool self)) h outcome H) as [_ [E _]].
      exact E.
Qed.

Lemma drain_then_requeue_witness :
  exists self1 batch h request,
    batch_flush_start (Sample.node_with 150) [] = Submitting self1 batch h request
    /\ length batch = 100%nat /\ length (mempool self1) = 50%nat
    /\ mempool (fst (batch_flush_finish self1 batch h (Responded 500)))
       = Sample.accepted 150
    /\ batches_submitted (fst (batch_flush_finish self1 batch h (Responded 200)))
       = 1%Z.
Proof.
  destruct (drain_then_requeue (Sample.node_with 150) [])
    as [_ [self1 [batch [h [request [Hs [_ [_ [_ [Hf [Ha H150]]]]]]]]]]];
    try (vm_compute; reflexivity).
  exists self1, batch, h, request.
  destruct H150 as [Hb Hr]; [vm_compute; reflexivity|].
  repeat split; try assumption.
  - apply Hf. reflexivity.
  - apply Ha. reflexivity.
Defined.

(** *** The batch digest *)

(** The model of [hashlib.sha256] against the FIPS 180-4 examples: the
    empty message, one block, two blocks. *)
Example sha256_empty :
  hex (Sha256.sha256 []) =
  lit "e3b0c44298fc1c149afbf4c8996fb92427ae41e4649b934ca495991b7852b855".
Proof. vm_compute. reflexivity. Qed.

Example sha256_abc :
  hex (Sha256.sha256 (lit "abc")) =
  lit "ba7816bf8f01cfea414140de5dae2223b00361a396177a9cb410ff61f20015ad".
Proof. vm_compute. reflexivity. Qed.

Example sha256_two_blocks :
  hex (Sha256.sha256 (lit "abcdbcdecdefdefgefghfghighijhijkijkljklmklmnlmnomnopnopq")) =
  lit "248d6a61d20638b8e5c026930c3e6039a33ce45964ff2167f6ecedd419db06c1".
Proof. vm_compute. reflexivity. Qed.

Example round_constants_from_cube_roots :
  length Sha256.round_constants = 64%nat
  /\ forallb (fun pk => root_fraction 3 (fst pk) (snd pk))
             (combine first_primes Sha256.round_constants) = true.
Proof. split; vm_compute; reflexivity. Qed.

Example initial_chain_from_square_roots :
  forallb (fun ph => root_fraction 2 (fst ph) (snd ph))
          (combine first_primes (chain_words Sha256.initial_chain)) = true.
Proof. vm_compute. reflexivity. Qed.

Example uuid_str_example :
  uuid_str 0x12345678123456781234567812345678 =
  lit "12345678-1234-5678-1234-567812345678".
Proof. vm_compute. reflexivity. Qed.

Lemma combined_ids_from_texts (i : nat) (batch : list dict) (texts : list pystr) :
  spec_id_texts i batch = Some texts ->
  join (map (fun it => dict_get_default (lit "id") (JStr (str_of_nat (fst it))) (snd it))
            (enumerate_from i batch)) = Ok (concat texts).
Proof.
  revert i texts. induction batch as [|tx r IH]; intros i texts H.
  - injection H as <-. reflexivity.
  - cbn [spec_id_texts] in H. cbn [enumerate_from map fst snd].
    unfold spec_id_text in H. unfold dict_get_default at 1.
    destruct (dict_get (lit "id") tx) as [[| | | |t| |]|]; try discriminate;
      (destruct (spec_id_texts (S i) r) as [ts|] eqn:E; [|discriminate]);
      injection H as <-; cbn [join]; rewrite (IH _ _ E); reflexivity.
Qed.

Lemma ids_determine_items (i : nat) (b1 b2 : list dict) :
  map (dict_get (lit "id")) b1 = map (dict_get (lit "id")) b2 ->
  map (fun it => dict_get_default (lit "id") (JStr (str_of_nat (fst it))) (snd it))
      (enumerate_from i b1)
  = map (fun it => dict_get_default (lit "id") (JStr (str_of_nat (fst it))) (snd it))
        (enumerate_from i b2).
Proof.
  revert i b2. induction b1 as [|x r IH]; intros i [|y r2] H;
    try discriminate; [reflexivity|].
  cbn [map] in H. injection H as Hx Hr.
  cbn [enumerate_from map fst snd]. unfold dict_get_default at 1 3.
  rewrite Hx. f_equal. apply IH. exact Hr.
Qed.

Lemma batch_flush_start_inv (self self1 : MediumNode) (keys : list pystr)
      (batch : list dict) (h : pybytes) (request : post AnchorPayload) :
  batch_flush_start self keys = Submitting self1 batch h request ->
  heavy_online self = true
  /\ nonempty (mempool self) = true
  /\ batch = slice_to 100 (mempool self)
  /\ self1 = set_mempool (slice_from 100 (mempool self)) self
  /\ batch_hash_of batch = Ok h
  /\ Medium.batch_root (payload request) = list_of_bytes h
  /\ leaf_count (payload request) = Z.of_nat (length batch).
Proof.
  unfold batch_flush_start. intros H.
  destruct (nonempty (mempool self)); [|discriminate].
  destruct (heavy_online self); [|discriminate]. cbn [negb orb] in H.
  destruct (batch_hash_of (slice_to 100 (mempool self))) as [h0|] eqn:E;
    [|discriminate].
  injection H as <- <- <- <-. repeat split. exact E.
Qed.

(** C3 : the batch digest is SHA-256 of the UTF-8 encoding of the ids of
    the chunk joined in order, a record without an id contributing its
    position in the chunk written in decimal; this is also SHA-256 of the
    ids' UTF-8 bytes put one after the other.  The [batch_root] sent is the
    digest as a list of 32 integers in 0..255, and the digest depends on
    nothing but the ordered ids. *)
Theorem batch_digest_is_sha256_of_ids (batch : list dict) (texts : list pystr) :
  spec_id_texts 0 batch = Some texts ->
  batch_hash_of batch
  = bind (encode (concat texts)) (fun data => Ok (Sha256.sha256 data))
  /\ batch_hash_of batch = spec_batch_digest texts
  /\ (forall h, batch_hash_of batch = Ok h ->
        length (list_of_bytes h) = 32%nat
        /\ Forall (fun b => (0 <= b < 256)%Z) (list_of_bytes h))
  /\ (forall self keys self1 h request,
        batch_flush_start self keys = Submitting self1 batch h request ->
        batch_hash_of batch = Ok h
        /\ Medium.batch_root (payload request) = list_of_bytes h)
  /\ (forall other,
        map (dict_get (lit "id")) other = map (dict_get (lit "id")) batch ->
        batch_hash_of other = batch_hash_of batch).
Proof.
  intros Htexts.
  assert (Hcode : batch_hash_of batch
                  = bind (encode (concat texts)) (fun data => Ok (Sha256.sha256 data))).
  { unfold batch_hash_of, combined_ids, enumerate.
    rewrite (combined_ids_from_texts 0 batch texts Htexts). reflexivity. }
  split; [exact Hcode|]. split; [|split; [|split]].
  - rewrite Hcode. unfold spec_batch_digest. now rewrite encode_concat.
  - intros h Hh. rewrite Hcode in Hh.
    destruct (encode (concat texts)) as [data|]; [|discriminate].
    injection Hh as <-. unfold list_of_bytes. rewrite length_map, sha256_length.
    split; [reflexivity|].
    apply Forall_map. eapply Forall_impl; [|apply sha256_bytes].
    cbv beta. intros b Hb. lia.
  - intros self keys self1 h request Hstart.
    apply batch_flush_start_inv in Hstart. tauto.
  - intros other Hids. unfold batch_hash_of, combined_ids, enumerate.
    now rewrite (ids_determine_items 0 other batch Hids).
Qed.

Lemma batch_digest_is_sha256_of_ids_witness :
  batch_hash_of [Sample.transfer "alice" "bob" (JInt 1); stored [] 7 0%Q]
  = spec_batch_digest [lit "0"; uuid_str 7].
Proof.
  destruct (@batch_digest_is_sha256_of_ids
              [Sample.transfer "alice" "bob" (JInt 1); stored [] 7 0%Q]
              [lit "0"; uuid_str 7]) as [_ [H _]];
    [reflexivity | exact H].
Defined.

(* ================================================================== *)
(** ** Acceptance: [submit_tx] *)

Lemma first_missing_object (d : dict) :
  first_missing required (JObj d) =
  Ok (if has_key (lit "sender") d then
        if has_key (lit "recipient") d then
          if has_key (lit "amount") d then None else Some (lit "amount")
        else Some (lit "recipient")
      else Some (lit "sender")).
Proof.
  unfold required, has_key. cbn [first_missing py_contains bind].
  destruct (dict_get (lit "sender") d); cbn [negb]; [|reflexivity].
  destruct (dict_get (lit "recipient") d); cbn [negb]; [|reflexivity].
  destruct (dict_get (lit "amount") d); reflexivity.
Qed.

Lemma has_required_keys (d : dict) :
  has_required d = true <->
  has_key (lit "sender") d = true /\ has_key (lit "recipient") d = true
  /\ has_key (lit "amount") d = true.
Proof.
  unfold has_required, required. cbn [forallb].
  rewrite !andb_true_iff. tauto.
Qed.

(** A body that lacks a required key is refused with a 400 and the node is
    left as it was; a body that has them all never gets a 400. *)
Lemma submit_tx_missing_field (self : MediumNode) (d : dict) (uuid4 : N) (now : Q) :
  has_required d = false ->
  exists field,
    In field required /\ has_key field d = false
    /\ submit_tx self (Some (JObj d)) uuid4 now
       = (self,
          JsonResponse 400
            [(lit "error", JStr (lit "Missing required field: " ++ field))],
          []).
Proof.
  intros H. unfold submit_tx. rewrite first_missing_object.
  unfold has_required, required in H. cbn [forallb] in H.
  destruct (has_key (lit "sender") d) eqn:Es;
    [destruct (has_key (lit "recipient") d) eqn:Er;
     [destruct (has_key (lit "amount") d) eqn:Ea; [discriminate|]|]|].
  - exists (lit "amount"). split; [unfold required; cbn [In]; auto|]. split; [assumption|reflexivity].
  - exists (lit "recipient"). split; [unfold required; cbn [In]; auto|]. split; [assumption|reflexivity].
  - exists (lit "sender"). split; [unfold required; cbn [In]; auto|]. split; [assumption|reflexivity].
Qed.

Lemma stored_other (d : dict) (uuid4 : N) (now : Q) (k : pystr) :
  k <> lit "id" -> k <> lit "received_at" ->
  dict_get k (stored d uuid4 now) = dict_get k d.
Proof.
  intros H1 H2. unfold stored. now rewrite !dict_get_set_other.
Qed.

Lemma stored_received_at (d : dict) (uuid4 : N) (now : Q) :
  dict_get (lit "received_at") (stored d uuid4 now) = Some (JFloat now).
Proof. apply dict_get_set_same. Qed.

(** What the handler does once validation has passed: the record is stored
    and counted, then the log line is formatted, then the answer is built. *)
Lemma submit_tx_validated (self : MediumNode) (d : dict) (uuid4 : N) (now : Q) :
  has_required d = true ->
  exists s r a,
    dict_get (lit "sender") d = Some s
    /\ dict_get (lit "recipient") d = Some r
    /\ dict_get (lit "amount") d = Some a
    /\ submit_tx self (Some (JObj d)) uuid4 now
       = match bind (py_slice8 s) (fun s8 =>
               bind (py_slice8 r) (fun r8 => Ok (LogTxReceived s8 r8 a))) with
         | Ok entry => (accepting self d uuid4 now, accepted_answer uuid4, [entry])
         | Raise e => (accepting self d uuid4 now, Unhandled e, [])
         end.
Proof.
  intros H. apply has_required_keys in H. destruct H as [Hs [Hr Ha]].
  unfold submit_tx. rewrite first_missing_object, Hs, Hr, Ha.
  cbn [py_setitem]. fold (stored d uuid4 now). fold (accepting self d uuid4 now).
  unfold has_key in Hs, Hr, Ha. unfold py_getitem.
  rewrite stored_id, !stored_other by discriminate.
  destruct (dict_get (lit "sender") d) as [s|]; [|discriminate].
  destruct (dict_get (lit "recipient") d) as [r|]; [|discriminate].
  destruct (dict_get (lit "amount") d) as [a|]; [|discriminate].
  exists s, r, a. repeat split.
Qed.

(** C4 : the handler at a body whose [sender] is a number: the record is
    stored with its id and counted, and then formatting the log line raises
    [TypeError]; the caller gets no id. *)
Theorem submit_tx_numeric_sender_raises (self : MediumNode) (uuid4 : N) (now : Q) :
  has_required Sample.numeric_sender = true
  /\ submit_tx self (Some (JObj Sample.numeric_sender)) uuid4 now
     = (accepting self Sample.numeric_sender uuid4 now, Unhandled TypeError, [])
  /\ mempool (accepting self Sample.numeric_sender uuid4 now)
     = mempool self ++ [stored Sample.numeric_sender uuid4 now]
  /\ tx_count (accepting self Sample.numeric_sender uuid4 now) = (tx_count self + 1)%Z.
Proof. repeat split. Qed.

(** Validation looks at the presence of the three keys only.  A body
    that has them is never refused with a 400: whatever the types and values
    under its keys, it is stored at the tail of the buffer with [id] and
    [received_at] set by the node and every other key as the caller sent it,
    and the counter goes up by one.  When [sender] and [recipient] are
    strings the answer is the 200 that carries the id, whatever [amount]
    is. *)
Theorem presence_only_validation (self : MediumNode) (d : dict) (uuid4 : N) (now : Q) :
  has_required d = true ->
  let self' := fst (fst (submit_tx self (Some (JObj d)) uuid4 now)) in
  let answer := snd (fst (submit_tx self (Some (JObj d)) uuid4 now)) in
  mempool self' = mempool self ++ [stored d uuid4 now]
  /\ tx_count self' = (tx_count self + 1)%Z
  /\ (forall body, answer <> JsonResponse 400 body)
  /\ (forall k, k <> lit "id" -> k <> lit "received_at" ->
        dict_get k (stored d uuid4 now) = dict_get k d)
  /\ dict_get (lit "id") (stored d uuid4 now) = Some (JStr (uuid_str uuid4))
  /\ dict_get (lit "received_at") (stored d uuid4 now) = Some (JFloat now)
  /\ (forall s r,
        dict_get (lit "sender") d = Some (JStr s) ->
        dict_get (lit "recipient") d = Some (JStr r) ->
        answer = accepted_answer uuid4).
Proof.
  intros H. destruct (@submit_tx_validated self d uuid4 now H)
    as [s [r [a [Hs [Hr [Ha E]]]]]].
  cbv zeta. rewrite E. clear E.
  assert (Hnode : forall (x : result log_record),
             fst (fst match x with
                      | Ok entry => (accepting self d uuid4 now, accepted_answer uuid4, [entry])
                      | Raise e => (accepting self d uuid4 now, Unhandled e, [])
                      end) = accepting self d uuid4 now)
    by (intros [entry|e]; reflexivity).
  rewrite Hnode. repeat split.
  - intros body. destruct (bind (py_slice8 s) _); cbn [fst snd]; discriminate.
  - intros k H1 H2. now apply stored_other.
  - apply stored_id.
  - apply stored_received_at.
  - intros s0 r0 Hs0 Hr0. rewrite Hs in Hs0. rewrite Hr in Hr0.
    injection Hs0 as ->. injection Hr0 as ->. reflexivity.
Qed.

(** Amounts of every JSON type are taken. *)
Example any_amount_is_accepted :
  forallb (fun amount =>
             match submit_tx Sample.online_node
                     (Some (JObj (Sample.transfer "alice" "bob" amount))) 7 0%Q
             with
             | (self', JsonResponse 200 _, _) =>
                 Nat.eqb (length (mempool self')) 1
             | _ => false
             end)
          [JInt (-5); JInt 0; JFloat (1 # 3); JStr (lit "ten"); JNull;
           JBool true; JArr []; JObj []] = true.
Proof. vm_compute. reflexivity. Qed.

(** A body that is not an object gets past the membership tests when it is
    a list or a string that contains the three names, and then cannot take
    an [id]. *)
Example list_body_raises :
  submit_tx Sample.online_node
    (Some (JArr [JStr (lit "sender"); JStr (lit "recipient"); JStr (lit "amount")]))
    7 0%Q
  = (Sample.online_node, Unhandled TypeError, []).
Proof. reflexivity. Qed.

Lemma presence_only_validation_witness :
  mempool (fst (fst (submit_tx Sample.online_node
                       (Some (JObj (Sample.transfer "alice" "bob" JNull))) 7 (1 # 2))))
  = [stored (Sample.transfer "alice" "bob" JNull) 7 (1 # 2)]
  /\ snd (fst (submit_tx Sample.online_node
                 (Some (JObj (Sample.transfer "alice" "bob" JNull))) 7 (1 # 2)))
     = accepted_answer 7.
Proof.
  destruct (@presence_only_validation Sample.online_node
              (Sample.transfer "alice" "bob" JNull) 7 (1 # 2))
    as [Hm [_ [_ [_ [_ [_ Hans]]]]]]; [reflexivity|].
  split; [exact Hm|]. apply (Hans (lit "alice") (lit "bob")); reflexivity.
Defined.

(** C10: a body that has the three keys and whose [sender] is a value that
    cannot be sliced (a number, a boolean, [null], an object) passes the
    presence tests and is stored and counted like any other; then the log
    line raises [TypeError]: the handler answers neither 400 nor the 200
    that carries the id. *)
Theorem validated_unsliceable_sender_raises (self : MediumNode) (d : dict)
        (uuid4 : N) (now : Q) (v : json) :
  has_required d = true ->
  dict_get (lit "sender") d = Some v ->
  py_slice8 v = Raise TypeError ->
  submit_tx self (Some (JObj d)) uuid4 now
  = (accepting self d uuid4 now, Unhandled TypeError, [])
  /\ mempool (accepting self d uuid4 now) = mempool self ++ [stored d uuid4 now]
  /\ tx_count (accepting self d uuid4 now) = (tx_count self + 1)%Z
  /\ snd (fst (submit_tx self (Some (JObj d)) uuid4 now)) <> accepted_answer uuid4.
Proof.
  intros Hreq Hs Hv.
  destruct (submit_tx_validated self d uuid4 now Hreq)
    as [s [r [a [Hs0 [_ [_ E]]]]]].
  rewrite Hs in Hs0. injection Hs0 as <-.
  rewrite E, Hv. cbn [bind fst snd]. repeat split. discriminate.
Qed.

Lemma validated_unsliceable_sender_raises_witness :
  submit_tx Sample.online_node
    (Some (JObj [(lit "sender", JNull); (lit "recipient", JStr (lit "bob"));
                 (lit "amount", JInt 1)])) 7 0%Q
  = (accepting Sample.online_node
       [(lit "sender", JNull); (lit "recipient", JStr (lit "bob"));
        (lit "amount", JInt 1)] 7 0%Q,
     Unhandled TypeError, []).
Proof.
  destruct (validated_unsliceable_sender_raises Sample.online_node
              [(lit "sender", JNull); (lit "recipient", JStr (lit "bob"));
               (lit "amount", JInt 1)] 7%N 0%Q JNull eq_refl eq_refl eq_refl)
    as [H _].
  exact H.
Defined.

(* ================================================================== *)
(** ** The liveness monitor *)

Lemma monitor_probe_ok (self : MediumNode) (probe : http_outcome) (now : Q) :
  probe_ok probe = true ->
  monitor_heavy_nodes self probe now
  = (set_shadow_mode false
       (set_last_heavy_heartbeat now (set_heavy_online true self)),
     if shadow_mode self then [LogHeavyBackOnline] else []).
Proof.
  intros H. unfold monitor_heavy_nodes.
  destruct probe as [status|]; cbn [probe_ok] in H; [rewrite H|discriminate].
  cbn [shadow_mode set_last_heavy_heartbeat set_heavy_online].
  destruct self as [? ? ? ? ? [|] ? ? ? ? ?]; reflexivity.
Qed.

Lemma monitor_probe_failed (self : MediumNode) (probe : http_outcome) (now : Q) :
  probe_ok probe = false ->
  monitor_heavy_nodes self probe now
  = (set_shadow_mode true (set_heavy_online false self),
     if heavy_online self then [LogEnteringShadow] else []).
Proof.
  intros H. unfold monitor_heavy_nodes, _handle_heavy_offline.
  destruct probe as [status|]; cbn [probe_ok] in H; [rewrite H|]; reflexivity.
Qed.

(** Failed probes met while already offline log nothing. *)
Lemma monitor_run_offline (probes : list (http_outcome * Q)) (self : MediumNode) :
  heavy_online self = false ->
  forallb (fun p => negb (probe_ok (fst p))) probes = true ->
  snd (monitor_run self probes) = []
  /\ (probes <> [] -> is_shadow (fst (monitor_run self probes)) = true).
Proof.
  revert self. induction probes as [|[probe now] rest IH]; intros self Hoff Hall.
  - split; [reflexivity|congruence].
  - cbn [forallb fst] in Hall. apply andb_true_iff in Hall.
    destruct Hall as [Hp Hrest]. apply negb_true_iff in Hp.
    cbn [monitor_run]. rewrite (monitor_probe_failed self probe now Hp), Hoff.
    specialize (IH (set_shadow_mode true (set_heavy_online false self))
                   eq_refl Hrest).
    destruct rest as [|p rest']; [split; [reflexivity|intros _; reflexivity]|].
    destruct IH as [Hlogs Hstate]. specialize (Hstate ltac:(discriminate)).
    revert Hlogs Hstate.
    destruct (monitor_run _ (p :: rest')) as [self2 logs2]. cbn [fst snd].
    intros -> Hstate. split; [reflexivity|intros _; exact Hstate].
Qed.

(** C5 : the monitor keeps a two-state model.  A probe answered 200 sets
    the node Online and records the time of the heartbeat, and logs the
    recovery exactly once if the node was in shadow mode.  Any other probe
    (another status, a transport failure) sets the node to Shadow whatever it
    was, and logs the entry into shadow mode only if the node was online.
    So a run of failed probes that starts online (three of them, say) logs
    the entry into shadow mode once. *)
Theorem liveness_monitor_two_states (self : MediumNode) (probe : http_outcome) (now : Q) :
  let self' := fst (monitor_heavy_nodes self probe now) in
  let logs := snd (monitor_heavy_nodes self probe now) in
  (probe_ok probe = true ->
     is_online self' = true
     /\ last_heavy_heartbeat self' = now
     /\ logs = if shadow_mode self then [LogHeavyBackOnline] else [])
  /\ (probe_ok probe = false ->
        is_shadow self' = true
        /\ last_heavy_heartbeat self' = last_heavy_heartbeat self
        /\ logs = if heavy_online self then [LogEnteringShadow] else [])
  /\ (is_online self' = true \/ is_shadow self' = true)
  /\ (mempool self' = mempool self /\ tx_count self' = tx_count self
      /\ batches_submitted self' = batches_submitted self)
  /\ (forall probes,
        heavy_online self = true ->
        probes <> [] ->
        forallb (fun p => negb (probe_ok (fst p))) probes = true ->
        snd (monitor_run self probes) = [LogEnteringShadow]
        /\ is_shadow (fst (monitor_run self probes)) = true).
Proof.
  cbv zeta. repeat split.
  - rewrite (monitor_probe_ok self probe now H). reflexivity.
  - rewrite (monitor_probe_ok self probe now H). reflexivity.
  - rewrite (monitor_probe_ok self probe now H). reflexivity.
  - rewrite (monitor_probe_failed self probe now H). reflexivity.
  - rewrite (monitor_probe_failed self probe now H). reflexivity.
  - rewrite (monitor_probe_failed self probe now H). reflexivity.
  - destruct (probe_ok probe) eqn:E.
    + left. rewrite (monitor_probe_ok self probe now E). reflexivity.
    + right. rewrite (monitor_probe_failed self probe now E). reflexivity.
  - apply monitor_heavy_nodes_mempool.
  - destruct (probe_ok probe) eqn:E;
      [rewrite (monitor_probe_ok self probe now E)
      |rewrite (monitor_probe_failed self probe now E)]; reflexivity.
  - destruct (probe_ok probe) eqn:E;
      [rewrite (monitor_probe_ok self probe now E)
      |rewrite (monitor_probe_failed self probe now E)]; reflexivity.
  - destruct probes as [|[p t] rest]; [congruence|].
    cbn [forallb fst] in H1. apply andb_true_iff in H1.
    destruct H1 as [Hp Hrest]. apply negb_true_iff in Hp.
    cbn [monitor_run]. rewrite (monitor_probe_failed self p t Hp), H.
    destruct (monitor_run_offline rest
                (set_shadow_mode true (set_heavy_online false self))
                eq_refl Hrest) as [Hlogs _].
    destruct (monitor_run _ rest) as [self2 logs2]. cbn [snd] in *.
    now rewrite Hlogs.
  - destruct probes as [|[p t] rest]; [congruence|].
    cbn [forallb fst] in H1. apply andb_true_iff in H1.
    destruct H1 as [Hp Hrest]. apply negb_true_iff in Hp.
    cbn [monitor_run]. rewrite (monitor_probe_failed self p t Hp).
    destruct (monitor_run_offline rest
                (set_shadow_mode true (set_heavy_online false self))
                eq_refl Hrest) as [_ Hstate].
    destruct rest as [|q rest']; [reflexivity|].
    specialize (Hstate ltac:(discriminate)). revert Hstate.
    destruct (monitor_run _ (q :: rest')) as [self2 logs2]. cbn [fst].
    intros Hstate. exact Hstate.
Qed.

Lemma liveness_monitor_two_states_witness :
  snd (monitor_run Sample.online_node
         [(Failed, 30%Q); (Responded 503, 60%Q); (Failed, 90%Q)])
  = [LogEnteringShadow]
  /\ is_shadow (fst (monitor_run Sample.online_node
                       [(Failed, 30%Q); (Responded 503, 60%Q); (Failed, 90%Q)]))
     = true.
Proof.
  destruct (liveness_monitor_two_states Sample.online_node Failed 0%Q)
    as [_ [_ [_ [_ H]]]].
  apply H; [reflexivity | discriminate | reflexivity].
Defined.

(** In a running node the two flags are never both set, so Online is
    exactly [heavy_online]. *)
Lemma step_flags (s s' : system) :
  step s s' ->
  heavy_online (node s) && shadow_mode (node s) = false ->
  heavy_online (node s') && shadow_mode (node s') = false.
Proof.
  intros Hstep. destruct Hstep as
    [self fl body uuid4 now | self fl probe now
    | self keys self1 batch h request Hstart | self batch h outcome];
    cbn [node]; intros H.
  - destruct (submit_tx_node self body uuid4 now) as [E|[d [_ E]]];
      rewrite E; exact H.
  - destruct (probe_ok probe) eqn:E;
      [rewrite (monitor_probe_ok self probe now E)
      |rewrite (monitor_probe_failed self probe now E)]; reflexivity.
  - apply batch_flush_start_inv in Hstart.
    destruct Hstart as [_ [_ [_ [-> _]]]]. exact H.
  - unfold batch_flush_finish.
    destruct outcome as [status|]; [destruct (Z.eqb status 200)|]; exact H.
Qed.

Lemma reachable_online_flag (node_id0 : pystr) (api_port0 : Z) (t0 : Q)
      (env_HEAVY_ADDR : option pystr) (s : system) :
  reachable (boot node_id0 api_port0 t0 env_HEAVY_ADDR) s ->
  is_online (node s) = heavy_online (node s).
Proof.
  intros H.
  assert (Hinv : heavy_online (node s) && shadow_mode (node s) = false).
  { induction H as [|s s' _ IH Hstep]; [reflexivity|].
    exact (step_flags s s' Hstep IH). }
  unfold is_online.
  destruct (heavy_online (node s)), (shadow_mode (node s));
    try reflexivity; discriminate.
Qed.

(** Every buffer a running node ever holds satisfies what the theorems on
    the anchoring loop ask of it. *)
Lemma reachable_mempool_ok (node_id0 : pystr) (api_port0 : Z) (t0 : Q)
      (env_HEAVY_ADDR : option pystr) (s : system) :
  reachable (boot node_id0 api_port0 t0 env_HEAVY_ADDR) s ->
  mempool_ok (mempool (node s)) = true.
Proof.
  intros H. apply reachable_records_ok in H. unfold all_records in H.
  destruct (in_flight s) as [[batch h]|]; [|exact H].
  unfold mempool_ok in *. rewrite forallb_app in H.
  now apply andb_true_iff in H.
Qed.

(* ================================================================== *)
(** ** Gating on liveness; the advertisement *)

(** C6 : while the node is not online ([heavy_online] unset) a turn of the
    anchoring loop and a turn of the advertiser stop at their test: nothing
    is drained, no digest is computed, no request is built.  The anchoring
    loop also stops there on an empty buffer, and these are the only turns
    it skips.  So a request to anchor or to advertise is only ever built by
    a node that is online. *)
Theorem offline_turns_do_nothing (self : MediumNode) (keys : list pystr)
        (outcome : http_outcome) (public_ip : pystr) (env : AdvertiseEnv) :
  (heavy_online self = false ->
     batch_flush_start self keys = Skipped
     /\ batch_flush self keys outcome = TurnSkipped
     /\ node_after self (batch_flush self keys outcome) = self
     /\ request_of (batch_flush self keys outcome) = None
     /\ advertise_request self public_ip env = None)
  /\ (mempool self = [] ->
        batch_flush_start self keys = Skipped
        /\ batch_flush self keys outcome = TurnSkipped
        /\ node_after self (batch_flush self keys outcome) = self
        /\ request_of (batch_flush self keys outcome) = None)
  /\ (batch_flush_start self keys = Skipped <->
        heavy_online self = false \/ mempool self = [])
  /\ (forall self1 batch h request,
        batch_flush_start self keys = Submitting self1 batch h request ->
        heavy_online self = true /\ mempool self <> [])
  /\ (forall self' request logs,
        batch_flush self keys outcome = TurnDone self' request logs ->
        heavy_online self = true /\ mempool self <> [])
  /\ (forall request,
        advertise_request self public_ip env = Some request ->
        heavy_online self = true).
Proof.
  assert (Hskip : batch_flush_start self keys = Skipped <->
                  heavy_online self = false \/ mempool self = []).
  { unfold batch_flush_start.
    destruct (mempool self) as [|tx r] eqn:Em; cbn [nonempty negb orb].
    - split; auto.
    - destruct (heavy_online self); cbn [negb].
      + destruct (batch_hash_of (slice_to 100 (tx :: r))); split;
          try discriminate; intros [H|H]; discriminate.
      + split; auto. }
  assert (Hsub : forall self1 batch h request,
             batch_flush_start self keys = Submitting self1 batch h request ->
             heavy_online self = true /\ mempool self <> []).
  { intros self1 batch h request H. apply batch_flush_start_inv in H.
    destruct H as [Hon [Hne _]]. split; [exact Hon|].
    destruct (mempool self); [discriminate|congruence]. }
  split; [|split; [|split; [exact Hskip|split; [exact Hsub|split]]]].
  - intros Hoff. assert (E : batch_flush_start self keys = Skipped)
      by (apply Hskip; now left).
    unfold batch_flush, advertise_request. rewrite E, Hoff. cbn. auto 6.
  - intros Hempty. assert (E : batch_flush_start self keys = Skipped)
      by (apply Hskip; now right).
    unfold batch_flush. rewrite E. cbn. auto.
  - intros self' request logs H. unfold batch_flush in H.
    destruct (batch_flush_start self keys) as [|s1 e|self1 batch h req] eqn:E;
      try discriminate.
    exact (Hsub self1 batch h req eq_refl).
  - intros request H. unfold advertise_request in H.
    destruct (heavy_online self); [reflexivity|discriminate].
Qed.

Lemma offline_turns_do_nothing_witness :
  batch_flush_start (set_heavy_online false (Sample.node_with 3)) [] = Skipped
  /\ batch_flush (set_heavy_online false (Sample.node_with 3)) [] (Responded 200)
     = TurnSkipped
  /\ advertise_request (set_heavy_online false (Sample.node_with 3))
       (lit "203.0.113.9") {| adv_api_keys := []; env_APP_TYPE := None;
                              gmtime_iso := lit "2026-01-01T00:00:00Z" |}
     = None.
Proof.
  destruct (offline_turns_do_nothing
              (set_heavy_online false (Sample.node_with 3)) [] (Responded 200)
              (lit "203.0.113.9")
              {| adv_api_keys := []; env_APP_TYPE := None;
                 gmtime_iso := lit "2026-01-01T00:00:00Z" |}) as [H _].
  destruct (H eq_refl) as [H1 [H2 [_ [_ H3]]]]. auto.
Defined.

(** C9 : in every advertisement [capacity_percent] is
    [max(0, 100 - len(mempool))] for the buffer as it is at that turn; it
    lies between 0 and 100 and is a function of the buffer length alone. *)
Theorem capacity_percent_from_buffer (self : MediumNode) (public_ip : pystr)
        (env : AdvertiseEnv) :
  capacity_percent (advertisement self public_ip env)
  = Z.max 0 (100 - Z.of_nat (length (mempool self)))
  /\ (0 <= capacity_percent (advertisement self public_ip env) <= 100)%Z
  /\ (forall request,
        advertise_request self public_ip env = Some request ->
        capacity_percent (payload request)
        = Z.max 0 (100 - Z.of_nat (length (mempool self))))
  /\ (forall self2 public_ip2 env2,
        length (mempool self2) = length (mempool self) ->
        capacity_percent (advertisement self2 public_ip2 env2)
        = capacity_percent (advertisement self public_ip env)).
Proof.
  cbn [capacity_percent advertisement]. repeat split; try lia.
  - intros request H. unfold advertise_request in H.
    destruct (heavy_online self); [|discriminate].
    cbn [negb] in H. injection H as <-. reflexivity.
Qed.

(* ================================================================== *)
(** ** The address resolver *)

Lemma external_ip_first_success (env : AddrEnv) (urls : list pystr) :
  fst (external_ip env urls)
  = first_success (map (fun url => plausible (ip_service env url)) urls).
Proof.
  induction urls as [|url rest IH]; [reflexivity|].
  cbn [external_ip map first_success]. unfold plausible at 1.
  destruct (ip_service env url) as [|status text]; [exact IH|].
  destruct (Z.eqb status 200); cbn [andb]; [|exact IH].
  destruct (nonempty (strip text) && Nat.ltb (length (strip text)) 40);
    [reflexivity|exact IH].
Qed.

Lemma first_success_app (a b : list (option pystr)) :
  first_success (a ++ b)
  = match first_success a with
    | Some x => Some x
    | None => first_success b
    end.
Proof.
  induction a as [|[x|] r IH]; cbn [app first_success]; auto.
Qed.

(** C8 : the address is resolved by a total function (no exception can
    leave it): it is the first success among, in this order, the configured
    address, the external services in turn (a 200 answer whose stripped body
    is non-empty and shorter than 40 characters), the local end of an
    outbound socket, the resolution of the local host name; and the loopback
    address when every tier fails.  The advertiser resolves it once, before
    its loop: every advertisement of a run carries that one address. *)
Theorem address_resolution_order (env : AddrEnv) :
  fst (_detect_public_addr env) = spec_resolve env
  /\ (forall a, configured env = Some a -> fst (_detect_public_addr env) = a)
  /\ (configured env = None ->
      (forall url, In url ip_service_urls -> plausible (ip_service env url) = None) ->
      outbound_socket env = None ->
      gethostbyname env = None ->
      fst (_detect_public_addr env) = lit "127.0.0.1")
  /\ (forall self0 turns request,
        In (Some request) (snd (advertise_to_heavy env self0 turns)) ->
        exists self adv_env,
          In (self, adv_env) turns
          /\ aggregator_addr (payload request)
             = fst (_detect_public_addr env) ++ lit ":" ++ str_of_Z (api_port self)).
Proof.
  assert (Hspec : fst (_detect_public_addr env) = spec_resolve env).
  { unfold _detect_public_addr, spec_resolve, configured.
    rewrite first_success_app. cbn [first_success].
    destruct (env_PUBLIC_ADDR env) as [[|c a]|]; try reflexivity;
      rewrite first_success_app, <- external_ip_first_success;
      destruct (external_ip env ip_service_urls) as [[ip|] logs];
      cbn [fst first_success]; try reflexivity;
      destruct (outbound_socket env); try reflexivity;
      destruct (gethostbyname env); reflexivity. }
  split; [exact Hspec|]. split; [|split].
  - intros a Ha. rewrite Hspec. unfold spec_resolve.
    rewrite first_success_app. cbn [first_success]. now rewrite Ha.
  - intros Hc Hsvc Hsock Hhost. rewrite Hspec. unfold spec_resolve.
    rewrite first_success_app. cbn [first_success]. rewrite Hc.
    rewrite first_success_app.
    assert (E : first_success
                  (map (fun url => plausible (ip_service env url)) ip_service_urls)
                = None).
    { revert Hsvc. generalize ip_service_urls. intros urls.
      induction urls as [|u r IH]; intros H; [reflexivity|].
      cbn [map first_success]. rewrite (H u) by (now left).
      apply IH. intros url Hin. apply H. now right. }
    rewrite E. cbn [first_success]. now rewrite Hsock, Hhost.
  - intros self0 turns request Hin. unfold advertise_to_heavy in Hin.
    destruct (_detect_public_addr env) as [public_ip logs]. cbn [fst snd] in *.
    apply in_map_iff in Hin. destruct Hin as [[self adv_env] [Hreq Hturn]].
    exists self, adv_env. split; [exact Hturn|].
    cbn [fst snd] in Hreq. unfold advertise_request in Hreq.
    destruct (negb (heavy_online self)); [discriminate|].
    injection Hreq as <-. reflexivity.
Qed.

Lemma address_resolution_order_witness :
  fst (_detect_public_addr Sample.isolated) = lit "127.0.0.1"
  /\ fst (_detect_public_addr Sample.behind_nat) = lit "198.51.100.7".
Proof.
  split.
  - destruct (address_resolution_order Sample.isolated) as [_ [_ [H _]]].
    apply H; reflexivity.
  - destruct (address_resolution_order Sample.behind_nat) as [H _].
    rewrite H. vm_compute. reflexivity.
Defined.

(* ================================================================== *)
(** ** The discovery selector *)

Lemma py_gt_true (x y : Q) : Light.py_gt x y = true <-> (y < x)%Q.
Proof.
  unfold Light.py_gt. rewrite negb_true_iff. split.
  - intros H. apply Qnot_le_lt. intros Hle.
    apply Qle_bool_iff in Hle. congruence.
  - intros H. destruct (Qle_bool x y) eqn:E; [|reflexivity].
    apply Qle_bool_iff in E. exfalso. exact (Qlt_not_le _ _ H E).
Qed.

Lemma py_gt_false (x y : Q) : Light.py_gt x y = false <-> (x <= y)%Q.
Proof.
  unfold Light.py_gt. rewrite negb_false_iff. apply Qle_bool_iff.
Qed.

Section MaxFrom.

Variable A : Type.
Variable key : A -> Q.

Lemma max_from_in (best : A) (rest : list A) :
  In (Light.max_from key best rest) (best :: rest).
Proof.
  revert best. induction rest as [|x r IH]; intros best; [now left|].
  cbn [Light.max_from]. destruct (Light.py_gt (key x) (key best)).
  - right. apply IH.
  - destruct (IH best) as [H|H]; [now left|right; now right].
Qed.

Lemma max_from_upper (best : A) (rest : list A) :
  forall a, In a (best :: rest) ->
            (key a <= key (Light.max_from key best rest))%Q.
Proof.
  revert best. induction rest as [|x r IH]; intros best a Hin.
  - destruct Hin as [<-|[]]. apply Qle_refl.
  - cbn [Light.max_from]. destruct (Light.py_gt (key x) (key best)) eqn:E.
    + destruct Hin as [<-|Hin]; [|now apply IH].
      apply py_gt_true in E. apply Qle_trans with (key x).
      * now apply Qlt_le_weak.
      * apply IH. now left.
    + destruct Hin as [<-|[<-|Hin]].
      * apply IH. now left.
      * apply py_gt_false in E. apply Qle_trans with (key best); [exact E|].
        apply IH. now left.
      * apply IH. now right.
Qed.

(** The maximum returned is the first among equals: everything listed
    before it has a strictly smaller key. *)
Lemma max_from_first (best : A) (rest : list A) :
  exists earlier later,
    best :: rest = earlier ++ Light.max_from key best rest :: later
    /\ forall a, In a earlier ->
                 (key a < key (Light.max_from key best rest))%Q.
Proof.
  revert best. induction rest as [|x r IH]; intros best.
  - exists [], []. split; [reflexivity|intros a []].
  - cbn [Light.max_from]. destruct (Light.py_gt (key x) (key best)) eqn:E.
    + destruct (IH x) as [earlier [later [Heq Hlt]]].
      exists (best :: earlier), later. split.
      * cbn [app]. now rewrite <- Heq.
      * intros a [<-|Hin]; [|now apply Hlt].
        apply py_gt_true in E. apply Qlt_le_trans with (key x); [exact E|].
        apply max_from_upper. now left.
    + destruct (IH best) as [earlier [later [Heq Hlt]]].
      destruct earlier as [|b earlier'].
      * cbn [app] in Heq. injection Heq as Hb Hr.
        exists [], (x :: later). split; [|intros a []].
        cbn [app]. rewrite <- Hb. f_equal. now rewrite Hr.
      * cbn [app] in Heq. injection Heq as Hb Hr.
        exists (b :: x :: earlier'), later. split.
        -- cbn [app]. rewrite <- Hb. do 2 f_equal. exact Hr.
        -- intros a [<-|[<-|Hin]].
           ++ apply Hlt. now left.
           ++ apply py_gt_false in E.
              apply Qle_lt_trans with (key best); [exact E|].
              apply Hlt. left. now symmetry.
           ++ apply Hlt. now right.
Qed.

End MaxFrom.

(** C7 : a discovery answer that lists candidates makes the selector adopt
    the [aggregator_addr] of the candidate with the greatest
    [reputation_score], the first listed among equals, whatever was selected
    before; an empty or null answer leaves the selection as it was and only
    logs that no aggregator was found. *)
Theorem discovery_adopts_best (self : Light.LightNode) (env_APP_TYPE : option pystr)
        (first : Light.Candidate) (others : list Light.Candidate) :
  let best := Light.max_from Light.score first others in
  In best (first :: others)
  /\ (forall a, In a (first :: others) -> (Light.score a <= Light.score best)%Q)
  /\ (exists earlier later,
         first :: others = earlier ++ best :: later
         /\ forall a, In a earlier -> (Light.score a < Light.score best)%Q)
  /\ (forall addr,
        Light.cand_aggregator_addr best = Some addr ->
        Light.aggregator_addr
          (fst (Light.discover_aggregator self env_APP_TYPE
                  (Light.DiscoverReplied 200 (Light.AdsList (first :: others)))))
        = addr)
  /\ (forall body,
        body = Light.AdsNull \/ body = Light.AdsList [] ->
        Light.discover_aggregator self env_APP_TYPE (Light.DiscoverReplied 200 body)
        = (self, [Light.LogNoAggregators
                    match env_APP_TYPE with
                    | Some t => t
                    | None => lit "general"
                    end])).
Proof.
  cbv zeta. split; [apply max_from_in|].
  split; [apply max_from_upper|]. split; [apply max_from_first|]. split.
  - intros addr Haddr. unfold Light.discover_aggregator.
    cbn [Z.eqb Pos.eqb Light.truthy]. rewrite Haddr.
    destruct (Light.cand_aggregator_node_id _); reflexivity.
  - intros body [->| ->]; reflexivity.
Qed.

Lemma discovery_adopts_best_witness :
  Light.aggregator_addr
    (fst (Light.discover_aggregator LightSample.fresh None
            (Light.DiscoverReplied 200
               (Light.AdsList [LightSample.candidate "A" (1 # 2);
                               LightSample.candidate "B" (9 # 10)]))))
  = lit "B"
  /\ Light.aggregator_addr
       (fst (Light.discover_aggregator
               (Light.set_aggregator_addr (lit "B") LightSample.fresh) None
               (Light.DiscoverReplied 200
                  (Light.AdsList [LightSample.candidate "C" (1 # 10)]))))
     = lit "C".
Proof.
  split.
  - destruct (discovery_adopts_best LightSample.fresh None
                (LightSample.candidate "A" (1 # 2))
                [LightSample.candidate "B" (9 # 10)]) as [_ [_ [_ [H _]]]].
    apply H. reflexivity.
  - destruct (discovery_adopts_best
                (Light.set_aggregator_addr (lit "B") LightSample.fresh) None
                (LightSample.candidate "C" (1 # 10)) []) as [_ [_ [_ [H _]]]].
    apply H. reflexivity.
Defined.

(** On an exact tie the candidate listed first is kept. *)
Example discovery_tie_keeps_first :
  Light.aggregator_addr
    (fst (Light.discover_aggregator LightSample.fresh None
            (Light.DiscoverReplied 200
               (Light.AdsList [LightSample.candidate "A" (1 # 2);
                               LightSample.candidate "B" (2 # 4);
                               LightSample.candidate "C" (1 # 4)]))))
  = lit "A".
Proof. reflexivity. Qed.

Lemma capacity_percent_from_buffer_witness :
  capacity_percent
    (advertisement (Sample.node_with 150) (lit "203.0.113.9")
       {| adv_api_keys := []; env_APP_TYPE := None;
          gmtime_iso := lit "2026-01-01T00:00:00Z" |}) = 0%Z
  /\ capacity_percent
       (advertisement (Sample.node_with 3) (lit "203.0.113.9")
          {| adv_api_keys := []; env_APP_TYPE := None;
             gmtime_iso := lit "2026-01-01T00:00:00Z" |}) = 97%Z.
Proof.
  split.
  - destruct (capacity_percent_from_buffer (Sample.node_with 150)
                (lit "203.0.113.9")
                {| adv_api_keys := []; env_APP_TYPE := None;
                   gmtime_iso := lit "2026-01-01T00:00:00Z" |}) as [H _].
    rewrite H. vm_compute. reflexivity.
  - destruct (capacity_percent_from_buffer (Sample.node_with 3)
                (lit "203.0.113.9")
                {| adv_api_keys := []; env_APP_TYPE := None;
                   gmtime_iso := lit "2026-01-01T00:00:00Z" |}) as [H _].
    rewrite H. vm_compute. reflexivity.
Defined.

(* ================================================================== *)
(** ** Stripping and splitting *)

Lemma lstrip_clean (s : pystr) : MoreProps.clean_start (lstrip s) = true.
Proof.
  induction s as [|c r IH]; [reflexivity|].
  cbn [lstrip]. destruct (isspace c) eqn:E; [exact IH|].
  cbn [MoreProps.clean_start]. now rewrite E.
Qed.

Lemma lstrip_of_clean (s : pystr) : MoreProps.clean_start s = true -> lstrip s = s.
Proof.
  destruct s as [|c r]; [reflexivity|]. cbn [MoreProps.clean_start lstrip].
  intros H. apply negb_true_iff in H. now rewrite H.
Qed.

Lemma lstrip_suffix (s : pystr) :
  exists blanks, s = blanks ++ lstrip s /\ forallb isspace blanks = true.
Proof.
  induction s as [|c r [blanks [E H]]].
  - exists []. split; reflexivity.
  - cbn [lstrip]. destruct (isspace c) eqn:Ec.
    + exists (c :: blanks). cbn [app forallb]. rewrite Ec, H.
      split; [now rewrite <- E|reflexivity].
    + exists []. split; reflexivity.
Qed.

(** The two ends of a stripped string are not white space. *)
Lemma strip_clean (s : pystr) :
  MoreProps.clean_start (strip s) = true
  /\ MoreProps.clean_start (rev (strip s)) = true.
Proof.
  unfold strip. rewrite rev_involutive. split; [|apply lstrip_clean].
  destruct (lstrip_suffix (rev (lstrip s))) as [blanks [E _]].
  pose proof (lstrip_clean s) as Ha.
  destruct (lstrip (rev (lstrip s))) as [|c t] eqn:Eb; [reflexivity|].
  apply (f_equal (@rev N)) in E. rewrite rev_involutive, rev_app_distr in E.
  rewrite E in Ha.
  destruct (rev (c :: t)) as [|d u] eqn:Er.
  - apply (f_equal (@length N)) in Er. rewrite length_rev in Er. discriminate.
  - exact Ha.
Qed.

Lemma strip_of_clean (s : pystr) :
  MoreProps.clean_start s = true -> MoreProps.clean_start (rev s) = true ->
  strip s = s.
Proof.
  intros H1 H2. unfold strip.
  rewrite (lstrip_of_clean s H1), (lstrip_of_clean (rev s) H2).
  apply rev_involutive.
Qed.

Lemma strip_idempotent (s : pystr) : strip (strip s) = strip s.
Proof.
  destruct (strip_clean s) as [H1 H2]. now apply strip_of_clean.
Qed.

Lemma lstrip_incl (s : pystr) (c : N) : In c (lstrip s) -> In c s.
Proof.
  destruct (lstrip_suffix s) as [blanks [E _]]. intros H.
  rewrite E. apply in_or_app. now right.
Qed.

Lemma strip_incl (s : pystr) (c : N) : In c (strip s) -> In c s.
Proof.
  unfold strip. intros H. apply in_rev in H. apply lstrip_incl in H.
  apply in_rev in H. now apply lstrip_incl.
Qed.

Lemma split_comma_cons (s : pystr) :
  exists piece rest, Auth.split_comma s = piece :: rest.
Proof.
  destruct s as [|c r]; cbn [Auth.split_comma]; [eauto|].
  destruct (c =? 44)%N; [eauto|].
  destruct (Auth.split_comma r); eauto.
Qed.

Lemma split_comma_no_comma (s piece : pystr) :
  In piece (Auth.split_comma s) -> ~ In 44%N piece.
Proof.
  revert piece. induction s as [|c r IH]; intros piece H.
  - destruct H as [<-|[]]. intros [].
  - cbn [Auth.split_comma] in H. destruct (c =? 44)%N eqn:Ec.
    + destruct H as [<-|H]; [intros []|now apply IH].
    + destruct (Auth.split_comma r) as [|p rest] eqn:Er.
      * destruct H as [<-|[]]. intros [E|[]]. subst c. discriminate.
      * destruct H as [<-|H].
        -- intros [E|Hin]; [subst c; discriminate|].
           apply (IH p); [now left|exact Hin].
        -- apply IH. now right.
Qed.

(** Splitting at the commas and joining with commas gives the string back. *)
Lemma join_split_comma (s : pystr) :
  MoreProps.join_comma (Auth.split_comma s) = s.
Proof.
  induction s as [|c r IH]; [reflexivity|].
  cbn [Auth.split_comma]. destruct (c =? 44)%N eqn:Ec.
  - apply N.eqb_eq in Ec. subst c.
    destruct (split_comma_cons r) as [p [rest E]]. rewrite E in *.
    change (MoreProps.join_comma ([] :: p :: rest))
      with (44%N :: MoreProps.join_comma (p :: rest)).
    now rewrite IH.
  - destruct (Auth.split_comma r) as [|p rest] eqn:Er.
    + cbn in IH. subst r. reflexivity.
    + destruct rest as [|q rest'].
      * cbn [MoreProps.join_comma] in *. now rewrite IH.
      * cbn [MoreProps.join_comma app] in *. now rewrite IH.
Qed.

Lemma member_In (x : pystr) (l : list pystr) :
  Auth.member x l = true <-> In x l.
Proof.
  unfold Auth.member. rewrite existsb_exists. split.
  - intros [y [Hin E]]. apply pystr_eqb_eq in E. now subst y.
  - intros H. exists x. split; [exact H|apply pystr_eqb_refl].
Qed.

(* ================================================================== *)
(** ** API keys and the middleware *)

Lemma truthy_nonempty (k : pystr) : Auth.truthy k = true <-> k <> [].
Proof. destruct k; cbn; split; congruence. Qed.

Lemma load_api_keys_In (env : option pystr) (k : pystr) :
  In k (Auth.load_api_keys env) <->
  exists s piece,
    env = Some s /\ In piece (Auth.split_comma s) /\ strip piece = k /\ k <> [].
Proof.
  unfold Auth.load_api_keys. destruct env as [[|c r]|]; cbn [Auth.truthy negb].
  - split; [intros []|]. intros [s [piece [E [Hin [Hk Hne]]]]].
    injection E as <-. destruct Hin as [<-|[]]. now subst k.
  - rewrite nodup_In, in_map_iff. split.
    + intros [piece [Hk Hin]]. apply filter_In in Hin. destruct Hin as [Hin Ht].
      exists (c :: r), piece. repeat split; auto.
      subst k. now apply truthy_nonempty.
    + intros [s [piece [E [Hin [Hk Hne]]]]]. injection E as <-.
      exists piece. split; [exact Hk|]. apply filter_In. split; [exact Hin|].
      apply truthy_nonempty. now rewrite Hk.
  - split; [intros []|]. intros [s [piece [E _]]]. discriminate.
Qed.

Lemma load_api_keys_clean (env : option pystr) (k : pystr) :
  In k (Auth.load_api_keys env) -> k <> [] /\ strip k = k /\ ~ In 44%N k.
Proof.
  intros H. apply load_api_keys_In in H.
  destruct H as [s [piece [_ [Hin [Hk Hne]]]]]. subst k.
  split; [exact Hne|]. split; [apply strip_idempotent|].
  intros Hc. apply strip_incl in Hc. exact (split_comma_no_comma s piece Hin Hc).
Qed.

(** X1: the key set read from [API_KEYS] has one key for each comma
    separated piece that is not blank, namely the piece stripped; so every
    key is non-empty, has no white space at either end and no comma, and no
    key is listed twice.  An unset or empty variable gives no key. *)
Theorem load_api_keys_are_stripped_pieces (env : option pystr) :
  NoDup (Auth.load_api_keys env)
  /\ (forall k, In k (Auth.load_api_keys env) <->
        exists s piece,
          env = Some s /\ In piece (Auth.split_comma s)
          /\ strip piece = k /\ k <> [])
  /\ (forall k, In k (Auth.load_api_keys env) ->
        k <> [] /\ strip k = k /\ ~ In 44%N k)
  /\ (env = None \/ env = Some [] -> Auth.load_api_keys env = []).
Proof.
  split; [|split; [|split]].
  - unfold Auth.load_api_keys. destruct (negb _); [constructor|apply NoDup_nodup].
  - apply load_api_keys_In.
  - apply load_api_keys_clean.
  - intros [->| ->]; reflexivity.
Qed.

Lemma load_api_keys_are_stripped_pieces_witness :
  Auth.load_api_keys MoreSample.env_keys = [lit "beta"; lit "alpha"]
  /\ Auth.load_api_keys None = [].
Proof.
  split; [vm_compute; reflexivity|].
  destruct (load_api_keys_are_stripped_pieces None) as [_ [_ [_ H]]].
  apply H. now left.
Defined.

Lemma starts_with_iff (t s : pystr) :
  starts_with t s = true <-> exists rest, s = t ++ rest.
Proof.
  revert s. induction t as [|a t IH]; intros s.
  - split; [intros _; now exists s|reflexivity].
  - destruct s as [|b s]; cbn [starts_with].
    + split; [discriminate|]. intros [rest E]. discriminate.
    + rewrite andb_true_iff, N.eqb_eq, IH. split.
      * intros [-> [rest ->]]. now exists rest.
      * intros [rest E]. injection E as -> ->. split; [reflexivity|now exists rest].
Qed.

Lemma slice_from_bearer (rest : pystr) :
  slice_from 7 (lit "Bearer " ++ rest) = rest.
Proof. reflexivity. Qed.

(** The verdict on a protected route when keys are configured. *)
Lemma auth_protected (k0 : pystr) (keys : list pystr) (path : pystr)
      (authorization : option pystr) :
  Auth.member path Auth.PUBLIC_ROUTES = false ->
  Auth.auth_middleware (k0 :: keys) path authorization
  = match authorization with
    | Some h =>
        if starts_with (lit "Bearer ") h then
          if Auth.member (strip (slice_from 7 h)) (k0 :: keys)
          then Auth.CallHandler
          else Auth.Deny 403 (lit "Invalid API key")
        else Auth.Deny 401
               (lit "Missing or invalid Authorization header. Use: Bearer <api_key>")
    | None => Auth.Deny 401
                (lit "Missing or invalid Authorization header. Use: Bearer <api_key>")
    end.
Proof.
  intros Hp. unfold Auth.auth_middleware. rewrite Hp.
  destruct authorization as [h|]; [|reflexivity].
  destruct (starts_with (lit "Bearer ") h); cbn [negb]; [|reflexivity].
  destruct (Auth.member _ (k0 :: keys)); reflexivity.
Qed.

(** X2: a node's own outgoing header is let in by a peer that read the same
    [API_KEYS]: whichever key [list(load_api_keys())] happens to put first,
    [Bearer <that key>] passes the peer's middleware on every route. *)
Theorem own_bearer_is_accepted (env : option pystr) (listing : list pystr)
        (path : pystr) :
  listing <> [] ->
  (forall k, In k listing <-> In k (Auth.load_api_keys env)) ->
  Auth.auth_middleware (Auth.load_api_keys env) path (bearer listing)
  = Auth.CallHandler.
Proof.
  intros Hne Hsame. destruct listing as [|k rest]; [congruence|].
  assert (Hk : In k (Auth.load_api_keys env)) by (apply Hsame; now left).
  destruct (load_api_keys_clean env k Hk) as [_ [Hstrip _]].
  destruct (Auth.member path Auth.PUBLIC_ROUTES) eqn:Hp.
  - unfold Auth.auth_middleware. now rewrite Hp.
  - destruct (Auth.load_api_keys env) as [|k0 keys] eqn:E; [destruct Hk|].
    rewrite (auth_protected k0 keys path _ Hp). cbn [bearer].
    assert (Hs : starts_with (lit "Bearer ") (lit "Bearer " ++ k) = true)
      by (apply starts_with_iff; now exists k).
    rewrite Hs, slice_from_bearer, Hstrip.
    apply member_In in Hk. now rewrite Hk.
Qed.

Lemma own_bearer_is_accepted_witness :
  Auth.auth_middleware (Auth.load_api_keys MoreSample.env_keys)
    (lit "/tx/submit") (bearer [lit "alpha"; lit "beta"])
  = Auth.CallHandler.
Proof.
  apply (own_bearer_is_accepted MoreSample.env_keys [lit "alpha"; lit "beta"]).
  - discriminate.
  - intros k. vm_compute. tauto.
Defined.

(** X3: once keys are configured, a protected route is reached exactly by
    the requests whose header is [Bearer ] followed by a key, white space
    around the key allowed.  A missing header gets a 401; a blank token gets
    a 403, because no loaded key is empty. *)
Theorem protected_route_needs_a_key (env : option pystr) (path : pystr)
        (authorization : option pystr) :
  Auth.load_api_keys env <> [] ->
  Auth.member path Auth.PUBLIC_ROUTES = false ->
  (Auth.auth_middleware (Auth.load_api_keys env) path authorization
   = Auth.CallHandler
   <-> exists rest, authorization = Some (lit "Bearer " ++ rest)
                    /\ In (strip rest) (Auth.load_api_keys env))
  /\ (authorization = None ->
      exists error,
        Auth.auth_middleware (Auth.load_api_keys env) path authorization
        = Auth.Deny 401 error)
  /\ (forall rest,
        authorization = Some (lit "Bearer " ++ rest) -> strip rest = [] ->
        exists error,
          Auth.auth_middleware (Auth.load_api_keys env) path authorization
          = Auth.Deny 403 error).
Proof.
  intros Hkeys Hp.
  pose proof (load_api_keys_clean env) as Hclean.
  destruct (Auth.load_api_keys env) as [|k0 keys]; [congruence|].
  rewrite (auth_protected k0 keys path authorization Hp).
  split; [|split].
  - split.
    + destruct authorization as [h|]; [|discriminate].
      destruct (starts_with (lit "Bearer ") h) eqn:Hs; [|discriminate].
      destruct (Auth.member _ (k0 :: keys)) eqn:Hm; [|discriminate].
      intros _. apply starts_with_iff in Hs. destruct Hs as [rest ->].
      exists rest. split; [reflexivity|].
      rewrite slice_from_bearer in Hm. now apply member_In.
    + intros [rest [-> Hin]].
      assert (Hs : starts_with (lit "Bearer ") (lit "Bearer " ++ rest) = true)
        by (apply starts_with_iff; now exists rest).
      rewrite Hs, slice_from_bearer. apply member_In in Hin. now rewrite Hin.
  - intros ->. eauto.
  - intros rest -> Hblank.
    assert (Hs : starts_with (lit "Bearer ") (lit "Bearer " ++ rest) = true)
      by (apply starts_with_iff; now exists rest).
    rewrite Hs, slice_from_bearer, Hblank.
    destruct (Auth.member [] (k0 :: keys)) eqn:Hm; [|eauto].
    apply member_In in Hm. destruct (Hclean [] Hm) as [Hne _]. congruence.
Qed.

Lemma protected_route_needs_a_key_witness :
  Auth.auth_middleware (Auth.load_api_keys MoreSample.env_keys)
    (lit "/mempool") (Some (lit "Bearer   beta ")) = Auth.CallHandler
  /\ exists error,
       Auth.auth_middleware (Auth.load_api_keys MoreSample.env_keys)
         (lit "/mempool") (Some (lit "Bearer " ++ lit "  ")) = Auth.Deny 403 error.
Proof.
  destruct (protected_route_needs_a_key MoreSample.env_keys (lit "/mempool")
              (Some (lit "Bearer   beta "))) as [H _];
    [discriminate | reflexivity |].
  destruct (protected_route_needs_a_key MoreSample.env_keys (lit "/mempool")
              (Some (lit "Bearer " ++ lit "  "))) as [_ [_ H2]];
    [discriminate | reflexivity |].
  split.
  - apply H. exists (lit "  beta "). split; [reflexivity|].
    vm_compute. tauto.
  - apply (H2 (lit "  ")); reflexivity.
Defined.

(** X4: with keys configured, [POST /tx/submit] without a key is answered
    401 or 403 by the middleware and [submit_tx] does not run: the node is
    left as it was, whatever the body. *)
Theorem unauthorized_submit_changes_nothing (keys : list pystr)
        (self : MediumNode) (authorization : option pystr)
        (body : option json) (uuid4 : N) (now : Q) :
  keys <> [] ->
  (forall rest, authorization = Some (lit "Bearer " ++ rest) ->
                ~ In (strip rest) keys) ->
  exists status error,
    Auth.serve_submit_tx keys self authorization body uuid4 now
    = (self, JsonResponse status [(lit "error", JStr error)], [])
    /\ (status = 401 \/ status = 403)%Z.
Proof.
  intros Hkeys Hno. destruct keys as [|k0 keys]; [congruence|].
  unfold Auth.serve_submit_tx.
  rewrite (auth_protected k0 keys (lit "/tx/submit") authorization eq_refl).
  destruct authorization as [h|]; [|eexists; eexists; split; [reflexivity|now left]].
  destruct (starts_with (lit "Bearer ") h) eqn:Hs;
    [|eexists; eexists; split; [reflexivity|now left]].
  apply starts_with_iff in Hs. destruct Hs as [rest ->].
  rewrite slice_from_bearer.
  destruct (Auth.member (strip rest) (k0 :: keys)) eqn:Hm;
    [|eexists; eexists; split; [reflexivity|now right]].
  apply member_In in Hm. exfalso. exact (Hno rest eq_refl Hm).
Qed.

Lemma unauthorized_submit_changes_nothing_witness :
  exists status error,
    Auth.serve_submit_tx [lit "alpha"] Sample.online_node
      (Some (lit "Bearer gamma"))
      (Some (JObj (Sample.transfer "alice" "bob" (JInt 1)))) 7 0%Q
    = (Sample.online_node, JsonResponse status [(lit "error", JStr error)], [])
    /\ (status = 401 \/ status = 403)%Z.
Proof.
  apply (unauthorized_submit_changes_nothing [lit "alpha"] Sample.online_node
           (Some (lit "Bearer gamma"))).
  - discriminate.
  - intros rest E. injection E as <-. vm_compute. intros [H|[]]. discriminate.
Defined.

(* ================================================================== *)
(** ** Inspecting the buffer; refusing a body *)

Lemma slice_last_suffix {A} (n : nat) (l : list A) :
  firstn (length l - n) l ++ slice_last n l = l
  /\ length (slice_last n l) = Nat.min n (length l).
Proof.
  unfold slice_last. split; [apply firstn_skipn|].
  rewrite length_skipn. lia.
Qed.

(** X5: [get_mempool] reports the full length of the buffer and shows its
    last 50 records at most, in buffer order (all of them when there are
    fewer), without touching the node; after an accepted submission the
    record just stored is the last one shown. *)
Theorem get_mempool_shows_the_tail (self : MediumNode) :
  fst (get_mempool self) = Z.of_nat (length (mempool self))
  /\ length (snd (get_mempool self)) = Nat.min 50 (length (mempool self))
  /\ (exists older, mempool self = older ++ snd (get_mempool self))
  /\ (forall d uuid4 now,
        has_required d = true ->
        let self' := fst (fst (submit_tx self (Some (JObj d)) uuid4 now)) in
        fst (get_mempool self') = (fst (get_mempool self) + 1)%Z
        /\ exists shown,
             snd (get_mempool self') = shown ++ [stored d uuid4 now]).
Proof.
  unfold get_mempool. cbn [fst snd].
  destruct (slice_last_suffix 50 (mempool self)) as [Hsplit Hlen].
  split; [reflexivity|]. split; [exact Hlen|]. split.
  - eexists. symmetry. exact Hsplit.
  - intros d uuid4 now Hreq. cbv zeta.
    destruct (submit_tx_validated self d uuid4 now Hreq)
      as [s [r [a [_ [_ [_ E]]]]]].
    assert (Hnode : fst (fst (submit_tx self (Some (JObj d)) uuid4 now))
                    = accepting self d uuid4 now).
    { rewrite E. destruct (bind (py_slice8 s) _); reflexivity. }
    rewrite Hnode. unfold accepting. cbn [mempool set_tx_count set_mempool].
    rewrite length_app. cbn [length]. split; [lia|].
    unfold slice_last. rewrite length_app. cbn [length].
    exists (skipn (length (mempool self) + 1 - 50) (mempool self)).
    rewrite skipn_app.
    replace (length (mempool self) + 1 - 50 - length (mempool self))%nat
      with 0%nat by lia.
    reflexivity.
Qed.

Lemma get_mempool_shows_the_tail_witness :
  fst (get_mempool
         (fst (fst (submit_tx (Sample.node_with 60)
                      (Some (JObj (Sample.transfer "carol" "dave" (JInt 9))))
                      99 0%Q))))
  = 61%Z
  /\ exists shown,
       snd (get_mempool
              (fst (fst (submit_tx (Sample.node_with 60)
                           (Some (JObj (Sample.transfer "carol" "dave" (JInt 9))))
                           99 0%Q))))
       = shown ++ [stored (Sample.transfer "carol" "dave" (JInt 9)) 99 0%Q].
Proof.
  destruct (get_mempool_shows_the_tail (Sample.node_with 60))
    as [_ [_ [_ H]]].
  destruct (H (Sample.transfer "carol" "dave" (JInt 9)) 99%N 0%Q eq_refl)
    as [Hcount Hshown].
  split; [rewrite Hcount; vm_compute; reflexivity|exact Hshown].
Defined.

(** X6: a JSON object that lacks a required key is refused with a 400 that
    names the first key missing in the order sender, recipient, amount,
    whatever else it lacks; nothing is stored, counted or logged. *)
Theorem submit_tx_names_first_missing (self : MediumNode) (d : dict)
        (uuid4 : N) (now : Q) :
  has_required d = false ->
  let field :=
    if has_key (lit "sender") d then
      if has_key (lit "recipient") d then lit "amount" else lit "recipient"
    else lit "sender" in
  has_key field d = false
  /\ submit_tx self (Some (JObj d)) uuid4 now
     = (self,
        JsonResponse 400
          [(lit "error", JStr (lit "Missing required field: " ++ field))],
        []).
Proof.
  intros H. cbv zeta. unfold submit_tx. rewrite first_missing_object.
  unfold has_required, required in H. cbn [forallb] in H.
  destruct (has_key (lit "sender") d) eqn:Es;
    [destruct (has_key (lit "recipient") d) eqn:Er;
     [destruct (has_key (lit "amount") d) eqn:Ea; [discriminate|]|]|];
    split; auto.
Qed.

Lemma submit_tx_names_first_missing_witness :
  submit_tx Sample.online_node (Some (JObj [(lit "recipient", JStr (lit "bob"))]))
            7 0%Q
  = (Sample.online_node,
     JsonResponse 400
       [(lit "error", JStr (lit "Missing required field: " ++ lit "sender"))],
     []).
Proof.
  destruct (submit_tx_names_first_missing Sample.online_node
              [(lit "recipient", JStr (lit "bob"))] 7%N 0%Q eq_refl)
    as [_ H].
  exact H.
Defined.

(* ================================================================== *)
(** ** The running medium node: what every interleaving keeps *)

(** The sample run is one the node can make. *)
Lemma sample_flush_started :
  exists self1 batch h request,
    MoreSample.flush_started = Submitting self1 batch h request
    /\ length batch = 2%nat.
Proof.
  destruct (batch_flush_start_submits (node MoreSample.two_accepted) [])
    as [h [request [E _]]]; try (vm_compute; reflexivity).
  eexists. eexists. exists h, request. split; [exact E|].
  vm_compute. reflexivity.
Qed.

Lemma sample_run_reachable :
  reachable MoreSample.booted MoreSample.two_accepted
  /\ reachable MoreSample.booted MoreSample.anchored_once
  /\ reachable MoreSample.booted MoreSample.lost_contact.
Proof.
  assert (H2 : reachable MoreSample.booted MoreSample.two_accepted).
  { eapply reach_step; [eapply reach_step; [eapply reach_step;
      [apply reach_start|]|]|].
    - exact (step_monitor (node MoreSample.booted) None (Responded 200) 30%Q).
    - exact (step_submit_tx (node MoreSample.probed) None
               (Some (JObj (Sample.transfer "alice" "bob" (JInt 3)))) 11 31%Q).
    - exact (step_submit_tx (node MoreSample.one_accepted) None
               (Some (JObj (Sample.transfer "carol" "dave" (JInt 4)))) 12 32%Q). }
  split; [exact H2|].
  unfold MoreSample.lost_contact, MoreSample.anchored_once, MoreSample.anchoring.
  destruct sample_flush_started as [self1 [batch [h [request [E _]]]]].
  rewrite E. cbn [in_flight node].
  assert (H3 : reachable MoreSample.booted
                 {| node := fst (batch_flush_finish self1 batch h (Responded 200));
                    in_flight := None |}).
  { eapply reach_step; [eapply reach_step; [exact H2|]|].
    - exact (@step_flush_start (node MoreSample.two_accepted) [] self1 batch h
               request E).
    - exact (step_flush_finish self1 batch h (Responded 200)). }
  split; [exact H3|].
  eapply reach_step; [exact H3|].
  exact (step_monitor (fst (batch_flush_finish self1 batch h (Responded 200)))
           None Failed 60%Q).
Qed.

Lemma monitor_heavy_nodes_counters (self : MediumNode) (probe : http_outcome) (now : Q) :
  tx_count (fst (monitor_heavy_nodes self probe now)) = tx_count self
  /\ batches_submitted (fst (monitor_heavy_nodes self probe now))
     = batches_submitted self.
Proof.
  destruct (probe_ok probe) eqn:E;
    [rewrite (monitor_probe_ok self probe now E)
    |rewrite (monitor_probe_failed self probe now E)]; split; reflexivity.
Qed.

Lemma anchored_cases (outcome : http_outcome) :
  anchored outcome = true \/ anchored outcome = false.
Proof. destruct (anchored outcome); auto. Qed.

(** X7: in any interleaving of the tasks, one atomic step either keeps the
    sequence of buffered and in-flight records as it is, or appends one
    record at its very end (an accepted submission), or removes exactly the
    in-flight chunk from its front; the last happens only together with
    [batches_submitted] going up by one, that is on a 200 from the anchor
    endpoint. *)
Theorem records_leave_only_when_anchored (s s' : system) :
  step s s' ->
  all_records s' = all_records s
  \/ (exists tx, all_records s' = all_records s ++ [tx]
                 /\ in_flight s' = in_flight s)
  \/ (exists batch h,
         in_flight s = Some (batch, h) /\ in_flight s' = None
         /\ all_records s = batch ++ all_records s'
         /\ batches_submitted (node s') = (batches_submitted (node s) + 1)%Z).
Proof.
  intros Hstep. destruct Hstep as
    [self fl body uuid4 now | self fl probe now
    | self keys self1 batch h request Hstart | self batch h outcome];
    unfold all_records; cbn [in_flight node].
  - destruct (submit_tx_node self body uuid4 now) as [E|[d [_ E]]]; rewrite E.
    + now left.
    + right. left. exists (stored d uuid4 now).
      cbn [mempool set_tx_count set_mempool]. split; [|reflexivity].
      destruct fl as [[batch h]|]; [now rewrite app_assoc|reflexivity].
  - left. now rewrite monitor_heavy_nodes_mempool.
  - left. apply batch_flush_start_inv in Hstart.
    destruct Hstart as [_ [_ [-> [-> _]]]]. cbn [mempool set_mempool].
    apply slice_to_from.
  - destruct (anchored_cases outcome) as [Ha|Hf].
    + right. right. exists batch, h.
      destruct (batch_flush_finish_anchored self batch h outcome Ha)
        as [Em [Eb _]].
      rewrite Em, Eb. auto.
    + left. destruct (batch_flush_finish_failed self batch h outcome Hf)
        as [Em _].
      exact Em.
Qed.

Lemma records_leave_only_when_anchored_witness :
  all_records MoreSample.after_one_submit = all_records MoreSample.booted
  \/ (exists tx, all_records MoreSample.after_one_submit
                 = all_records MoreSample.booted ++ [tx]
                 /\ in_flight MoreSample.after_one_submit
                    = in_flight MoreSample.booted)
  \/ (exists batch h,
         in_flight MoreSample.booted = Some (batch, h)
         /\ in_flight MoreSample.after_one_submit = None
         /\ all_records MoreSample.booted
            = batch ++ all_records MoreSample.after_one_submit
         /\ batches_submitted (node MoreSample.after_one_submit)
            = (batches_submitted (node MoreSample.booted) + 1)%Z).
Proof.
  apply (records_leave_only_when_anchored MoreSample.booted
           MoreSample.after_one_submit).
  exact (step_submit_tx (node MoreSample.booted) None
           (Some (JObj (Sample.transfer "alice" "bob" (JInt 3)))) 11 1%Q).
Defined.

(** The counters against the records held, with the size of the chunk in
    flight. *)
Lemma step_counters (s s' : system) :
  step s s' ->
  (match in_flight s with
   | Some (batch, _) => (1 <= length batch <= 100)%nat
   | None => True
   end
   /\ (batches_submitted (node s)
       <= tx_count (node s) - Z.of_nat (length (all_records s))
       <= 100 * batches_submitted (node s))%Z) ->
  (match in_flight s' with
   | Some (batch, _) => (1 <= length batch <= 100)%nat
   | None => True
   end
   /\ (batches_submitted (node s')
       <= tx_count (node s') - Z.of_nat (length (all_records s'))
       <= 100 * batches_submitted (node s'))%Z).
Proof.
  intros Hstep. destruct Hstep as
    [self fl body uuid4 now | self fl probe now
    | self keys self1 batch h request Hstart | self batch h outcome];
    unfold all_records; cbn [in_flight node]; intros [Hfl Hc].
  - split; [exact Hfl|].
    destruct (submit_tx_node self body uuid4 now) as [E|[d [_ E]]]; rewrite E;
      [exact Hc|].
    cbn [mempool set_tx_count set_mempool tx_count batches_submitted].
    destruct fl as [[batch h]|]; rewrite ?length_app in *; cbn [length]; lia.
  - split; [exact Hfl|].
    destruct (monitor_heavy_nodes_counters self probe now) as [Et Eb].
    now rewrite Et, Eb, monitor_heavy_nodes_mempool.
  - apply batch_flush_start_inv in Hstart.
    destruct Hstart as [_ [Hne [-> [-> _]]]].
    apply nonempty_length in Hne.
    cbn [mempool set_mempool tx_count batches_submitted].
    rewrite slice_to_from, length_slice_to. split; [lia|exact Hc].
  - split; [exact I|]. rewrite length_app in Hc.
    destruct (anchored_cases outcome) as [Ha|Hf].
    + destruct (batch_flush_finish_anchored self batch h outcome Ha)
        as [Em [Eb Et]].
      rewrite Em, Eb, Et. lia.
    + destruct (batch_flush_finish_failed self batch h outcome Hf)
        as [Em [Eb Et]].
      rewrite Em, Eb, Et, length_app. lia.
Qed.

(** X8: in a running node the number of transactions accepted and no longer
    held ([tx_count] less the records buffered or in flight) is at least
    [batches_submitted] and at most 100 times it: every counted batch
    anchored between 1 and 100 transactions, and nothing else ever left the
    node. *)
Theorem anchored_between_batches_and_hundredfold (node_id0 : pystr)
        (api_port0 : Z) (t0 : Q) (env_HEAVY_ADDR : option pystr) (s : system) :
  reachable (boot node_id0 api_port0 t0 env_HEAVY_ADDR) s ->
  (batches_submitted (node s)
   <= tx_count (node s) - Z.of_nat (length (all_records s))
   <= 100 * batches_submitted (node s))%Z
  /\ (0 <= batches_submitted (node s))%Z
  /\ (Z.of_nat (length (mempool (node s))) <= tx_count (node s))%Z.
Proof.
  intros H.
  assert (Hinv : match in_flight s with
                 | Some (batch, _) => (1 <= length batch <= 100)%nat
                 | None => True
                 end
                 /\ (batches_submitted (node s)
                     <= tx_count (node s) - Z.of_nat (length (all_records s))
                     <= 100 * batches_submitted (node s))%Z).
  { induction H as [|s s' _ IH Hstep].
    - split; [exact I|]. cbn. lia.
    - exact (step_counters s s' Hstep IH). }
  destruct Hinv as [_ Hc]. split; [exact Hc|]. split; [lia|].
  unfold all_records in Hc.
  destruct (in_flight s) as [[batch h]|]; rewrite ?length_app in Hc; lia.
Qed.

Lemma anchored_between_batches_and_hundredfold_witness :
  batches_submitted (node MoreSample.anchored_once) = 1%Z
  /\ tx_count (node MoreSample.anchored_once) = 2%Z
  /\ all_records MoreSample.anchored_once = []
  /\ (batches_submitted (node MoreSample.anchored_once)
      <= tx_count (node MoreSample.anchored_once)
         - Z.of_nat (length (all_records MoreSample.anchored_once))
      <= 100 * batches_submitted (node MoreSample.anchored_once))%Z.
Proof.
  destruct (anchored_between_batches_and_hundredfold (lit "0f3a9c1e-node") 8001
              0%Q None MoreSample.anchored_once) as [H _].
  - apply sample_run_reachable.
  - split; [vm_compute; reflexivity|]. split; [vm_compute; reflexivity|].
    split; [vm_compute; reflexivity|exact H].
Defined.

(** X9: in a running node the digest computation of the anchoring loop
    never raises: every buffered record has the string id [submit_tx] gave
    it, so the positional fallback is never taken and a turn is either
    skipped or reaches its POST. *)
Theorem running_node_always_digests (node_id0 : pystr) (api_port0 : Z) (t0 : Q)
        (env_HEAVY_ADDR : option pystr) (s : system) (keys : list pystr) :
  reachable (boot node_id0 api_port0 t0 env_HEAVY_ADDR) s ->
  (forall self' e, batch_flush_start (node s) keys <> Crashed self' e)
  /\ (forall outcome self' e,
        batch_flush (node s) keys outcome <> TurnCrashed self' e)
  /\ (forall tx, In tx (mempool (node s)) ->
        exists id, dict_get (lit "id") tx = Some (JStr id)
                   /\ ascii_only id = true).
Proof.
  intros H. apply reachable_mempool_ok in H.
  assert (Hstart : forall self' e, batch_flush_start (node s) keys <> Crashed self' e).
  { intros self' e E. unfold batch_flush_start in E.
    destruct (negb (nonempty (mempool (node s))) || negb (heavy_online (node s)));
      [discriminate|].
    destruct (batch_hash_of_total _ (mempool_ok_slice_to 100 _ H)) as [h Hh].
    rewrite Hh in E. discriminate. }
  assert (Hid : forall tx, In tx (mempool (node s)) ->
                  exists id, dict_get (lit "id") tx = Some (JStr id)
                             /\ ascii_only id = true).
  { intros tx Hin. unfold mempool_ok in H. rewrite forallb_forall in H.
    specialize (H tx Hin). unfold id_ok in H.
    destruct (dict_get (lit "id") tx) as [[| | | |id| |]|]; try discriminate.
    eauto. }
  split; [exact Hstart|]. split; [|exact Hid].
  intros outcome self' e E. unfold batch_flush in E.
  destruct (batch_flush_start (node s) keys) as [|s1 e1|s1 b h r] eqn:Es.
  - discriminate.
  - exact (Hstart s1 e1 eq_refl).
  - destruct (batch_flush_finish s1 b h outcome). discriminate.
Qed.

Lemma running_node_always_digests_witness :
  heavy_online (node MoreSample.two_accepted) = true
  /\ length (mempool (node MoreSample.two_accepted)) = 2%nat
  /\ exists self' request logs,
       batch_flush (node MoreSample.two_accepted) [] (Responded 200)
       = TurnDone self' request logs.
Proof.
  split; [reflexivity|]. split; [reflexivity|].
  destruct (running_node_always_digests (lit "0f3a9c1e-node") 8001 0%Q None
              MoreSample.two_accepted []) as [_ [Hturn _]];
    [apply sample_run_reachable|].
  destruct (batch_flush (node MoreSample.two_accepted) [] (Responded 200))
    as [|self1 e|self' request logs] eqn:E.
  - vm_compute in E. discriminate.
  - exfalso. exact (Hturn (Responded 200) self1 e E).
  - exists self', request, logs. reflexivity.
Defined.

(** X10: whatever is accepted while the anchor POST is in flight stays in
    the buffer behind everything older: after a 200 the buffer is the
    undrained remainder followed by the arrivals, after a failure it is the
    chunk, the remainder and the arrivals, in this order. *)
Theorem arrivals_during_anchor_are_kept (self self1 self2 : MediumNode)
        (keys : list pystr) (batch arrivals : list dict) (h : pybytes)
        (request : post AnchorPayload) (outcome : http_outcome) :
  batch_flush_start self keys = Submitting self1 batch h request ->
  mempool self2 = mempool self1 ++ arrivals ->
  mempool (fst (batch_flush_finish self2 batch h outcome))
  = (if anchored outcome then [] else slice_to 100 (mempool self))
      ++ slice_from 100 (mempool self) ++ arrivals
  /\ (anchored outcome = false ->
      mempool (fst (batch_flush_finish self2 batch h outcome))
      = mempool self ++ arrivals).
Proof.
  intros Hstart Harr. apply batch_flush_start_inv in Hstart.
  destruct Hstart as [_ [_ [Hb [Hs1 _]]]]. subst batch self1.
  cbn [mempool set_mempool] in Harr.
  destruct (anchored_cases outcome) as [Ha|Hf].
  - destruct (batch_flush_finish_anchored self2 (slice_to 100 (mempool self)) h
                outcome Ha) as [Em _].
    rewrite Em, Ha, Harr. split; [reflexivity|discriminate].
  - destruct (batch_flush_finish_failed self2 (slice_to 100 (mempool self)) h
                outcome Hf) as [Em _].
    rewrite Em, Hf, Harr. split; [reflexivity|].
    intros _. now rewrite app_assoc, slice_to_from.
Qed.

Lemma arrivals_during_anchor_are_kept_witness :
  exists self1 batch h request,
    batch_flush_start (Sample.node_with 3) [] = Submitting self1 batch h request
    /\ mempool (fst (batch_flush_finish
                       (set_mempool (mempool self1 ++ Sample.accepted 1) self1)
                       batch h (Responded 200)))
       = Sample.accepted 1.
Proof.
  destruct (batch_flush_start_submits (Sample.node_with 3) [] eq_refl eq_refl eq_refl)
    as [h [request [Hstart _]]].
  eexists. eexists. exists h, request. split; [exact Hstart|].
  destruct (arrivals_during_anchor_are_kept (Sample.node_with 3) _
              (set_mempool (slice_from 100 (mempool (Sample.node_with 3))
                            ++ Sample.accepted 1)
                 (set_mempool (slice_from 100 (mempool (Sample.node_with 3)))
                    (Sample.node_with 3)))
              [] _ (Sample.accepted 1) h request (Responded 200) Hstart eq_refl)
    as [H _].
  exact H.
Defined.

(** X11: every anchor request carries between 1 and 100 leaves, exactly as
    many as records were taken from the buffer, and a root of 32 byte
    values. *)
Theorem anchor_request_has_1_to_100_leaves (self self1 : MediumNode)
        (keys : list pystr) (batch : list dict) (h : pybytes)
        (request : post AnchorPayload) :
  batch_flush_start self keys = Submitting self1 batch h request ->
  (1 <= leaf_count (payload request) <= 100)%Z
  /\ leaf_count (payload request) = Z.of_nat (length batch)
  /\ (length (mempool self1) + length batch)%nat = length (mempool self)
  /\ length (Medium.batch_root (payload request)) = 32%nat.
Proof.
  intros Hstart. apply batch_flush_start_inv in Hstart.
  destruct Hstart as [_ [Hne [Hb [Hs1 [Hh [Hroot Hleaf]]]]]].
  apply nonempty_length in Hne. subst batch self1.
  cbn [mempool set_mempool]. rewrite Hleaf, Hroot.
  rewrite length_slice_to, length_slice_from.
  repeat split; try lia.
  unfold list_of_bytes. rewrite length_map.
  unfold batch_hash_of in Hh.
  destruct (combined_ids _) as [c|]; [|discriminate]. cbn [bind] in Hh.
  destruct (encode c) as [data|]; [|discriminate]. cbn [bind] in Hh.
  injection Hh as <-. apply sha256_length.
Qed.

Lemma anchor_request_has_1_to_100_leaves_witness :
  exists self1 batch h request,
    batch_flush_start (Sample.node_with 150) [] = Submitting self1 batch h request
    /\ leaf_count (payload request) = 100%Z.
Proof.
  destruct (batch_flush_start_submits (Sample.node_with 150) [])
    as [h [request [Hstart _]]]; try (vm_compute; reflexivity).
  eexists. eexists. exists h, request. split; [exact Hstart|].
  destruct (anchor_request_has_1_to_100_leaves _ _ _ _ _ _ Hstart)
    as [_ [Hleaf _]].
  rewrite Hleaf. vm_compute. reflexivity.
Defined.

(** X12: in a running node [heavy_online] and [shadow_mode] are never both
    set, so the test the anchoring loop and the advertiser make on
    [heavy_online] is a test on the Online state. *)
Theorem running_node_flags_exclusive (node_id0 : pystr) (api_port0 : Z) (t0 : Q)
        (env_HEAVY_ADDR : option pystr) (s : system) :
  reachable (boot node_id0 api_port0 t0 env_HEAVY_ADDR) s ->
  heavy_online (node s) && shadow_mode (node s) = false
  /\ is_online (node s) = heavy_online (node s)
  /\ is_shadow (node s) = shadow_mode (node s).
Proof.
  intros H.
  assert (Hinv : heavy_online (node s) && shadow_mode (node s) = false).
  { induction H as [|s s' _ IH Hstep]; [reflexivity|].
    exact (step_flags s s' Hstep IH). }
  unfold is_online, is_shadow.
  destruct (heavy_online (node s)), (shadow_mode (node s));
    try discriminate; repeat split.
Qed.

Lemma running_node_flags_exclusive_witness :
  (heavy_online (node MoreSample.anchored_once) = true
   /\ is_online (node MoreSample.anchored_once) = true
   /\ shadow_mode (node MoreSample.anchored_once) = false)
  /\ (shadow_mode (node MoreSample.lost_contact) = true
      /\ is_shadow (node MoreSample.lost_contact) = true
      /\ heavy_online (node MoreSample.lost_contact) = false).
Proof.
  destruct (running_node_flags_exclusive (lit "0f3a9c1e-node") 8001 0%Q None
              MoreSample.anchored_once) as [Hx [Hon _]];
    [apply sample_run_reachable|].
  destruct (running_node_flags_exclusive (lit "0f3a9c1e-node") 8001 0%Q None
              MoreSample.lost_contact) as [Hy [_ Hsh]];
    [apply sample_run_reachable|].
  assert (E1 : heavy_online (node MoreSample.anchored_once) = true)
    by (vm_compute; reflexivity).
  assert (E2 : shadow_mode (node MoreSample.lost_contact) = true)
    by (vm_compute; reflexivity).
  rewrite E1 in Hx, Hon. rewrite E2 in Hy, Hsh.
  cbn [andb] in Hx. rewrite andb_true_r in Hy.
  repeat split; assumption.
Defined.

(* ================================================================== *)
(** ** The light node: forwarding a transaction *)

(** X13: the light node's [submit_tx] forwards to
    [http://<aggregator>/tx/submit] only when it has an aggregator and the
    body parsed; what it sends is the parsed body as it is, except that the
    JSON [null] goes out as a request without a body.  It hands the
    aggregator's status and body back as they are, and [tx_submitted] goes
    up by one exactly when a forwarded request was answered with JSON,
    whatever the status of that answer.  Nothing else of the node changes. *)
Theorem light_submit_counts_answered_forwards (self : Light.LightNode)
        (body : option json) (keys : list pystr)
        (outcome : LightTasks.forward_outcome) :
  let self' := fst (fst (LightTasks.submit_tx self body keys outcome)) in
  let answer := snd (fst (LightTasks.submit_tx self body keys outcome)) in
  let sent := snd (LightTasks.submit_tx self body keys outcome) in
  (sent = None <-> Light.aggregator_addr self = [] \/ body = None)
  /\ (forall request, sent = Some request ->
        (exists tx, body = Some tx
                    /\ payload request = LightTasks.json_argument tx
                    /\ (tx <> JNull -> payload request = Some tx)
                    /\ (tx = JNull -> payload request = None))
        /\ url request
           = lit "http://" ++ Light.aggregator_addr self ++ lit "/tx/submit"
        /\ authorization request = bearer keys)
  /\ (forall status result,
        sent <> None -> outcome = LightTasks.ForwardReplied status result ->
        answer = LightTasks.Respond status result
        /\ self' = LightTasks.set_tx_submitted (Light.tx_submitted self + 1) self)
  /\ (sent = None \/ (exists text, outcome = LightTasks.ForwardRaised text) ->
      self' = self)
  /\ (Light.aggregator_addr self = [] ->
      exists error, answer = LightTasks.Respond 503 error).
Proof.
  assert (Harg : forall tx,
             exists tx0, Some tx = Some tx0
                         /\ LightTasks.json_argument tx = LightTasks.json_argument tx0
                         /\ (tx0 <> JNull -> LightTasks.json_argument tx = Some tx0)
                         /\ (tx0 = JNull -> LightTasks.json_argument tx = None)).
  { intros tx. exists tx. split; [reflexivity|]. split; [reflexivity|]. split.
    - intros Hne. destruct tx; try reflexivity. congruence.
    - intros ->. reflexivity. }
  cbv zeta. unfold LightTasks.submit_tx, LightTasks.submit_tx_start.
  destruct (Light.aggregator_addr self) as [|c a] eqn:Ea.
  - cbn [fst snd]. split; [|split; [|split; [|split]]].
    + split; auto.
    + intros request H. discriminate.
    + intros status result H. now contradiction H.
    + reflexivity.
    + intros _. eauto.
  - destruct body as [tx|].
    + destruct outcome as [text|status result];
        cbn [LightTasks.submit_tx_finish fst snd];
        (split; [|split; [|split; [|split]]]).
      * split; [discriminate|intros [H|H]; discriminate].
      * intros request H. injection H as <-. cbn [payload url authorization].
        split; [apply Harg|split; reflexivity].
      * intros status result _ H. discriminate.
      * reflexivity.
      * discriminate.
      * split; [discriminate|intros [H|H]; discriminate].
      * intros request H. injection H as <-. cbn [payload url authorization].
        split; [apply Harg|split; reflexivity].
      * intros status0 result0 _ H. injection H as <- <-. split; reflexivity.
      * intros [H|[text H]]; discriminate.
      * discriminate.
    + cbn [fst snd]. split; [|split; [|split; [|split]]].
      * split; auto.
      * intros request H. discriminate.
      * intros status result H. now contradiction H.
      * reflexivity.
      * discriminate.
Qed.

Lemma light_submit_counts_answered_forwards_witness :
  LightTasks.submit_tx MoreSample.attached
    (Some (JObj [(lit "sender", JStr (lit "alice"))])) []
    (LightTasks.ForwardReplied 400
       (JObj [(lit "error", JStr (lit "Missing required field: recipient"))]))
  = (LightTasks.set_tx_submitted 1 MoreSample.attached,
     LightTasks.Respond 400
       (JObj [(lit "error", JStr (lit "Missing required field: recipient"))]),
     Some {| url := lit "http://203.0.113.9:8001/tx/submit";
             authorization := None;
             payload := Some (JObj [(lit "sender", JStr (lit "alice"))]) |})
  /\ snd (LightTasks.submit_tx MoreSample.attached (Some JNull) []
            (LightTasks.ForwardReplied 400
               (JObj [(lit "error", JStr (lit "Invalid JSON"))])))
     = Some {| url := lit "http://203.0.113.9:8001/tx/submit";
               authorization := None;
               payload := None |}.
Proof.
  destruct (light_submit_counts_answered_forwards MoreSample.attached
              (Some (JObj [(lit "sender", JStr (lit "alice"))])) []
              (LightTasks.ForwardReplied 400
                 (JObj [(lit "error",
                         JStr (lit "Missing required field: recipient"))])))
    as [_ [_ [H _]]].
  destruct (H 400%Z
              (JObj [(lit "error", JStr (lit "Missing required field: recipient"))]))
    as [Hanswer Hnode]; [discriminate|reflexivity|].
  split; reflexivity.
Defined.

(** A forwarded [null] reaches the medium node as a request without a body,
    which it refuses as invalid JSON; the light node counts it. *)
Example relayed_null_is_invalid_json :
  MoreProps.relay MoreSample.attached [] Sample.online_node [] (Some JNull)
                  7 0%Q (LightTasks.ForwardRaised [])
  = (LightTasks.set_tx_submitted 1 MoreSample.attached, Sample.online_node,
     LightTasks.Respond 400 (JObj [(lit "error", JStr (lit "Invalid JSON"))])).
Proof. reflexivity. Qed.

(** X14: a transfer relayed by a light node to a medium node that lets its
    header in.  A body with the three keys and string parties is stored by
    the medium node and the client gets the 200 with the id the medium node
    assigned; a body that lacks a key comes back as the medium node's 400
    and is stored nowhere.  The light node counts both. *)
Theorem relayed_transfer_end_to_end (light : Light.LightNode)
        (light_keys : list pystr) (medium : MediumNode)
        (medium_keys : list pystr) (d : dict) (uuid4 : N) (now : Q)
        (after_crash : LightTasks.forward_outcome) :
  Light.aggregator_addr light <> [] ->
  Auth.auth_middleware medium_keys (lit "/tx/submit") (bearer light_keys)
  = Auth.CallHandler ->
  (has_required d = true ->
   forall s r,
     dict_get (lit "sender") d = Some (JStr s) ->
     dict_get (lit "recipient") d = Some (JStr r) ->
     MoreProps.relay light light_keys medium medium_keys (Some (JObj d))
                     uuid4 now after_crash
     = (LightTasks.set_tx_submitted (Light.tx_submitted light + 1) light,
        accepting medium d uuid4 now,
        LightTasks.Respond 200
          (JObj [(lit "status", JStr (lit "accepted"));
                 (lit "tx_id", JStr (uuid_str uuid4))])))
  /\ (has_required d = false ->
      exists error,
        MoreProps.relay light light_keys medium medium_keys (Some (JObj d))
                        uuid4 now after_crash
        = (LightTasks.set_tx_submitted (Light.tx_submitted light + 1) light,
           medium,
           LightTasks.Respond 400 (JObj [(lit "error", JStr error)]))).
Proof.
  intros Hagg Hauth.
  unfold MoreProps.relay, LightTasks.submit_tx_start.
  destruct (Light.aggregator_addr light) as [|c a]; [congruence|].
  cbn [authorization payload LightTasks.json_argument].
  unfold Auth.serve_submit_tx. rewrite Hauth.
  split.
  - intros Hreq s r Hs Hr.
    destruct (submit_tx_validated medium d uuid4 now Hreq)
      as [s0 [r0 [a0 [Hs0 [Hr0 [_ E]]]]]].
    rewrite E. rewrite Hs in Hs0. rewrite Hr in Hr0.
    injection Hs0 as <-. injection Hr0 as <-. reflexivity.
  - intros Hreq.
    destruct (submit_tx_missing_field medium d uuid4 now Hreq)
      as [field [_ [_ E]]].
    rewrite E. eexists. reflexivity.
Qed.

Lemma relayed_transfer_end_to_end_witness :
  MoreProps.relay MoreSample.attached [lit "alpha"; lit "beta"]
    Sample.online_node (Auth.load_api_keys MoreSample.env_keys)
    (Some (JObj (Sample.transfer "alice" "bob" (JInt 5)))) 7 0%Q
    (LightTasks.ForwardRaised [])
  = (LightTasks.set_tx_submitted 1 MoreSample.attached,
     accepting Sample.online_node (Sample.transfer "alice" "bob" (JInt 5)) 7 0%Q,
     LightTasks.Respond 200
       (JObj [(lit "status", JStr (lit "accepted"));
              (lit "tx_id", JStr (uuid_str 7))])).
Proof.
  destruct (relayed_transfer_end_to_end MoreSample.attached
              [lit "alpha"; lit "beta"] Sample.online_node
              (Auth.load_api_keys MoreSample.env_keys)
              (Sample.transfer "alice" "bob" (JInt 5)) 7%N 0%Q
              (LightTasks.ForwardRaised [])) as [H _];
    [discriminate | reflexivity |].
  apply (H eq_refl (lit "alice") (lit "bob")); reflexivity.
Defined.

(* ================================================================== *)
(** ** The light node: state sync and the anchor watch *)

Lemma usable_proof_bytes (data : option (list Z)) :
  MoreProps.usable_proof data = true ->
  exists z r bytes, data = Some (z :: r) /\ LightTasks.bytes_of (z :: r) = Some bytes.
Proof.
  unfold MoreProps.usable_proof. destruct data as [[|z r]|]; try discriminate.
  destruct (LightTasks.bytes_of (z :: r)) as [bytes|] eqn:E; [|discriminate].
  eauto.
Qed.

Lemma sync_usable (self : Light.LightNode) (proof : LightTasks.StateProof) (now : Q) :
  MoreProps.usable_proof (LightTasks.proof_data proof) = true ->
  fst (LightTasks.sync_state_via_zk self (LightTasks.SyncReplied 200 proof) now)
  = LightTasks.set_synced
      (match LightTasks.block_height proof with Some h => h | None => 0%Z end)
      (slice_to 16 (match LightTasks.root_hash proof with Some r => r | None => [] end))
      now self.
Proof.
  intros H. destruct (usable_proof_bytes _ H) as [z [r [bytes [Ed Eb]]]].
  unfold LightTasks.sync_state_via_zk. cbn [Z.eqb Pos.eqb].
  rewrite Ed, Eb. reflexivity.
Qed.

Lemma sync_unusable (self : Light.LightNode) (outcome : LightTasks.sync_outcome) (now : Q) :
  match outcome with
  | LightTasks.SyncRaised => True
  | LightTasks.SyncReplied status proof =>
      status <> 200%Z
      \/ MoreProps.usable_proof (LightTasks.proof_data proof) = false
  end ->
  fst (LightTasks.sync_state_via_zk self outcome now) = self.
Proof.
  unfold LightTasks.sync_state_via_zk, MoreProps.usable_proof.
  destruct outcome as [|status proof]; [reflexivity|].
  destruct (Z.eqb_spec status 200) as [->|Hne]; [|reflexivity].
  intros [H|H]; [congruence|].
  destruct (LightTasks.proof_data proof) as [[|z r]|]; try reflexivity.
  destruct (LightTasks.bytes_of (z :: r)); [discriminate|reflexivity].
Qed.

(** X15: [sync_state_via_zk] takes the height and the root hash on trust.
    A 200 answer whose [proof_data] is a non-empty list of byte values makes
    the node adopt [block_height] (0 when missing), the first 16 characters
    of [root_hash] and the time; the proof bytes are hashed for the log line
    and compared with nothing, so two answers that agree on height and root
    leave the same node whatever their proofs. *)
Theorem sync_takes_root_on_trust (self : Light.LightNode)
        (proof other : LightTasks.StateProof) (now : Q) :
  MoreProps.usable_proof (LightTasks.proof_data proof) = true ->
  let self' :=
    fst (LightTasks.sync_state_via_zk self (LightTasks.SyncReplied 200 proof) now) in
  Light.synced_block_height self'
  = match LightTasks.block_height proof with Some h => h | None => 0%Z end
  /\ Light.synced_root_hash self'
     = slice_to 16 (match LightTasks.root_hash proof with Some r => r | None => [] end)
  /\ Light.last_sync_time self' = now
  /\ (MoreProps.usable_proof (LightTasks.proof_data other) = true ->
      LightTasks.block_height other = LightTasks.block_height proof ->
      LightTasks.root_hash other = LightTasks.root_hash proof ->
      fst (LightTasks.sync_state_via_zk self (LightTasks.SyncReplied 200 other) now)
      = self').
Proof.
  intros H. cbv zeta. rewrite (sync_usable self proof now H).
  repeat split. intros Ho Eh Er.
  rewrite (sync_usable self other now Ho), Eh, Er. reflexivity.
Qed.

Lemma sync_takes_root_on_trust_witness :
  fst (LightTasks.sync_state_via_zk MoreSample.attached
         (LightTasks.SyncReplied 200
            {| LightTasks.block_height := Some 42%Z;
               LightTasks.root_hash := Some (lit "00112233445566778899aabbccddeeff");
               LightTasks.proof_data := Some [0]%Z |}) 5%Q)
  = fst (LightTasks.sync_state_via_zk MoreSample.attached
           (LightTasks.SyncReplied 200 MoreSample.good_proof) 5%Q).
Proof.
  destruct (sync_takes_root_on_trust MoreSample.attached MoreSample.good_proof
              {| LightTasks.block_height := Some 42%Z;
                 LightTasks.root_hash := Some (lit "00112233445566778899aabbccddeeff");
                 LightTasks.proof_data := Some [0]%Z |} 5%Q eq_refl)
    as [_ [_ [_ H]]].
  apply H; reflexivity.
Defined.

(** X16: a sync that fails changes nothing: an exception, a status other
    than 200, a missing or empty [proof_data], or a [proof_data] with an
    item outside 0..255 all leave the node as it was.  A sync never touches
    the selected aggregator or the counters, and the stored root hash never
    grows beyond 16 characters. *)
Theorem failed_sync_changes_nothing (self : Light.LightNode)
        (outcome : LightTasks.sync_outcome) (now : Q) :
  let self' := fst (LightTasks.sync_state_via_zk self outcome now) in
  (match outcome with
   | LightTasks.SyncRaised => True
   | LightTasks.SyncReplied status proof =>
       status <> 200%Z
       \/ MoreProps.usable_proof (LightTasks.proof_data proof) = false
   end -> self' = self)
  /\ Light.aggregator_addr self' = Light.aggregator_addr self
  /\ Light.anchors_verified self' = Light.anchors_verified self
  /\ Light.tx_submitted self' = Light.tx_submitted self
  /\ (length (Light.synced_root_hash self')
      <= Nat.max 16 (length (Light.synced_root_hash self)))%nat.
Proof.
  cbv zeta. split; [apply sync_unusable|].
  assert (Hsame : Light.aggregator_addr self = Light.aggregator_addr self
                  /\ Light.anchors_verified self = Light.anchors_verified self
                  /\ Light.tx_submitted self = Light.tx_submitted self
                  /\ (length (Light.synced_root_hash self)
                      <= Nat.max 16 (length (Light.synced_root_hash self)))%nat)
    by (split; [reflexivity|split; [reflexivity|split; [reflexivity|lia]]]).
  destruct outcome as [|status proof]; [exact Hsame|].
  destruct (Z.eqb_spec status 200) as [->|Hne].
  - destruct (MoreProps.usable_proof (LightTasks.proof_data proof)) eqn:E.
    + rewrite (sync_usable self proof now E).
      cbn [Light.aggregator_addr Light.anchors_verified Light.tx_submitted
           Light.synced_root_hash LightTasks.set_synced].
      split; [reflexivity|split; [reflexivity|split; [reflexivity|]]].
      rewrite length_slice_to. lia.
    + rewrite (sync_unusable self (LightTasks.SyncReplied 200 proof) now
                 (or_intror E)).
      exact Hsame.
  - rewrite (sync_unusable self (LightTasks.SyncReplied status proof) now
               (or_introl Hne)).
    exact Hsame.
Qed.

Lemma failed_sync_changes_nothing_witness :
  fst (LightTasks.sync_state_via_zk MoreSample.attached
         (LightTasks.SyncReplied 200
            {| LightTasks.block_height := Some 42%Z;
               LightTasks.root_hash := Some (lit "00112233");
               LightTasks.proof_data := Some [7; 256]%Z |}) 5%Q)
  = MoreSample.attached.
Proof.
  destruct (failed_sync_changes_nothing MoreSample.attached
              (LightTasks.SyncReplied 200
                 {| LightTasks.block_height := Some 42%Z;
                    LightTasks.root_hash := Some (lit "00112233");
                    LightTasks.proof_data := Some [7; 256]%Z |}) 5%Q)
    as [H _].
  apply H. right. reflexivity.
Defined.

Lemma sync_keeps (self : Light.LightNode) (outcome : LightTasks.sync_outcome) (now : Q) :
  Light.aggregator_addr (fst (LightTasks.sync_state_via_zk self outcome now))
  = Light.aggregator_addr self
  /\ Light.anchors_verified (fst (LightTasks.sync_state_via_zk self outcome now))
     = Light.anchors_verified self.
Proof.
  unfold LightTasks.sync_state_via_zk.
  destruct outcome as [|status proof]; [split; reflexivity|].
  destruct (Z.eqb status 200); [|split; reflexivity].
  destruct (LightTasks.proof_data proof) as [[|z r]|]; try (split; reflexivity).
  destruct (LightTasks.bytes_of (z :: r)); split; reflexivity.
Qed.

Lemma set_aggregator_addr_same (self : Light.LightNode) :
  Light.set_aggregator_addr (Light.aggregator_addr self) self = self.
Proof. destruct self. reflexivity. Qed.

(** Discovery changes the selection and nothing else. *)
Lemma discover_frame (self : Light.LightNode) (env_APP_TYPE : option pystr)
      (outcome : Light.discover_outcome) :
  fst (Light.discover_aggregator self env_APP_TYPE outcome)
  = Light.set_aggregator_addr
      (Light.aggregator_addr (fst (Light.discover_aggregator self env_APP_TYPE outcome)))
      self.
Proof.
  unfold Light.discover_aggregator.
  destruct outcome as [|status body];
    [symmetry; apply set_aggregator_addr_same|].
  destruct (Z.eqb status 200); [|symmetry; apply set_aggregator_addr_same].
  destruct (Light.truthy body) as [[a r]|];
    [|symmetry; apply set_aggregator_addr_same].
  destruct (Light.cand_aggregator_addr _) as [addr|];
    [|symmetry; apply set_aggregator_addr_same].
  destruct (Light.cand_aggregator_node_id _); reflexivity.
Qed.

Lemma watch_turn_effect (self : Light.LightNode) (env : LightTasks.round_env) :
  Light.anchors_verified (fst (LightTasks.watch_turn self env))
  = (Light.anchors_verified self + 1)%Z
  /\ (Light.aggregator_addr self <> [] ->
      Light.aggregator_addr (fst (LightTasks.watch_turn self env))
      = Light.aggregator_addr self
      /\ forall entry,
           ~ In (LightTasks.DiscoverLog entry) (snd (LightTasks.watch_turn self env))).
Proof.
  unfold LightTasks.watch_turn.
  destruct (sync_keeps self (LightTasks.sync_reply env) (LightTasks.sync_time env))
    as [Hagg Hver].
  destruct (LightTasks.sync_state_via_zk self _ _) as [self1 logs1].
  cbn [fst] in Hagg, Hver. split.
  - destruct (Light.aggregator_addr self1) as [|c a].
    + pose proof (discover_frame self1 (LightTasks.env_APP_TYPE env)
                    (LightTasks.discover_reply env)) as Hf.
      destruct (Light.discover_aggregator self1 _ _) as [self2 logs2].
      cbn [fst] in *. rewrite Hf. cbn. now rewrite Hver.
    + cbn. now rewrite Hver.
  - intros Hne. rewrite <- Hagg in Hne.
    destruct (Light.aggregator_addr self1) as [|c a] eqn:E; [congruence|].
    cbn [fst snd Light.aggregator_addr LightTasks.set_anchors_verified map app].
    rewrite <- Hagg, E. split; [reflexivity|].
    intros entry Hin. apply in_app_or in Hin. destruct Hin as [Hin|Hin].
    + apply in_map_iff in Hin. destruct Hin as [x [Hx _]]. discriminate.
    + destruct (_ =? 0)%Z; [destruct Hin as [Hin|[]]; discriminate|destruct Hin].
Qed.

(** X17: the anchor watch keeps the aggregator it has.  Once
    [aggregator_addr] is not empty no turn of the loop queries the registry
    again, so the selection stays, however good the candidates a query would
    have found; and [anchors_verified] goes up by one on every turn, whether
    the sync of that turn succeeded or not. *)
Theorem watch_keeps_its_aggregator (self : Light.LightNode)
        (envs : list LightTasks.round_env) :
  Light.anchors_verified (fst (LightTasks.watch_loop self envs))
  = (Light.anchors_verified self + Z.of_nat (length envs))%Z
  /\ (Light.aggregator_addr self <> [] ->
      Light.aggregator_addr (fst (LightTasks.watch_loop self envs))
      = Light.aggregator_addr self
      /\ forall entry,
           ~ In (LightTasks.DiscoverLog entry) (snd (LightTasks.watch_loop self envs))).
Proof.
  revert self. induction envs as [|env rest IH]; intros self.
  - cbn [LightTasks.watch_loop fst snd length]. split; [lia|].
    intros _. split; [reflexivity|intros entry []].
  - cbn [LightTasks.watch_loop].
    destruct (watch_turn_effect self env) as [Hver Hagg].
    destruct (LightTasks.watch_turn self env) as [self1 logs1].
    cbn [fst snd] in Hver, Hagg.
    destruct (IH self1) as [IHver IHagg].
    destruct (LightTasks.watch_loop self1 rest) as [self2 logs2].
    cbn [fst snd] in *. split.
    + rewrite IHver, Hver. cbn [length]. lia.
    + intros Hne. destruct (Hagg Hne) as [E1 Hl1].
      rewrite <- E1 in Hne. destruct (IHagg Hne) as [E2 Hl2].
      split; [now rewrite E2|].
      intros entry Hin. apply in_app_or in Hin.
      destruct Hin as [Hin|Hin]; [exact (Hl1 entry Hin)|exact (Hl2 entry Hin)].
Qed.

Lemma watch_keeps_its_aggregator_witness :
  Light.aggregator_addr
    (fst (LightTasks.watch_loop MoreSample.attached
            [MoreSample.round LightTasks.SyncRaised
               (Light.DiscoverReplied 200
                  (Light.AdsList [LightSample.candidate "better" (99 # 1)]));
             MoreSample.round (LightTasks.SyncReplied 200 MoreSample.good_proof)
               Light.DiscoverRaised]))
  = lit "203.0.113.9:8001"
  /\ Light.anchors_verified
       (fst (LightTasks.watch_loop MoreSample.attached
               [MoreSample.round LightTasks.SyncRaised
                  (Light.DiscoverReplied 200
                     (Light.AdsList [LightSample.candidate "better" (99 # 1)]));
                MoreSample.round (LightTasks.SyncReplied 200 MoreSample.good_proof)
                  Light.DiscoverRaised]))
     = 2%Z.
Proof.
  destruct (watch_keeps_its_aggregator MoreSample.attached
              [MoreSample.round LightTasks.SyncRaised
                 (Light.DiscoverReplied 200
                    (Light.AdsList [LightSample.candidate "better" (99 # 1)]));
               MoreSample.round (LightTasks.SyncReplied 200 MoreSample.good_proof)
                 Light.DiscoverRaised]) as [Hver Hagg].
  split.
  - destruct Hagg as [E _]; [discriminate|]. rewrite E. reflexivity.
  - rewrite Hver. reflexivity.
Defined.

(** X18: a discovery query never changes anything but the selection, and
    a query that fails (an exception, a status other than 200) does not
    change that either.  A best candidate that has an address but no node
    id is adopted all the same, although the only record logged is the one
    of a failed discovery. *)
Theorem discovery_failure_keeps_selection (self : Light.LightNode)
        (env_APP_TYPE : option pystr) (outcome : Light.discover_outcome) :
  fst (Light.discover_aggregator self env_APP_TYPE outcome)
  = Light.set_aggregator_addr
      (Light.aggregator_addr (fst (Light.discover_aggregator self env_APP_TYPE outcome)))
      self
  /\ (match outcome with
      | Light.DiscoverRaised => True
      | Light.DiscoverReplied status _ => status <> 200%Z
      end ->
      fst (Light.discover_aggregator self env_APP_TYPE outcome) = self)
  /\ (forall first others addr,
        outcome = Light.DiscoverReplied 200 (Light.AdsList (first :: others)) ->
        Light.cand_aggregator_addr (Light.max_from Light.score first others)
        = Some addr ->
        Light.cand_aggregator_node_id (Light.max_from Light.score first others)
        = None ->
        Light.discover_aggregator self env_APP_TYPE outcome
        = (Light.set_aggregator_addr addr self, [Light.LogDiscoveryError])).
Proof.
  split; [apply discover_frame|]. split.
  - unfold Light.discover_aggregator. destruct outcome as [|status body];
      [reflexivity|].
    intros Hne. destruct (Z.eqb_spec status 200); [congruence|reflexivity].
  - intros first others addr -> Haddr Hid. unfold Light.discover_aggregator.
    cbn [Z.eqb Pos.eqb Light.truthy]. now rewrite Haddr, Hid.
Qed.

Lemma discovery_failure_keeps_selection_witness :
  fst (Light.discover_aggregator MoreSample.attached None
         (Light.DiscoverReplied 503 Light.AdsNull))
  = MoreSample.attached.
Proof.
  destruct (discovery_failure_keeps_selection MoreSample.attached None
              (Light.DiscoverReplied 503 Light.AdsNull)) as [_ [H _]].
  apply H. discriminate.
Defined.

(** X19: at its start the anchor watch queries the registry whether or not
    [AGGREGATOR_ADDR] was configured: an answer that lists candidates
    replaces the configured aggregator by the best candidate's address,
    whatever the sync before it did. *)
Theorem watch_start_overrides_configured (node_id0 : pystr) (api_port0 : Z)
        (t0 : Q) (env_HEAVY_ADDR env_AGGREGATOR_ADDR : option pystr)
        (env : LightTasks.round_env) (first : Light.Candidate)
        (others : list Light.Candidate) (addr : pystr) :
  LightTasks.discover_reply env
  = Light.DiscoverReplied 200 (Light.AdsList (first :: others)) ->
  Light.cand_aggregator_addr (Light.max_from Light.score first others) = Some addr ->
  Light.aggregator_addr
    (fst (LightTasks.watch_start
            (LightTasks.init node_id0 api_port0 t0 env_HEAVY_ADDR env_AGGREGATOR_ADDR)
            env))
  = addr.
Proof.
  intros Hreply Haddr. unfold LightTasks.watch_start.
  destruct (LightTasks.sync_state_via_zk _ (LightTasks.sync_reply env)
              (LightTasks.sync_time env)) as [self1 logs1].
  rewrite Hreply. unfold Light.discover_aggregator.
  cbn [Z.eqb Pos.eqb Light.truthy]. rewrite Haddr.
  destruct (Light.cand_aggregator_node_id _); reflexivity.
Qed.

Lemma watch_start_overrides_configured_witness :
  Light.aggregator_addr
    (fst (LightTasks.watch_start
            (LightTasks.init (lit "71c0ffee-light") 8002 0%Q None
               (Some (lit "10.0.0.5:8001")))
            (MoreSample.round LightTasks.SyncRaised
               (Light.DiscoverReplied 200
                  (Light.AdsList [LightSample.candidate "B" (9 # 10)])))))
  = lit "B".
Proof.
  apply (watch_start_overrides_configured (lit "71c0ffee-light") 8002 0%Q None
           (Some (lit "10.0.0.5:8001"))
           (MoreSample.round LightTasks.SyncRaised
              (Light.DiscoverReplied 200
                 (Light.AdsList [LightSample.candidate "B" (9 # 10)])))
           (LightSample.candidate "B" (9 # 10)) []);
    reflexivity.
Defined.

(* ================================================================== *)
(** ** The external address; byte arrays on the wire *)

(** X20: an address taken from an external service is the stripped body of
    a 200 answer of one of the services asked; it is not empty, has fewer
    than 40 characters and no white space at either end, and it is logged. *)
Theorem external_address_is_plausible (env : AddrEnv) (urls : list pystr)
        (ip : pystr) :
  fst (external_ip env urls) = Some ip ->
  ip <> [] /\ (length ip < 40)%nat /\ strip ip = ip
  /\ snd (external_ip env urls) = [LogDetectedPublicIp ip]
  /\ exists url text,
       In url urls /\ ip_service env url = ServiceReplied 200 text
       /\ ip = strip text.
Proof.
  induction urls as [|url rest IH]; [discriminate|].
  cbn [external_ip].
  assert (Hrest : fst (external_ip env rest) = Some ip ->
                  ip <> [] /\ (length ip < 40)%nat /\ strip ip = ip
                  /\ snd (external_ip env rest) = [LogDetectedPublicIp ip]
                  /\ exists url0 text,
                       In url0 (url :: rest)
                       /\ ip_service env url0 = ServiceReplied 200 text
                       /\ ip = strip text).
  { intros H. destruct (IH H) as [H1 [H2 [H3 [H4 [u [t [Hin Hu]]]]]]].
    repeat split; auto. exists u, t. split; [now right|exact Hu]. }
  destruct (ip_service env url) as [|status text] eqn:Es; [exact Hrest|].
  destruct (Z.eqb_spec status 200) as [->|Hne]; [|exact Hrest].
  destruct (nonempty (strip text)) eqn:Hn; cbn [andb]; [|exact Hrest].
  destruct (Nat.ltb (length (strip text)) 40) eqn:Hl; [|exact Hrest].
  cbn [fst snd]. intros H. injection H as <-.
  apply nonempty_length in Hn. apply Nat.ltb_lt in Hl.
  split; [destruct (strip text); [cbn in Hn; lia|discriminate]|].
  split; [exact Hl|]. split; [apply strip_idempotent|]. split; [reflexivity|].
  exists url, text. split; [now left|]. split; [exact Es|reflexivity].
Qed.

Lemma external_address_is_plausible_witness :
  strip (lit "198.51.100.7") = lit "198.51.100.7"
  /\ snd (external_ip Sample.behind_nat ip_service_urls)
     = [LogDetectedPublicIp (lit "198.51.100.7")].
Proof.
  destruct (external_address_is_plausible Sample.behind_nat ip_service_urls
              (lit "198.51.100.7")) as [_ [_ [H1 [H2 _]]]];
    [vm_compute; reflexivity|].
  split; [exact H1|exact H2].
Defined.

Lemma bytes_of_list_of_bytes (b : pybytes) :
  Forall (fun x => (x < 256)%N) b ->
  LightTasks.bytes_of (list_of_bytes b) = Some b.
Proof.
  induction 1 as [|x r Hx _ IH]; [reflexivity|].
  unfold list_of_bytes in *. cbn [map LightTasks.bytes_of]. rewrite IH.
  assert (H0 : (0 <=? Z.of_N x)%Z = true) by (apply Z.leb_le; lia).
  assert (H1 : (Z.of_N x <? 256)%Z = true) by (apply Z.ltb_lt; lia).
  rewrite H0, H1. cbn [andb]. now rewrite N2Z.id.
Qed.

(** X21: byte arrays travel as JSON lists of integers and come back whole:
    [bytes(list(b))] is [b] for every byte string, in particular for the
    digest sent as [batch_root]; [bytes(l)] succeeds exactly when every item
    of [l] is in 0..255, and then [list(bytes(l))] is [l]. *)
Theorem byte_list_round_trip (l : list Z) :
  (forall msg,
      LightTasks.bytes_of (list_of_bytes (Sha256.sha256 msg))
      = Some (Sha256.sha256 msg))
  /\ (forall b, LightTasks.bytes_of l = Some b ->
        list_of_bytes b = l /\ length b = length l
        /\ Forall (fun x => (x < 256)%N) b)
  /\ (LightTasks.bytes_of l = None <->
      exists z, In z l /\ (z < 0 \/ 255 < z)%Z).
Proof.
  split; [intros msg; apply bytes_of_list_of_bytes, sha256_bytes|].
  induction l as [|z r [IHok IHbad]].
  - split.
    + intros b H. injection H as <-. repeat split. constructor.
    + split; [discriminate|intros [z [[] _]]].
  - cbn [LightTasks.bytes_of].
    destruct (Z.leb_spec 0 z) as [H0|H0];
      [destruct (Z.ltb_spec z 256) as [H1|H1]|]; cbn [andb].
    + destruct (LightTasks.bytes_of r) as [bs|]; split.
      * intros b H. injection H as <-.
        destruct (IHok bs eq_refl) as [E1 [E2 E3]].
        unfold list_of_bytes in *. cbn [map length].
        rewrite E1, E2, Z2N.id by lia. repeat split.
        constructor; [lia|exact E3].
      * split; [discriminate|]. intros [z0 [[<-|Hin] Hz]]; [lia|].
        assert (Hnone : @None pybytes = None) by reflexivity.
        assert (Hex : exists z1, In z1 r /\ (z1 < 0 \/ 255 < z1)%Z) by eauto.
        apply IHbad in Hex. discriminate.
      * discriminate.
      * split; [|reflexivity]. intros _.
        destruct IHbad as [Hb _]. destruct (Hb eq_refl) as [z0 [Hin Hz]].
        exists z0. split; [now right|exact Hz].
    + split; [discriminate|]. split; [|reflexivity].
      intros _. exists z. split; [now left|lia].
    + split; [discriminate|]. split; [|reflexivity].
      intros _. exists z. split; [now left|lia].
Qed.

(* ================================================================== *)
(** ** Junk bodies; the first probe *)

(** X22: [submit_tx] stores nothing unless the body is a JSON object with
    the three required keys: invalid JSON, a JSON value that is not an
    object (a list or a string that contains the three names included) and
    an object that lacks a key all leave the node exactly as it was; what is
    stored otherwise is the body with [id] and [received_at] set. *)
Theorem only_complete_objects_are_stored (self : MediumNode)
        (body : option json) (uuid4 : N) (now : Q) :
  fst (fst (submit_tx self body uuid4 now)) = self
  \/ exists d,
       body = Some (JObj d) /\ has_required d = true
       /\ fst (fst (submit_tx self body uuid4 now)) = accepting self d uuid4 now.
Proof.
  destruct (submit_tx_node self body uuid4 now) as [E|[d [Hb E]]]; [now left|].
  destruct (has_required d) eqn:Hreq.
  - right. exists d. auto.
  - left. subst body.
    destruct (submit_tx_missing_field self d uuid4 now Hreq) as [f [_ [_ Em]]].
    now rewrite Em.
Qed.

(** X23: a node that has not been probed yet (both flags unset, as
    [__init__] leaves them and as submissions keep them) is neither online
    nor in shadow mode, whatever it has buffered.  Its first probe logs
    nothing whichever way it goes: a 200 puts it online, anything else puts
    it in shadow mode silently.  Until then every turn of the anchoring loop
    and of the advertiser is skipped, buffered transactions or not. *)
Theorem first_probe_is_silent (self : MediumNode) (probe : http_outcome) (now : Q) :
  heavy_online self = false ->
  shadow_mode self = false ->
  is_online self = false /\ is_shadow self = false
  /\ snd (monitor_heavy_nodes self probe now) = []
  /\ is_online (fst (monitor_heavy_nodes self probe now)) = probe_ok probe
  /\ is_shadow (fst (monitor_heavy_nodes self probe now)) = negb (probe_ok probe)
  /\ (forall keys outcome,
        batch_flush self keys outcome = TurnSkipped
        /\ node_after self (batch_flush self keys outcome) = self)
  /\ (forall public_ip env, advertise_request self public_ip env = None)
  /\ (forall body uuid4 t,
        heavy_online (fst (fst (submit_tx self body uuid4 t))) = false
        /\ shadow_mode (fst (fst (submit_tx self body uuid4 t))) = false)
  /\ (forall node_id0 api_port0 t0 env_HEAVY_ADDR,
        heavy_online (init node_id0 api_port0 t0 env_HEAVY_ADDR) = false
        /\ shadow_mode (init node_id0 api_port0 t0 env_HEAVY_ADDR) = false).
Proof.
  intros Hoff Hsh. unfold is_online, is_shadow at 1. rewrite Hoff, Hsh.
  split; [reflexivity|]. split; [reflexivity|].
  assert (Hprobe : snd (monitor_heavy_nodes self probe now) = []
                   /\ is_online (fst (monitor_heavy_nodes self probe now))
                      = probe_ok probe
                   /\ is_shadow (fst (monitor_heavy_nodes self probe now))
                      = negb (probe_ok probe)).
  { destruct (probe_ok probe) eqn:E.
    - rewrite (monitor_probe_ok self probe now E), Hsh. repeat split.
    - rewrite (monitor_probe_failed self probe now E), Hoff. repeat split. }
  destruct Hprobe as [H1 [H2 H3]].
  split; [exact H1|]. split; [exact H2|]. split; [exact H3|].
  split; [|split; [|split]].
  - intros keys outcome. unfold batch_flush, batch_flush_start. rewrite Hoff.
    rewrite orb_true_r. split; reflexivity.
  - intros public_ip env. unfold advertise_request. now rewrite Hoff.
  - intros body uuid4 t.
    destruct (submit_tx_node self body uuid4 t) as [E|[d [_ E]]]; rewrite E;
      split; assumption.
  - intros. split; reflexivity.
Qed.

Lemma first_probe_is_silent_witness :
  length (mempool (set_heavy_online false (Sample.node_with 3))) = 3%nat
  /\ batch_flush (set_heavy_online false (Sample.node_with 3)) [] (Responded 200)
     = TurnSkipped
  /\ monitor_heavy_nodes (set_heavy_online false (Sample.node_with 3)) Failed 30%Q
     = (set_shadow_mode true (set_heavy_online false (Sample.node_with 3)), []).
Proof.
  destruct (first_probe_is_silent (set_heavy_online false (Sample.node_with 3))
              Failed 30%Q eq_refl eq_refl)
    as [_ [_ [Hlog [_ [_ [Hflush _]]]]]].
  split; [reflexivity|]. split; [apply Hflush|].
  reflexivity.
Defined.
